(** * Real-time messaging and bot-activity core

    A shallow embedding of the connection registry
    ([app/core/websocket.py]), the realtime protocol handler
    ([app/routes/websocket.py]), the bot eligibility / response code
    ([app/services/bot_service.py]) and the direct-conversation lookup
    ([app/services/message_service.py]), with the properties the
    specification states about them. *)

From Stdlib Require Import ZArith List String Ascii Bool Lia DecimalString Sorted.
From stdpp Require Import gmap strings list fin_maps.

Local Open Scope Z_scope.

(** ** Outbound events

    The dictionaries the server serialises onto a socket.  Timestamps are
    readings of the server clock ([datetime.utcnow()]), kept as integers. *)

Inductive event :=
| MessageEvent (message_id conversation_id sender_id : Z) (content : string)
| TypingEvent (conversation_id user_id : Z) (is_typing : bool) (timestamp : Z)
| UserStatusEvent (user_id : Z) (status : string) (timestamp : Z)
| ReadReceiptEvent (conversation_id user_id : Z) (timestamp : Z)
| ErrorEvent (message : string)
| PongEvent.

(** ** The connection registry: [app/core/websocket.py] *)

Module Registry.

(** A [WebSocket] object is identified by a number. *)
Definition WebSocket := nat.

(** [ConnectionManager.__init__]: the three attributes of the manager. *)
Record ConnectionManager := {
  active_connections : gmap Z (list WebSocket);
  online_users : gset Z;
  typing_users : gmap Z (gset Z)
}.

Definition init : ConnectionManager :=
  {| active_connections := ∅; online_users := ∅; typing_users := ∅ |}.

(** One call of [connection.send_text]: the user whose connection list is
    being walked, the socket, what was sent and whether the call returned
    (as opposed to raising). *)
Record delivery := {
  addressee : Z;
  socket : WebSocket;
  payload : event;
  delivered : bool
}.

(** The manager together with the transport it talks to: the trace of
    [send_text] calls so far and the outcomes of the calls to come
    ([true]: the call raises; an exhausted script means the call
    returns). A method runs from start to end: other tasks are not
    interleaved at its [await]s. *)
Record World := {
  manager : ConnectionManager;
  sent : list delivery;
  faults : list bool
}.

Definition start (script : list bool) : World :=
  {| manager := init; sent := []; faults := script |}.

Definition with_manager (f : ConnectionManager → ConnectionManager) (w : World) : World :=
  {| manager := f (manager w); sent := sent w; faults := faults w |}.

(** [list.remove(x)]: drops the first occurrence. *)
Fixpoint list_remove (x : WebSocket) (l : list WebSocket) : list WebSocket :=
  match l with
  | [] => []
  | y :: l' => if decide (x = y) then l' else y :: list_remove x l'
  end.

(** [ConnectionManager.disconnect]. *)
Definition disconnect (websocket : WebSocket) (user_id : Z)
    (cm : ConnectionManager) : ConnectionManager :=
  match active_connections cm !! user_id with
  | None => cm
  | Some conns =>
      let conns' :=
        if decide (websocket ∈ conns) then list_remove websocket conns else conns in
      match conns' with
      | [] => {| active_connections := delete user_id (active_connections cm);
                 online_users := online_users cm ∖ {[user_id]};
                 typing_users := typing_users cm |}
      | _ => {| active_connections := <[user_id := conns']> (active_connections cm);
                online_users := online_users cm;
                typing_users := typing_users cm |}
      end
  end.

(** [await connection.send_text(message_json)] inside its [try]. *)
Definition send_text (user_id : Z) (connection : WebSocket) (message : event)
    (w : World) : bool * World :=
  let raises := match faults w with b :: _ => b | [] => false end in
  (negb raises,
   {| manager := manager w;
      sent := sent w ++ [{| addressee := user_id; socket := connection;
                            payload := message; delivered := negb raises |}];
      faults := tail (faults w) |}).

(** The [for connection in self.active_connections[user_id]] loop of
    [send_personal_message]; returns the [disconnected] list. *)
Fixpoint send_each (user_id : Z) (message : event) (conns : list WebSocket)
    (w : World) : list WebSocket * World :=
  match conns with
  | [] => ([], w)
  | connection :: rest =>
      let '(ok, w1) := send_text user_id connection message w in
      let '(disconnected, w2) := send_each user_id message rest w1 in
      (if ok then disconnected else connection :: disconnected, w2)
  end.

(** [ConnectionManager.send_personal_message]. *)
Definition send_personal_message (message : event) (user_id : Z) (w : World) : World :=
  match active_connections (manager w) !! user_id with
  | None => w
  | Some conns =>
      let '(disconnected, w1) := send_each user_id message conns w in
      foldl (λ w' conn, with_manager (disconnect conn user_id) w') w1 disconnected
  end.

(** [ConnectionManager.send_to_conversation]; [sender_id] is [None] by
    default. *)
Fixpoint send_to_conversation (message : event) (participant_ids : list Z)
    (exclude_sender : bool) (sender_id : option Z) (w : World) : World :=
  match participant_ids with
  | [] => w
  | user_id :: rest =>
      if exclude_sender && bool_decide (Some user_id = sender_id)
      then send_to_conversation message rest exclude_sender sender_id w
      else send_to_conversation message rest exclude_sender sender_id
             (send_personal_message message user_id w)
  end.

(** [list(self.active_connections.keys())]. Python lists the keys in
    insertion order, [map_to_list] in the order of the map; the broadcast
    reaches the same users either way. *)
Definition connected_keys (cm : ConnectionManager) : list Z :=
  (map_to_list (active_connections cm)).*1.

(** [ConnectionManager.broadcast_user_status]. *)
Definition broadcast_user_status (user_id : Z) (status : string) (now : Z)
    (w : World) : World :=
  foldl (λ w' uid, send_personal_message (UserStatusEvent user_id status now) uid w')
        w (connected_keys (manager w)).

(** [ConnectionManager.connect]. *)
Definition register (websocket : WebSocket) (user_id : Z)
    (cm : ConnectionManager) : ConnectionManager :=
  {| active_connections :=
       <[user_id := default [] (active_connections cm !! user_id) ++ [websocket]]>
         (active_connections cm);
     online_users := online_users cm ∪ {[user_id]};
     typing_users := typing_users cm |}.

Definition connect (websocket : WebSocket) (user_id : Z) (now : Z) (w : World) : World :=
  broadcast_user_status user_id "online" now (with_manager (register websocket user_id) w).

(** The first half of [broadcast_typing_status]: the update of
    [typing_users]. *)
Definition set_typing (conversation_id user_id : Z) (is_typing : bool)
    (cm : ConnectionManager) : ConnectionManager :=
  {| active_connections := active_connections cm;
     online_users := online_users cm;
     typing_users :=
       if is_typing then
         <[conversation_id :=
             default ∅ (typing_users cm !! conversation_id) ∪ {[user_id]}]>
           (typing_users cm)
       else
         match typing_users cm !! conversation_id with
         | None => typing_users cm
         | Some typists =>
             let typists' := typists ∖ {[user_id]} in
             if decide (typists' = ∅)
             then delete conversation_id (typing_users cm)
             else <[conversation_id := typists']> (typing_users cm)
         end |}.

(** The second half: [for uid in participant_ids: if uid != user_id: ...]. *)
Fixpoint send_except (message : event) (user_id : Z) (participant_ids : list Z)
    (w : World) : World :=
  match participant_ids with
  | [] => w
  | uid :: rest =>
      if decide (uid ≠ user_id)
      then send_except message user_id rest (send_personal_message message uid w)
      else send_except message user_id rest w
  end.

(** [ConnectionManager.broadcast_typing_status]. *)
Definition broadcast_typing_status (conversation_id user_id : Z) (is_typing : bool)
    (participant_ids : list Z) (now : Z) (w : World) : World :=
  send_except (TypingEvent conversation_id user_id is_typing now) user_id participant_ids
    (with_manager (set_typing conversation_id user_id is_typing) w).

(** [is_user_online], [get_online_users], [get_typing_users]. *)
Definition is_user_online (cm : ConnectionManager) (user_id : Z) : bool :=
  bool_decide (user_id ∈ online_users cm).

Definition get_online_users (cm : ConnectionManager) : list Z :=
  elements (online_users cm).

Definition get_typing_users (cm : ConnectionManager) (conversation_id : Z) : list Z :=
  elements (default ∅ (typing_users cm !! conversation_id)).

(** The connections registered for a user: the list under the user's key,
    none when the key is absent. *)
Definition connections_of (cm : ConnectionManager) (user_id : Z) : list WebSocket :=
  default [] (active_connections cm !! user_id).

(** A call of one of the manager's methods, and the effect of a sequence
    of calls. *)
Inductive call :=
| Connect (websocket : WebSocket) (user_id : Z) (now : Z)
| Disconnect (websocket : WebSocket) (user_id : Z)
| SendPersonalMessage (message : event) (user_id : Z)
| SendToConversation (message : event) (participant_ids : list Z)
    (exclude_sender : bool) (sender_id : option Z)
| BroadcastUserStatus (user_id : Z) (status : string) (now : Z)
| BroadcastTypingStatus (conversation_id user_id : Z) (is_typing : bool)
    (participant_ids : list Z) (now : Z).

Definition perform (c : call) (w : World) : World :=
  match c with
  | Connect ws u now => connect ws u now w
  | Disconnect ws u => with_manager (disconnect ws u) w
  | SendPersonalMessage m u => send_personal_message m u w
  | SendToConversation m ps ex s => send_to_conversation m ps ex s w
  | BroadcastUserStatus u st now => broadcast_user_status u st now w
  | BroadcastTypingStatus c u b ps now => broadcast_typing_status c u b ps now w
  end.

Definition run (calls : list call) (w : World) : World :=
  foldl (λ w' c, perform c w') w calls.

(** *** Vocabulary of the properties *)

(** The [send_text] calls made between two worlds. *)
Definition emitted (w w' : World) : list delivery :=
  drop (length (sent w)) (sent w').

(** [online_users] is the set of users with a non-empty connection list. *)
Definition online_inv (cm : ConnectionManager) : Prop :=
  ∀ u, u ∈ online_users cm ↔ connections_of cm u ≠ [].

(** No conversation is bound to an empty set of typists. *)
Definition typing_inv (cm : ConnectionManager) : Prop :=
  ∀ c typists, typing_users cm !! c = Some typists → typists ≠ ∅.

(** [w'] continues [w]: the trace only grows, by [ds]. *)
Definition extends (w w' : World) (ds : list delivery) : Prop :=
  sent w' = sent w ++ ds.

(** Sending one message to each of a list of users, in order. *)
Definition send_all (m : event) (us : list Z) (w : World) : World :=
  foldl (λ w' uid, send_personal_message m uid w') w us.

End Registry.

(** ** Python string operations used by the services

    A [str] is represented by its UTF-8 encoding, so one character is the
    bytes of one code point. White space is that of [str.isspace], on
    which [str.strip] and [str.split] rely. [str.lower] is given in full
    on the characters whose lower case has an ASCII letter: the letters A
    to Z, the Kelvin sign U+212A (lower case [k]) and U+0130 (lower case
    [i] followed by U+0307). Python lower-cases other letters as well,
    always into characters outside ASCII and never into white space;
    these are kept as they are, which changes neither the white space of
    a text nor the places where an ASCII word occurs in it. *)

Module PyStr.

Local Open Scope string_scope.

(** A continuation byte of UTF-8, [10xxxxxx]. *)
Definition is_continuation (c : ascii) : bool :=
  let n := N_of_ascii c in ((128 <=? n) && (n <=? 191))%N.

(** The characters of a text: each byte that is not a continuation byte
    starts one. *)
Fixpoint chars (s : string) : list string :=
  match s with
  | EmptyString => []
  | String c s' =>
      let following := chars s' in
      match s', following with
      | String c' _, ch :: rest =>
          if is_continuation c' then String c ch :: rest
          else String c EmptyString :: following
      | _, _ => String c EmptyString :: following
      end
  end.

(** The bytes of a character, and the character of some bytes. *)
Definition bytes (ch : string) : list N :=
  map N_of_ascii (list_ascii_of_string ch).

Definition of_bytes (l : list N) : string :=
  string_of_list_ascii (map ascii_of_N l).

(** [str.isspace] on one character: U+0009..U+000D, U+001C..U+0020,
    U+0085, U+00A0, U+1680, U+2000..U+200A, U+2028, U+2029, U+202F,
    U+205F and U+3000. *)
Definition is_space (ch : string) : bool :=
  match bytes ch with
  | [n] => ((9 <=? n) && (n <=? 13) || (28 <=? n) && (n <=? 32))%N
  | [194; n]%N => ((n =? 133) || (n =? 160))%N
  | [225; 154; 128]%N => true
  | [226; 128; n]%N =>
      ((128 <=? n) && (n <=? 138) || (n =? 168) || (n =? 169) || (n =? 175))%N
  | [226; 129; 159]%N => true
  | [227; 128; 128]%N => true
  | _ => false
  end.

(** [str.lower] on one character. *)
Definition lower_char (ch : string) : string :=
  match bytes ch with
  | [n] => if ((65 <=? n) && (n <=? 90))%N then of_bytes [n + 32]%N else ch
  | [196; 176]%N => of_bytes [105; 204; 135]%N
  | [226; 132; 170]%N => "k"
  | _ => ch
  end.

(** [str.lower]. *)
Definition lower (s : string) : string :=
  String.concat "" (map lower_char (chars s)).

(** The characters left once the leading white space is dropped. *)
Fixpoint lstrip (cs : list string) : list string :=
  match cs with
  | [] => []
  | ch :: rest => if is_space ch then lstrip rest else cs
  end.

(** [str.strip()]. *)
Definition strip (s : string) : string :=
  String.concat "" (rev (lstrip (rev (lstrip (chars s))))).

(** [needle in hay]. *)
Fixpoint contains (needle hay : string) : bool :=
  if String.prefix needle hay then true
  else match hay with
       | EmptyString => false
       | String _ hay' => contains needle hay'
       end.

(** [str.split()] without arguments: the maximal runs of characters that
    are not white space. [word] is the run being read, if any. *)
Fixpoint split_from (word : option string) (cs : list string) : list string :=
  match cs with
  | [] => match word with Some w => [w] | None => [] end
  | ch :: rest =>
      if is_space ch then
        match word with
        | Some w => w :: split_from None rest
        | None => split_from None rest
        end
      else split_from (Some (default EmptyString word ++ ch)) rest
  end.

Definition split (s : string) : list string := split_from None (chars s).

End PyStr.

(** ** The tables: [app/models/user.py], [message.py], [bot.py] *)

Module Models.

Inductive ConversationType := DIRECT | GROUP.

Inductive BotPersonality :=
| FRIENDLY | PROFESSIONAL | HUMOROUS | EDUCATIONAL | ENTHUSIAST | CREATIVE | ANALYTICAL.

Inductive BotActivityType :=
| POST | COMMENT | MESSAGE | COMMUNITY_CREATE | COMMUNITY_JOIN | PRODUCT_LIST | REACT.

Record User := {
  u_id : Z;
  u_name : string;
  u_is_bot : bool
}.

Record Conversation := {
  c_id : Z;
  c_type : ConversationType;
  c_created_by_id : option Z
}.

Record ConversationParticipant := {
  p_id : Z;
  p_conversation_id : Z;
  p_user_id : Z;
  p_is_active : bool
}.

Record Message := {
  m_id : Z;
  m_conversation_id : Z;
  m_sender_id : Z;
  m_content : string;
  m_created_at : Z;
  m_is_deleted : bool
}.

Record Bot := {
  b_id : Z;
  b_user_id : Z;
  b_personality : option BotPersonality;
  b_is_active : bool;
  b_activity_frequency : Z;
  b_max_daily_activities : Z;
  b_can_post : bool;
  b_can_message : bool;
  b_can_list_products : bool;
  b_total_messages : Z;
  b_last_activity_at : option Z
}.

Record BotActivity := {
  a_id : Z;
  a_bot_id : Z;
  a_activity_type : BotActivityType;
  a_description : string;
  a_message_id : option Z;
  a_success : bool;
  a_created_at : Z
}.

(** The session's view of the database. A table is the list of its rows in
    the order a query without [ORDER BY] yields them. Date-times are
    microseconds on the server's UTC clock, counted from a midnight.
    The records keep the columns the modelled code reads; a column it
    uses without testing for [None] is not nullable here. *)
Record Database := {
  users : list User;
  conversations : list Conversation;
  conversation_participants : list ConversationParticipant;
  messages : list Message;
  bots : list Bot;
  bot_activities : list BotActivity
}.

(** The key an autoincrement column gives the next row. *)
Definition next_id (ids : list Z) : Z := 1 + foldr Z.max 0 ids.

(** Exceptions the modelled code can raise. *)
Inductive exn :=
| AttributeError
| IndexError
| ValueError (message : string)
| JSONDecodeError
| WebSocketDisconnect
| OtherException.

Inductive result (A : Type) :=
| Returned (a : A)
| Raised (e : exn).
Arguments Returned {A} a.
Arguments Raised {A} e.

End Models.

(** ** The bot service: [app/services/bot_service.py] *)

Module BotService.
Import Models.

Inductive response_type := Greeting | Question | Thanks | General | Default.

(** The [responses] dictionary of [_generate_message_response]. *)
Local Open Scope string_scope.
Definition responses (personality : BotPersonality) (rt : response_type) : list string :=
  match personality, rt with
  | FRIENDLY, Greeting =>
      ["Hi there! 😊";
       "Hey! Great to hear from you!";
       "Hello! How are you doing?"]
  | FRIENDLY, Question =>
      ["That's a great question! Let me think about that...";
       "Hmm, interesting! I'd say...";
       "Good point! From what I know..."]
  | FRIENDLY, Thanks =>
      ["You're welcome! Happy to help! 😊";
       "No problem at all!";
       "Glad I could help!"]
  | FRIENDLY, General =>
      ["Thanks for your message!";
       "I see what you mean!";
       "That's interesting!";
       "Tell me more about that!"]
  | FRIENDLY, Default =>
      ["Thanks for reaching out! What can I help you with?";
       "Nice to hear from you! How's everything going?"]
  | PROFESSIONAL, Greeting =>
      ["Hello! How can I assist you today?";
       "Good day! What can I help you with?";
       "Greetings! How may I be of service?"]
  | PROFESSIONAL, Question =>
      ["That's an excellent question. Based on my knowledge...";
       "Let me provide some insight on that topic...";
       "From a professional standpoint..."]
  | PROFESSIONAL, Thanks =>
      ["You're welcome. I'm here to help.";
       "My pleasure. Don't hesitate to ask if you need anything else.";
       "Glad to be of assistance."]
  | PROFESSIONAL, General =>
      ["I understand.";
       "That's noted.";
       "I'll keep that in mind.";
       "Thank you for sharing that information."]
  | PROFESSIONAL, Default =>
      ["How can I help you today?";
       "What would you like to discuss?";
       "I'm here to assist with any questions you might have."]
  | HUMOROUS, Greeting =>
      ["Hey there, friend! 👋";
       "What's up, buttercup? 🌻";
       "Greetings, earthling! 👽"]
  | HUMOROUS, Question =>
      ["Ooh, that's a brain-teaser! Let me think... 🤔";
       "Great question! My circuits are firing! ⚡";
       "Hmm, that's like asking a fish about water! 🐠"]
  | HUMOROUS, Thanks =>
      ["No prob, Bob! 😄";
       "You're welcome! I'm just doing my bot-ly duties! 🤖";
       "Happy to help! What's next on the agenda?"]
  | HUMOROUS, General =>
      ["That's wild! 🌪️";
       "Tell me more, I'm all ears! 👂";
       "Whoa, didn't see that coming! 🎪"]
  | HUMOROUS, Default =>
      ["Hey! What's cooking? 🍳";
       "What's the word on the street? 🗣️";
       "Ready for some fun conversation? 🎈"]
  | EDUCATIONAL, Greeting =>
      ["Hello! Ready to learn something new?";
       "Greetings! What would you like to explore today?";
       "Hi there! Let's expand our knowledge together!"]
  | EDUCATIONAL, Question =>
      ["Excellent question! Let me explain...";
       "That's a fascinating topic. Here's what I know...";
       "Great inquiry! Let me break this down for you..."]
  | EDUCATIONAL, Thanks =>
      ["You're welcome! Knowledge is meant to be shared.";
       "Happy to help with your learning journey!";
       "Glad I could contribute to your understanding."]
  | EDUCATIONAL, General =>
      ["That's an interesting perspective!";
       "I appreciate you sharing that insight.";
       "Let's explore this further.";
       "That's worth considering."]
  | EDUCATIONAL, Default =>
      ["What topic would you like to discuss?";
       "I'm here to help you learn and grow!";
       "What questions do you have today?"]
  | ENTHUSIAST, Greeting =>
      ["OMG HI!!! 🎉✨";
       "YAY! You're here! 🌟";
       "HELLO FRIEND!!! 💫"]
  | ENTHUSIAST, Question =>
      ["THIS IS SUCH A GREAT QUESTION!!! 🤩";
       "OMG I LOVE THIS TOPIC!!! LET ME TELL YOU!!! 🚀";
       "WOW! That's amazing! Here's what I think!!! 💥"]
  | ENTHUSIAST, Thanks =>
      ["YOU'RE THE BEST!!! THANK YOU!!! 🌈";
       "AHHH THANK YOU SO MUCH!!! 💖";
       "YAY! I'm so happy I could help!!! 🎊"]
  | ENTHUSIAST, General =>
      ["THAT'S AMAZING!!! ✨";
       "I'M SO EXCITED ABOUT THIS!!! 🎈";
       "THIS IS THE BEST!!! 💯"]
  | ENTHUSIAST, Default =>
      ["HI FRIEND!!! WHAT'S NEW??? 🌟";
       "YAY! Let's chat!!! 💬";
       "I'm SO excited you're here!!! 🎉"]
  | CREATIVE, Greeting =>
      ["Hello, creative soul! 🎨";
       "Greetings, fellow dreamer! 🌈";
       "Hi there, imagination enthusiast! ✨"]
  | CREATIVE, Question =>
      ["What a wonderfully creative question! Let me paint you a picture... 🎨";
       "That's like asking an artist about colors! Here's my creative take... 🌈";
       "Ooh, that's inspiring! Let me think outside the box... 💡"]
  | CREATIVE, Thanks =>
      ["You're welcome! Creativity flows both ways! 🌊";
       "Happy to collaborate on this creative journey! 🎭";
       "Thanks for the inspiration! Let's keep creating! 🎨"]
  | CREATIVE, General =>
      ["That's beautifully unique! 🌟";
       "I love this perspective! 🎭";
       "Such creative thinking! 💫"]
  | CREATIVE, Default =>
      ["Hello! Ready to explore some creative ideas? 🎨";
       "What creative adventures shall we embark on? 🌈";
       "Let's think of something amazing together! ✨"]
  | ANALYTICAL, Greeting =>
      ["Greetings. How can I assist with your inquiry?";
       "Hello. What data would you like to analyze?";
       "Good day. What logical problem shall we solve?"]
  | ANALYTICAL, Question =>
      ["Excellent question. Let me analyze this systematically...";
       "That's a logical inquiry. Based on available data...";
       "Let me break this down analytically..."]
  | ANALYTICAL, Thanks =>
      ["You're welcome. Data-driven assistance is my specialty.";
       "Glad to provide logical clarity.";
       "Analysis complete. Happy to help further."]
  | ANALYTICAL, General =>
      ["Noted. That's an interesting data point.";
       "I see. That's worth analyzing.";
       "Understood. Let's examine the facts.";
       "That's a logical observation."]
  | ANALYTICAL, Default =>
      ["How can I help you analyze something today?";
       "What data would you like me to process?";
       "Ready for some logical analysis?"]
  end.
Local Close Scope string_scope.

Definition greeting_words : list string :=
  ["hello"; "hi"; "hey"; "greetings"; "good morning"; "good afternoon";
   "good evening"]%string.

Definition thanks_words : list string :=
  ["thanks"; "thank you"; "thx"; "ty"; "appreciate"]%string.

Definition question_words : list string :=
  ["?"; "how"; "what"; "why"; "when"; "where"; "who"]%string.

(** [any(word in content_lower for word in words)]. *)
Definition any_in (words : list string) (content_lower : string) : bool :=
  existsb (λ word, PyStr.contains word content_lower) words.

(** The [response_type] chosen by [_generate_message_response]. *)
Definition classify (message_content : string) : response_type :=
  let content_lower := PyStr.strip (PyStr.lower message_content) in
  if any_in greeting_words content_lower then Greeting
  else if any_in thanks_words content_lower then Thanks
  else if any_in question_words content_lower then Question
  else if (3 <? length (PyStr.split content_lower))%nat then General
  else Default.

(** [random.choice(options)], the draw being [pick]; it raises
    [IndexError] on an empty list. *)
Definition choice {A : Type} (pick : nat) (options : list A) : option A :=
  options !! (pick mod length options)%nat.

(** [BotService._generate_message_response]. *)
Definition _generate_message_response (pick : nat) (message_content : string)
    (personality : option BotPersonality) : option string :=
  let personality_responses := responses (default FRIENDLY personality) in
  choice pick (personality_responses (classify message_content)).

(** [BotService.get_bot_by_user_id]. *)
Definition get_bot_by_user_id (db : Database) (user_id : Z) : option Bot :=
  List.find (λ b, b_user_id b =? user_id) (bots db).

(** The start of the day of [now]: [now.replace(hour=0, minute=0,
    second=0, microsecond=0)]. *)
Definition day_us : Z := 86400 * 1000000.

Definition today_start (now : Z) : Z := now - now mod day_us.

(** The [func.count] query of [should_bot_act]. *)
Definition today_activities (db : Database) (bot : Bot) (now : Z) : Z :=
  Z.of_nat (length (List.filter
    (λ a, (a_bot_id a =? b_id bot) && (today_start now <=? a_created_at a))
    (bot_activities db))).

(** [BotService.should_bot_act]; [now] is the reading of [datetime.utcnow()].
    [timedelta.total_seconds() < n] is compared exactly, in microseconds
    (the float of [total_seconds()] is exact for any interval shorter than
    two centuries). *)
Definition should_bot_act (now : Z) (db : Database) (bot : Bot) : bool :=
  if b_max_daily_activities bot <=? today_activities db bot now then false
  else
    match b_last_activity_at bot with
    | Some last_activity_at =>
        let time_since_last := now - last_activity_at in
        if time_since_last <? b_activity_frequency bot * 60 * 1000000 then false
        else true
    | None => true
    end.

(** [bot.total_messages += 1] (and, when [stamp] is given,
    [bot.last_activity_at = stamp]) written back by [db.commit()] to the row
    of the bot's primary key. *)
Definition commit_bot (bot : Bot) (stamp : option Z) (rows : list Bot) : list Bot :=
  map (λ row,
         if b_id row =? b_id bot then
           {| b_id := b_id row;
              b_user_id := b_user_id row;
              b_personality := b_personality row;
              b_is_active := b_is_active row;
              b_activity_frequency := b_activity_frequency row;
              b_max_daily_activities := b_max_daily_activities row;
              b_can_post := b_can_post row;
              b_can_message := b_can_message row;
              b_can_list_products := b_can_list_products row;
              b_total_messages := b_total_messages bot + 1;
              b_last_activity_at :=
                match stamp with
                | Some t => Some t
                | None => b_last_activity_at row
                end |}
         else row) rows.

(** The tail shared by both response paths: add the response message,
    flush, log the [BotActivity], count the message, commit.
    [created_at] and [logged_at] are the clock readings for the message and
    for the activity row. *)
Definition post_response (db : Database) (bot : Bot) (conversation_id : Z)
    (response_content description : string) (created_at logged_at : Z)
    (stamp : option Z) : Message * Database :=
  let response :=
    {| m_id := next_id (map m_id (messages db));
       m_conversation_id := conversation_id;
       m_sender_id := b_user_id bot;
       m_content := response_content;
       m_created_at := created_at;
       m_is_deleted := false |} in
  let activity :=
    {| a_id := next_id (map a_id (bot_activities db));
       a_bot_id := b_id bot;
       a_activity_type := MESSAGE;
       a_description := description;
       a_message_id := Some (m_id response);
       a_success := true;
       a_created_at := logged_at |} in
  (response,
   {| users := users db;
      conversations := conversations db;
      conversation_participants := conversation_participants db;
      messages := messages db ++ [response];
      bots := commit_bot bot stamp (bots db);
      bot_activities := bot_activities db ++ [activity] |}).

(** [str(n)] for an integer. *)
Definition str_of_Z (n : Z) : string :=
  DecimalString.NilZero.string_of_int (Z.to_int n).

(** The bot picked by the [for bot_participant in bot_participants] loop
    of [trigger_immediate_bot_response]: the first participant whose [Bot]
    row is active and can message. *)
Fixpoint first_messaging_bot (db : Database)
    (bot_participants : list ConversationParticipant) : option Bot :=
  match bot_participants with
  | [] => None
  | bot_participant :: rest =>
      match List.find (λ b, (b_user_id b =? p_user_id bot_participant)
                              && b_is_active b && b_can_message b) (bots db) with
      | Some bot => Some bot
      | None => first_messaging_bot db rest
      end
  end.

(** [message.sender]: the user row the foreign key points to. *)
Definition sender (db : Database) (message : Message) : option User :=
  List.find (λ u, u_id u =? m_sender_id message) (users db).

(** [BotService.trigger_immediate_bot_response]. [utcnow k] is the [k]-th
    reading of the clock during the call and [pick] the draw of
    [random.choice]; the simulated typing delay only sleeps. *)
Definition trigger_immediate_bot_response (utcnow : nat → Z) (pick : nat)
    (db : Database) (conversation_id triggering_message_id : Z)
    : result (option Message) * Database :=
  match List.find (λ m, m_id m =? triggering_message_id) (messages db) with
  | None => (Returned None, db)
  | Some triggering_message =>
      match sender db triggering_message with
      | None => (Raised AttributeError, db)
      | Some sender_user =>
          if u_is_bot sender_user then (Returned None, db)
          else
            let bot_participants :=
              List.filter
                (λ p, (p_conversation_id p =? conversation_id) && p_is_active p
                      && existsb (λ u, (u_id u =? p_user_id p) && u_is_bot u) (users db))
                (conversation_participants db) in
            match first_messaging_bot db bot_participants with
            | None => (Returned None, db)
            | Some bot =>
                match _generate_message_response pick
                        (m_content triggering_message) (b_personality bot) with
                | None => (Raised IndexError, db)
                | Some response_content =>
                    let '(response, db') :=
                      post_response db bot conversation_id response_content
                        ("Real-time response to user "
                         ++ str_of_Z (m_sender_id triggering_message))%string
                        (utcnow 0%nat) (utcnow 1%nat) None in
                    (Returned (Some response), db')
                end
            end
      end
  end.

(** [order_by(Message.created_at.desc())]. *)
Fixpoint insert_desc (m : Message) (sorted : list Message) : list Message :=
  match sorted with
  | [] => [m]
  | x :: rest =>
      if m_created_at m <? m_created_at x then x :: insert_desc m rest
      else m :: sorted
  end.

Definition order_by_created_at_desc (rows : list Message) : list Message :=
  foldr insert_desc [] rows.

(** [BotService.respond_to_messages]. *)
Definition respond_to_messages (utcnow : nat → Z) (pick : nat)
    (db : Database) (bot : Bot) : result bool * Database :=
  if negb (b_can_message bot) then (Returned false, db)
  else
    let bot_conversations :=
      List.filter (λ cp, (p_user_id cp =? b_user_id bot) && p_is_active cp)
        (conversation_participants db) in
    let conversation_ids := map p_conversation_id bot_conversations in
    match conversation_ids with
    | [] => (Returned false, db)
    | _ =>
        let yesterday := utcnow 0%nat - 24 * 3600 * 1000000 in
        let recent_messages :=
          order_by_created_at_desc
            (List.filter
               (λ m, existsb (Z.eqb (m_conversation_id m)) conversation_ids
                     && negb (m_sender_id m =? b_user_id bot)
                     && (yesterday <=? m_created_at m)
                     && negb (m_is_deleted m))
               (messages db)) in
        let messages_to_respond :=
          List.filter
            (λ msg,
               match List.find
                       (λ m, (m_conversation_id m =? m_conversation_id msg)
                             && (m_sender_id m =? b_user_id bot)
                             && (m_created_at msg <? m_created_at m))
                       (messages db) with
               | Some _ => false
               | None => true
               end)
            recent_messages in
        match messages_to_respond with
        | [] => (Returned false, db)
        | message_to_respond :: _ =>
            match _generate_message_response pick
                    (m_content message_to_respond) (b_personality bot) with
            | None => (Raised IndexError, db)
            | Some response_content =>
                let '(_, db') :=
                  post_response db bot (m_conversation_id message_to_respond)
                    response_content
                    ("Responded to message from user "
                     ++ str_of_Z (m_sender_id message_to_respond))%string
                    (utcnow 1%nat) (utcnow 3%nat) (Some (utcnow 2%nat)) in
                (Returned true, db')
            end
        end
    end.

(** *** Vocabulary of the properties *)

(** [needle] occurs in [hay] as a run of consecutive characters. *)
Definition occurs (needle hay : string) : Prop :=
  ∃ pre suf, hay = (pre ++ needle ++ suf)%string.

(** The lower-cased, stripped text contains one of [words]. *)
Definition mentions (words : list string) (text : string) : Prop :=
  ∃ word, In word words ∧ occurs word (PyStr.strip (PyStr.lower text)).

(** The number of white-space separated words of the text. *)
Definition word_count (text : string) : nat :=
  length (PyStr.split (PyStr.strip (PyStr.lower text))).

(** [midnight] is the last instant, not after [now], at which a clock
    [offset] microseconds ahead of UTC reads 00:00; instants are
    microseconds of UTC. *)
Definition midnight_at (offset now midnight : Z) : Prop :=
  (∃ day, midnight + offset = day * (86400 * 1000000))
  ∧ midnight ≤ now < midnight + 86400 * 1000000.

(** The number of activities logged for the bot at or after [since]. *)
Definition logged_since (db : Database) (bot : Bot) (since : Z) : Z :=
  Z.of_nat (length (filter (λ a, a_bot_id a = b_id bot ∧ since ≤ a_created_at a)
                      (bot_activities db))).

End BotService.

(** ** Direct conversations: [app/services/message_service.py] *)

Module MessageService.
Import Models.

Definition is_direct (c : Conversation) : bool :=
  match c_type c with DIRECT => true | GROUP => false end.

(** The rows the joined query groups under one conversation: its active
    participant rows whose user is one of [ids]. *)
Definition active_rows_among (db : Database) (ids : list Z) (c : Conversation)
    : list ConversationParticipant :=
  List.filter
    (λ p, (p_conversation_id p =? c_id c) && existsb (Z.eqb (p_user_id p)) ids
          && p_is_active p)
    (conversation_participants db).

(** [conversation.participants]. *)
Definition participants (db : Database) (c : Conversation)
    : list ConversationParticipant :=
  List.filter (λ p, p_conversation_id p =? c_id c) (conversation_participants db).

(** The lookup half of [get_or_create_direct_conversation]: the [first()]
    row of the grouped query, kept only when the set of its active
    participants is exactly the two users. *)
Definition existing_direct_conversation (db : Database) (user_id other_user_id : Z)
    : option Conversation :=
  match List.find
          (λ c, is_direct c
                && (length (active_rows_among db [user_id; other_user_id] c) =? 2)%nat)
          (conversations db) with
  | Some conversation =>
      let participant_ids :=
        map p_user_id (List.filter p_is_active (participants db conversation)) in
      if bool_decide ((list_to_set participant_ids : gset Z) = {[user_id; other_user_id]})
      then Some conversation
      else None
  | None => None
  end.

(** The rows [get_or_create_direct_conversation] adds when it creates. *)
Definition new_conversation (db : Database) (user_id : Z) : Conversation :=
  {| c_id := next_id (map c_id (conversations db));
     c_type := DIRECT;
     c_created_by_id := Some user_id |}.

Definition new_participants (db : Database) (conversation_id user_id other_user_id : Z)
    : list ConversationParticipant :=
  let first_row := next_id (map p_id (conversation_participants db)) in
  [ {| p_id := first_row; p_conversation_id := conversation_id;
       p_user_id := user_id; p_is_active := true |};
    {| p_id := first_row + 1; p_conversation_id := conversation_id;
       p_user_id := other_user_id; p_is_active := true |} ].

(** [get_or_create_direct_conversation]. *)
Definition get_or_create_direct_conversation (db : Database)
    (user_id other_user_id : Z) : Conversation * Database :=
  match existing_direct_conversation db user_id other_user_id with
  | Some conversation => (conversation, db)
  | None =>
      let new_conversation := new_conversation db user_id in
      (new_conversation,
       {| users := users db;
          conversations := conversations db ++ [new_conversation];
          conversation_participants :=
            conversation_participants db ++
            new_participants db (c_id new_conversation) user_id other_user_id;
          messages := messages db;
          bots := bots db;
          bot_activities := bot_activities db |})
  end.

(** *** Vocabulary of the properties *)

(** The users currently in a conversation. *)
Definition active_set (db : Database) (c : Conversation) : gset Z :=
  list_to_set (map p_user_id (List.filter p_is_active (participants db c))).

(** What the schema and the other operations guarantee: conversation ids
    are a primary key, participant rows point to existing conversations,
    and a DIRECT conversation has at most two active participant rows, of
    different users. *)
Definition well_formed (db : Database) : Prop :=
  NoDup (map c_id (conversations db))
  ∧ (∀ p, In p (conversation_participants db) →
          In (p_conversation_id p) (map c_id (conversations db)))
  ∧ (∀ c, In c (conversations db) → is_direct c = true →
          (length (List.filter p_is_active (participants db c)) ≤ 2)%nat
          ∧ NoDup (map p_user_id (List.filter p_is_active (participants db c)))).

(** At most one DIRECT conversation has exactly the users [x] and [y] as
    its active participants. *)
Definition unique_direct (db : Database) (x y : Z) : Prop :=
  ∀ c c',
    In c (conversations db) → In c' (conversations db) →
    is_direct c = true → is_direct c' = true →
    active_set db c = {[x; y]} → active_set db c' = {[x; y]} →
    c = c'.

(** At most one DIRECT conversation between any two different users,
    both taking part in it. *)
Definition deduplicated (db : Database) : Prop :=
  ∀ x y, x ≠ y → unique_direct db x y.

(** The users of the participant rows of a conversation, whether they
    still take part or have left. *)
Definition member_set (db : Database) (c : Conversation) : gset Z :=
  list_to_set (map p_user_id (participants db c)).

(** At most one DIRECT conversation between any two different users,
    counting the conversations one of them has left. *)
Definition deduplicated_by_rows (db : Database) : Prop :=
  ∀ x y c c',
    x ≠ y →
    In c (conversations db) → In c' (conversations db) →
    is_direct c = true → is_direct c' = true →
    member_set db c = {[x; y]} → member_set db c' = {[x; y]} →
    c = c'.

(** The conversation returned by a call and the database it leaves. *)
Definition created (db : Database) (a b : Z) : Conversation :=
  (get_or_create_direct_conversation db a b).1.

Definition after (db : Database) (a b : Z) : Database :=
  (get_or_create_direct_conversation db a b).2.

End MessageService.

(** ** The realtime protocol handler: [app/routes/websocket.py] *)

Module Protocol.
Import Models.

(** What [json.loads] returns. Numbers are the integers of the protocol. *)
#[local] Unset Elimination Schemes.
Inductive json :=
| JNull
| JBool (b : bool)
| JInt (n : Z)
| JString (s : string)
| JArray (items : list json)
| JObject (items : list (string * json)).
#[local] Set Elimination Schemes.

(** Python's truth value, as tested by [not conversation_id]. *)
Definition truthy (v : json) : bool :=
  match v with
  | JNull => false
  | JBool b => b
  | JInt n => negb (n =? 0)
  | JString s => negb (String.eqb s "")
  | JArray items => match items with [] => false | _ => true end
  | JObject items => match items with [] => false | _ => true end
  end.

(** [message_data.get(key, fallback)] on the items of the dictionary. *)
Fixpoint get_or (key : string) (fallback : json) (items : list (string * json)) : json :=
  match items with
  | [] => fallback
  | (k, v) :: rest => if String.eqb k key then v else get_or key fallback rest
  end.

(** [message_data.get(key)]: [None] when the key is absent. *)
Definition get (key : string) (items : list (string * json)) : json :=
  get_or key JNull items.

(** [message_type == kind]. *)
Definition is_kind (kind : string) (message_type : json) : bool :=
  match message_type with
  | JString s => String.eqb s kind
  | _ => false
  end.

(** The state of one connection. *)
Inductive status := OPEN | CLOSED.

(** What the handler does for one inbound frame: replies on its own
    socket, and the three operations behind the [message], [typing] and
    [read] kinds, which reach the database and the connection manager. *)
Inductive action :=
| SendJson (e : event)
| CreateAndBroadcast (conversation_id : json) (content : string)
| BroadcastTyping (conversation_id is_typing : json)
| MarkReadAndBroadcast (conversation_id : json)
| Unregister
| BroadcastOffline.

(** The actions performed and the exception raised, if any. *)
Definition outcome := (list action * option exn)%type.

Inductive inbound :=
| Text (data : string)
| Gone.

Section Endpoint.

(** [json.loads]: [None] when it raises [JSONDecodeError]. *)
Variable json_loads : string → option json.
(** [str()] of arrays and objects. *)
Variable py_repr : json → string.
(** Whether [websocket.send_json] returns on this connection. *)
Variable alive : bool.
(** The exception an operation raises, if any. *)
Variable raises : action → option exn.

(** The text an f-string interpolates for a value. *)
Definition py_str (v : json) : string :=
  match v with
  | JNull => "None"
  | JBool true => "True"
  | JBool false => "False"
  | JInt n => BotService.str_of_Z n
  | JString s => s
  | _ => py_repr v
  end.

Definition send_json (e : event) : outcome :=
  if alive then ([SendJson e], None) else ([], Some WebSocketDisconnect).

Definition invoke (a : action) : outcome := ([a], raises a).

(** [try: ... except ValueError as e: send_json(error str(e))]. *)
Definition except_ValueError (o : outcome) : outcome :=
  match o with
  | (done, Some (ValueError message)) =>
      let '(more, e) := send_json (ErrorEvent message) in (done ++ more, e)
  | _ => o
  end.

(** The body of the inner [try] of [websocket_endpoint]. *)
Definition dispatch (data : string) : outcome :=
  match json_loads data with
  | None => ([], Some JSONDecodeError)
  | Some (JObject message_data) =>
      let message_type := get "type" message_data in
      if is_kind "message" message_type then
        let conversation_id := get "conversation_id" message_data in
        match get_or "content" (JString "") message_data with
        | JString raw =>
            let content := PyStr.strip raw in
            if negb (truthy conversation_id) || String.eqb content ""
            then send_json (ErrorEvent "Missing conversation_id or content")
            else except_ValueError (invoke (CreateAndBroadcast conversation_id content))
        | _ => ([], Some AttributeError)
        end
      else if is_kind "typing" message_type then
        let conversation_id := get "conversation_id" message_data in
        let is_typing := get_or "is_typing" (JBool false) message_data in
        if negb (truthy conversation_id) then ([], None)
        else invoke (BroadcastTyping conversation_id is_typing)
      else if is_kind "read" message_type then
        let conversation_id := get "conversation_id" message_data in
        if negb (truthy conversation_id) then ([], None)
        else except_ValueError (invoke (MarkReadAndBroadcast conversation_id))
      else if is_kind "ping" message_type then send_json PongEvent
      else send_json (ErrorEvent ("Unknown message type: " ++ py_str message_type))
  | Some _ => ([], Some AttributeError)
  end.

(** Leaving the loop: the two outer [except] clauses. *)
Definition leave (e : exn) : list action :=
  match e with
  | WebSocketDisconnect => [Unregister; BroadcastOffline]
  | _ => [Unregister]
  end.

(** One turn of the [while True] loop on a received text: the inner [try]
    with its [except json.JSONDecodeError] and [except Exception]. *)
Definition on_text (data : string) : list action * status :=
  match dispatch data with
  | (done, None) => (done, OPEN)
  | (done, Some e) =>
      let reply :=
        match e with
        | JSONDecodeError => ErrorEvent "Invalid JSON format"
        | _ => ErrorEvent "Internal server error"
        end in
      match send_json reply with
      | (more, None) => (done ++ more, OPEN)
      | (more, Some e') => (done ++ more ++ leave e', CLOSED)
      end
  end.

(** One turn of the loop: [receive_text] either yields a text or raises
    [WebSocketDisconnect]. *)
Definition turn (i : inbound) : list action * status :=
  match i with
  | Text data => on_text data
  | Gone => (leave WebSocketDisconnect, CLOSED)
  end.

End Endpoint.

(** *** Vocabulary of the properties *)

(** [key in message_data]. *)
Definition has_key (key : string) (items : list (string * json)) : bool :=
  existsb (λ kv, String.eqb kv.1 key) items.

(** The four kinds of inbound frame. *)
Definition known_kind (message_type : json) : bool :=
  is_kind "message" message_type || is_kind "typing" message_type
  || is_kind "read" message_type || is_kind "ping" message_type.

(** A frame of a known kind lacks a field its kind requires:
    [conversation_id] and [content] for [message], [conversation_id] for
    [typing] and [read]. *)
Definition missing_required_field (items : list (string * json)) : bool :=
  let message_type := get "type" items in
  is_kind "message" message_type
    && (negb (has_key "conversation_id" items) || negb (has_key "content" items))
  || (is_kind "typing" message_type || is_kind "read" message_type)
       && negb (has_key "conversation_id" items).

(** A protocol error: text that is not JSON, an unknown kind, or a known
    kind with a required field missing. *)
Definition protocol_error (json_loads : string → option json) (data : string) : Prop :=
  match json_loads data with
  | None => True
  | Some (JObject items) =>
      known_kind (get "type" items) = false ∨ missing_required_field items = true
  | Some _ => False
  end.

End Protocol.

(** ** A small deployment

    One human (user 1), two bot accounts (users 2 and 3) and a direct
    conversation (10) between the human and the first bot; times are
    microseconds from the midnight that starts day 0. *)

Module Scenario.
Import Models.

Definition at_time (day hour minute : Z) : Z :=
  ((day * 24 + hour) * 60 + minute) * 60 * 1000000.

Definition sam : Bot :=
  {| b_id := 7; b_user_id := 2; b_personality := Some FRIENDLY;
     b_is_active := true; b_activity_frequency := 60;
     b_max_daily_activities := 3; b_can_post := true; b_can_message := true;
     b_can_list_products := false; b_total_messages := 4;
     b_last_activity_at := Some (at_time 5 9 0) |}.

Definition riley : Bot :=
  {| b_id := 8; b_user_id := 3; b_personality := None;
     b_is_active := true; b_activity_frequency := 60;
     b_max_daily_activities := 10; b_can_post := true; b_can_message := true;
     b_can_list_products := true; b_total_messages := 0;
     b_last_activity_at := None |}.

Definition logged (id : Z) (bot : Bot) (created_at : Z) : BotActivity :=
  {| a_id := id; a_bot_id := b_id bot; a_activity_type := POST;
     a_description := "Created post"; a_message_id := None; a_success := true;
     a_created_at := created_at |}.

Definition hello : Message :=
  {| m_id := 100; m_conversation_id := 10; m_sender_id := 1;
     m_content := "Hello!"; m_created_at := at_time 5 10 0;
     m_is_deleted := false |}.

Definition from_bot : Message :=
  {| m_id := 101; m_conversation_id := 10; m_sender_id := 2;
     m_content := "Hi there!"; m_created_at := at_time 5 8 0;
     m_is_deleted := false |}.

Definition db : Database :=
  {| users := [ {| u_id := 1; u_name := "Ana"; u_is_bot := false |};
                {| u_id := 2; u_name := "Sam Smith"; u_is_bot := true |};
                {| u_id := 3; u_name := "Riley Moore"; u_is_bot := true |} ];
     conversations := [ {| c_id := 10; c_type := DIRECT; c_created_by_id := Some 1 |} ];
     conversation_participants :=
       [ {| p_id := 1; p_conversation_id := 10; p_user_id := 1; p_is_active := true |};
         {| p_id := 2; p_conversation_id := 10; p_user_id := 2; p_is_active := true |} ];
     messages := [ from_bot; hello ];
     bots := [ sam; riley ];
     bot_activities :=
       [ logged 1 sam (at_time 4 23 0); logged 2 sam (at_time 5 0 0);
         logged 3 sam (at_time 5 7 0); logged 4 sam (at_time 5 9 0);
         logged 5 riley (at_time 5 9 30) ] |}.

(** The same database with only the given activity rows. *)
Definition with_activities (rows : list BotActivity) : Database :=
  {| users := users db; conversations := conversations db;
     conversation_participants := conversation_participants db;
     messages := messages db; bots := bots db; bot_activities := rows |}.

(** A clock that advances one second per reading from 10:00:01 on day 5. *)
Definition clock (k : nat) : Z := at_time 5 10 0 + (1 + Z.of_nat k) * 1000000.

(** Some inbound frames. [frame fields] is the text of a JSON object with
    string values, and [decode] is [json.loads] on the frames below (any
    other text is taken not to be JSON). *)
Definition quoted (s : string) : string :=
  (String (ascii_of_nat 34) s ++ String (ascii_of_nat 34) "")%string.

Fixpoint members (fields : list (string * string)) : string :=
  match fields with
  | [] => ""
  | [(k, v)] => quoted k ++ ": " ++ quoted v
  | (k, v) :: rest => quoted k ++ ": " ++ quoted v ++ ", " ++ members rest
  end%string.

Definition frame (fields : list (string * string)) : string :=
  ("{" ++ members fields ++ "}")%string.

Definition frames : list (list (string * string)) :=
  [ [("type", "typing")];
    [("type", "read")];
    [("type", "dance")];
    [("type", "message"); ("content", "hi")];
    [("type", "ping")] ]%string.

Definition decode (data : string) : option Protocol.json :=
  (λ fields, Protocol.JObject (prod_map id Protocol.JString <$> fields))
    <$> List.find (λ fields, String.eqb (frame fields) data) frames.

Definition no_repr (v : Protocol.json) : string := "".

Definition no_failure (a : Protocol.action) : option exn := None.

End Scenario.

(** ** Closing a connection: the end of [websocket_endpoint] *)

Module Closing.
Import Registry.

(** The [except WebSocketDisconnect] clause of [websocket_endpoint]:
    [manager.disconnect] followed by the "offline" broadcast. *)
Definition on_disconnect (websocket : WebSocket) (user_id : Z) (now : Z)
    (w : World) : World :=
  broadcast_user_status user_id "offline" now
    (with_manager (disconnect websocket user_id) w).

(** No user is bound to an empty list of connections. *)
Definition keys_inv (cm : ConnectionManager) : Prop :=
  ∀ u conns, active_connections cm !! u = Some conns → conns ≠ [].

End Closing.

(** ** The bot service: queries and statistics *)

Module BotQueries.
Import Models BotService.

(** The [recent_messages] of [respond_to_messages]: what others wrote
    since [yesterday] in the conversations of the bot, newest first. *)
Definition recent_messages (db : Database) (bot : Bot) (yesterday : Z) : list Message :=
  let conversation_ids :=
    map p_conversation_id
      (List.filter (λ cp, (p_user_id cp =? b_user_id bot) && p_is_active cp)
         (conversation_participants db)) in
  order_by_created_at_desc
    (List.filter
       (λ m, existsb (Z.eqb (m_conversation_id m)) conversation_ids
             && negb (m_sender_id m =? b_user_id bot)
             && (yesterday <=? m_created_at m)
             && negb (m_is_deleted m))
       (messages db)).

(** Its [messages_to_respond]: those with no later message of the bot in
    the same conversation. *)
Definition messages_to_respond (db : Database) (bot : Bot) (yesterday : Z)
    : list Message :=
  List.filter
    (λ msg,
       match List.find
               (λ m, (m_conversation_id m =? m_conversation_id msg)
                     && (m_sender_id m =? b_user_id bot)
                     && (m_created_at msg <? m_created_at m))
               (messages db) with
       | Some _ => false
       | None => true
       end)
    (recent_messages db bot yesterday).

#[global] Instance BotActivityType_eq_dec : EqDecision BotActivityType.
Proof. solve_decision. Defined.

(** [for activity_type in BotActivityType]. *)
Definition activity_types : list BotActivityType :=
  [POST; COMMENT; MESSAGE; COMMUNITY_CREATE; COMMUNITY_JOIN; PRODUCT_LIST; REACT].

(** The dictionary returned by [get_bot_stats]. *)
Record BotStats := {
  total_bots : Z;
  active_bots : Z;
  total_activities_today : Z;
  total_activities_all_time : Z;
  activities_by_type : list (BotActivityType * Z)
}.

(** [BotService.get_bot_stats]. *)
Definition get_bot_stats (now : Z) (db : Database) : BotStats :=
  {| total_bots := Z.of_nat (length (bots db));
     active_bots := Z.of_nat (length (List.filter b_is_active (bots db)));
     total_activities_today :=
       Z.of_nat (length (List.filter (λ a, today_start now <=? a_created_at a)
                           (bot_activities db)));
     total_activities_all_time := Z.of_nat (length (bot_activities db));
     activities_by_type :=
       map (λ activity_type,
              (activity_type,
               Z.of_nat (length (List.filter
                                   (λ a, bool_decide (a_activity_type a = activity_type))
                                   (bot_activities db)))))
           activity_types |}.

End BotQueries.

(** ** The other operations of [app/services/message_service.py]

    The columns [name], [avatar], [updated_at], [joined_at] and [left_at]
    are not among those kept in the records, so the writes to them do not
    appear. *)

Module MessageOps.
Import Models MessageService.

(** The check every operation starts with: the first active row of the
    user in the conversation. *)
Definition active_participant (db : Database) (conversation_id user_id : Z)
    : option ConversationParticipant :=
  List.find (λ p, (p_conversation_id p =? conversation_id)
                  && (p_user_id p =? user_id) && p_is_active p)
    (conversation_participants db).

(** [db.query(Conversation).filter(Conversation.id == conversation_id).first()]. *)
Definition get_conversation (db : Database) (conversation_id : Z) : option Conversation :=
  List.find (λ c, c_id c =? conversation_id) (conversations db).

(** [create_message]; [now] is the database clock that stamps the row. *)
Definition create_message (now : Z) (db : Database)
    (conversation_id sender_id : Z) (content : string) : result Message * Database :=
  match active_participant db conversation_id sender_id with
  | None => (Raised (ValueError "User is not a participant of this conversation"), db)
  | Some _ =>
      let message :=
        {| m_id := next_id (map m_id (messages db));
           m_conversation_id := conversation_id;
           m_sender_id := sender_id;
           m_content := content;
           m_created_at := now;
           m_is_deleted := false |} in
      (Returned message,
       {| users := users db;
          conversations := conversations db;
          conversation_participants := conversation_participants db;
          messages := messages db ++ [message];
          bots := bots db;
          bot_activities := bot_activities db |})
  end.

(** [participant.is_active = active] written back to the row of the
    participant's primary key. *)
Definition set_active (row_id : Z) (active : bool)
    (rows : list ConversationParticipant) : list ConversationParticipant :=
  map (λ p, if p_id p =? row_id
            then {| p_id := p_id p; p_conversation_id := p_conversation_id p;
                    p_user_id := p_user_id p; p_is_active := active |}
            else p) rows.

Definition with_participants (db : Database) (rows : list ConversationParticipant)
    : Database :=
  {| users := users db;
     conversations := conversations db;
     conversation_participants := rows;
     messages := messages db;
     bots := bots db;
     bot_activities := bot_activities db |}.

(** [remove_participant]. *)
Definition remove_participant (db : Database)
    (conversation_id user_id participant_to_remove_id : Z) : result bool * Database :=
  match get_conversation db conversation_id with
  | None => (Raised (ValueError "Conversation not found"), db)
  | Some _ =>
      match active_participant db conversation_id participant_to_remove_id with
      | None => (Raised (ValueError "Participant not found in conversation"), db)
      | Some participant =>
          (Returned true,
           with_participants db
             (set_active (p_id participant) false (conversation_participants db)))
      end
  end.

(** The [for uid in new_participant_ids] loop of [add_participants]; a
    row added or changed by one turn is seen by the queries of the next. *)
Fixpoint add_each (conversation_id : Z) (new_participant_ids : list Z)
    (rows : list ConversationParticipant) : list ConversationParticipant :=
  match new_participant_ids with
  | [] => rows
  | uid :: rest =>
      match List.find (λ p, (p_conversation_id p =? conversation_id)
                            && (p_user_id p =? uid)) rows with
      | Some existing =>
          if p_is_active existing then add_each conversation_id rest rows
          else add_each conversation_id rest (set_active (p_id existing) true rows)
      | None =>
          add_each conversation_id rest
            (rows ++ [{| p_id := next_id (map p_id rows);
                         p_conversation_id := conversation_id;
                         p_user_id := uid; p_is_active := true |}])
      end
  end.

(** [db.query(User).filter(User.id.in_(ids)).all()]. *)
Definition users_among (db : Database) (ids : list Z) : list User :=
  List.filter (λ u, existsb (Z.eqb (u_id u)) ids) (users db).

(** [add_participants]. *)
Definition add_participants (db : Database) (conversation_id user_id : Z)
    (new_participant_ids : list Z) : result Conversation * Database :=
  match get_conversation db conversation_id with
  | None => (Raised (ValueError "Conversation not found"), db)
  | Some conversation =>
      if is_direct conversation
      then (Raised (ValueError "Can only add participants to group conversations"), db)
      else
        match active_participant db conversation_id user_id with
        | None =>
            (Raised (ValueError "User is not a participant of this conversation"), db)
        | Some _ =>
            if negb (length (users_among db new_participant_ids)
                     =? length new_participant_ids)%nat
            then (Raised (ValueError "One or more users not found"), db)
            else
              (Returned conversation,
               with_participants db
                 (add_each conversation_id new_participant_ids
                    (conversation_participants db)))
        end
  end.

(** [create_group_conversation]; the participants are walked in the order
    of the set [set(participant_ids) | {user_id}]. *)
Definition create_group_conversation (db : Database) (user_id : Z)
    (participant_ids : list Z) : result Conversation * Database :=
  if negb (length (users_among db participant_ids) =? length participant_ids)%nat
  then (Raised (ValueError "One or more users not found"), db)
  else
    let conversation :=
      {| c_id := next_id (map c_id (conversations db));
         c_type := GROUP;
         c_created_by_id := Some user_id |} in
    let all_participant_ids : gset Z := list_to_set participant_ids ∪ {[user_id]} in
    let first_row := next_id (map p_id (conversation_participants db)) in
    (Returned conversation,
     {| users := users db;
        conversations := conversations db ++ [conversation];
        conversation_participants :=
          conversation_participants db ++
          imap (λ i uid, {| p_id := first_row + Z.of_nat i;
                            p_conversation_id := c_id conversation;
                            p_user_id := uid; p_is_active := true |})
               (elements all_participant_ids);
        messages := messages db;
        bots := bots db;
        bot_activities := bot_activities db |}).

(** The query of [get_conversation_messages], newest first. *)
Definition visible_messages (db : Database) (conversation_id : Z) : list Message :=
  BotService.order_by_created_at_desc
    (List.filter (λ m, (m_conversation_id m =? conversation_id) && negb (m_is_deleted m))
       (messages db)).

(** [get_conversation_messages]; the route admits [page >= 1] and
    [1 <= page_size <= 100]. *)
Definition get_conversation_messages (db : Database) (conversation_id user_id : Z)
    (page page_size : Z) : result (list Message * Z) :=
  match active_participant db conversation_id user_id with
  | None => Raised (ValueError "User is not a participant of this conversation")
  | Some _ =>
      let query := visible_messages db conversation_id in
      let total := Z.of_nat (length query) in
      let messages :=
        take (Z.to_nat page_size) (drop (Z.to_nat ((page - 1) * page_size)) query) in
      Returned (rev messages, total)
  end.

(** Primary key of the participant rows. *)
Definition participant_keys (db : Database) : Prop :=
  NoDup (map p_id (conversation_participants db)).

End MessageOps.

(** ** The [message] and [typing] frames of [websocket_endpoint]

    What the handler does once the fields of the frame have been read:
    [conversation_id] is an integer and [content] the stripped text. *)

Module Realtime.
Import Models Registry MessageOps.

(** What the handler works on: the connection manager with its transport
    and the database of the session. *)
Record Server := {
  world : World;
  store : Database
}.

(** [[p.user_id for p in conversation.participants if p.is_active]]. *)
Definition participant_ids (db : Database) (conversation : Conversation) : list Z :=
  map p_user_id (List.filter p_is_active (MessageService.participants db conversation)).

(** The [message] event built from a row; [message.sender.id] fails on a
    row whose sender is missing. *)
Definition message_event (db : Database) (message : Message) : result event :=
  match BotService.sender db message with
  | None => Raised AttributeError
  | Some _ =>
      Returned (MessageEvent (m_id message) (m_conversation_id message)
                  (m_sender_id message) (m_content message))
  end.

(** [await websocket.send_json(...)] on the handler's own socket. *)
Definition send_json (websocket : WebSocket) (user_id : Z) (e : event) (w : World)
    : option exn * World :=
  let '(ok, w') := send_text user_id websocket e w in
  (if ok then None else Some WebSocketDisconnect, w').

(** What [trigger_bot_response] closes over: the conversation, the id of
    the stored message and the recipients read when it was stored. *)
Record BotTask := {
  t_conversation_id : Z;
  t_message_id : Z;
  t_participant_ids : list Z
}.

(** The [try: create_message ... except ValueError] block of the
    [message] branch: the exception that leaves the block, the task
    handed to [asyncio.create_task], and the state. *)
Definition handle_message (now : Z) (websocket : WebSocket) (user_id : Z)
    (conversation_id : Z) (content : string) (srv : Server)
    : option exn * option BotTask * Server :=
  match create_message now (store srv) conversation_id user_id content with
  | (Raised (ValueError message), _) =>
      let '(e, w) := send_json websocket user_id (ErrorEvent message) (world srv) in
      (e, None, {| world := w; store := store srv |})
  | (Raised e, _) => (Some e, None, srv)
  | (Returned new_message, db) =>
      match get_conversation db conversation_id with
      | None => (None, None, {| world := world srv; store := db |})
      | Some conversation =>
          let participant_ids := participant_ids db conversation in
          match message_event db new_message with
          | Raised e => (Some e, None, {| world := world srv; store := db |})
          | Returned message_response =>
              (None,
               Some {| t_conversation_id := conversation_id;
                       t_message_id := m_id new_message;
                       t_participant_ids := participant_ids |},
               {| world := send_to_conversation message_response participant_ids
                             false None (world srv);
                  store := db |})
          end
      end
  end.

(** The task [trigger_bot_response], run from start to end; its
    [except Exception] only logs. *)
Definition trigger_bot_response (utcnow : nat → Z) (pick : nat) (task : BotTask)
    (srv : Server) : Server :=
  match BotService.trigger_immediate_bot_response utcnow pick (store srv)
          (t_conversation_id task) (t_message_id task) with
  | (Returned (Some bot_response), db) =>
      match message_event db bot_response with
      | Raised _ => {| world := world srv; store := db |}
      | Returned bot_message_response =>
          {| world := send_to_conversation bot_message_response
                        (t_participant_ids task) false None (world srv);
             store := db |}
      end
  | (_, db) => {| world := world srv; store := db |}
  end.

(** The [typing] branch; [is_typing] is the truth value of the field. *)
Definition handle_typing (now : Z) (user_id conversation_id : Z) (is_typing : bool)
    (srv : Server) : Server :=
  match get_conversation (store srv) conversation_id with
  | None => srv
  | Some conversation =>
      {| world := broadcast_typing_status conversation_id user_id is_typing
                    (participant_ids (store srv) conversation) now (world srv);
         store := store srv |}
  end.

(** *** Vocabulary of the properties *)

(** The user has an active row in the conversation. *)
Definition member (db : Database) (conversation_id user_id : Z) : Prop :=
  ∃ p, In p (conversation_participants db)
       ∧ p_conversation_id p = conversation_id ∧ p_user_id p = user_id
       ∧ p_is_active p = true.

(** The row [create_message] stores, and the database with it. *)
Definition new_message (now : Z) (db : Database) (conversation_id sender_id : Z)
    (content : string) : Message :=
  {| m_id := next_id (map m_id (messages db));
     m_conversation_id := conversation_id;
     m_sender_id := sender_id;
     m_content := content;
     m_created_at := now;
     m_is_deleted := false |}.

Definition with_message (db : Database) (message : Message) : Database :=
  {| users := users db;
     conversations := conversations db;
     conversation_participants := conversation_participants db;
     messages := messages db ++ [message];
     bots := bots db;
     bot_activities := bot_activities db |}.

(** The event that announces a row. *)
Definition announce (message : Message) : event :=
  MessageEvent (m_id message) (m_conversation_id message) (m_sender_id message)
    (m_content message).

(** An attempt to send [e] to socket [k] of user [v] is among [ds]. *)
Definition tried (v : Z) (k : WebSocket) (e : event) (ds : list delivery) : Prop :=
  ∃ ok, {| addressee := v; socket := k; payload := e; delivered := ok |} ∈ ds.

End Realtime.

(** * Properties *)

(** ** The connection registry *)

Module RegistryFacts.
Import Registry.

Lemma emitted_extends w w' ds : extends w w' ds → emitted w w' = ds.
Proof.
  unfold extends, emitted. intros ->. by rewrite drop_app_length.
Qed.

Lemma extends_trans w1 w2 w3 ds ds' :
  extends w1 w2 ds → extends w2 w3 ds' → extends w1 w3 (ds ++ ds').
Proof.
  unfold extends. intros H1 H2. by rewrite H2, H1, app_assoc.
Qed.

(** *** [disconnect] *)

Lemma disconnect_other ws u cm v :
  v ≠ u →
  active_connections (disconnect ws u cm) !! v = active_connections cm !! v.
Proof.
  intros Hne. unfold disconnect.
  destruct (active_connections cm !! u) as [conns|] eqn:E; [|done].
  destruct (if decide (ws ∈ conns) then list_remove ws conns else conns); simpl.
  - by rewrite lookup_delete_ne.
  - by rewrite lookup_insert_ne.
Qed.

Lemma disconnect_typing ws u cm :
  typing_users (disconnect ws u cm) = typing_users cm.
Proof.
  unfold disconnect.
  destruct (active_connections cm !! u) as [conns|]; [|done].
  by destruct (if decide (ws ∈ conns) then list_remove ws conns else conns).
Qed.

Lemma disconnect_online_other ws u cm v :
  v ≠ u → v ∈ online_users (disconnect ws u cm) ↔ v ∈ online_users cm.
Proof.
  intros Hne. unfold disconnect.
  destruct (active_connections cm !! u) as [conns|]; [|done].
  destruct (if decide (ws ∈ conns) then list_remove ws conns else conns); simpl;
    set_solver.
Qed.

Lemma list_remove_nonempty ws (l : list WebSocket) :
  list_remove ws l ≠ [] → l ≠ [].
Proof. by destruct l. Qed.

Lemma disconnect_online_inv ws u cm :
  online_inv cm → online_inv (disconnect ws u cm).
Proof.
  intros Hinv v. destruct (decide (v = u)) as [->|Hne].
  - specialize (Hinv u). unfold connections_of in *. unfold disconnect.
    destruct (active_connections cm !! u) as [conns|] eqn:E; [|by rewrite E].
    simpl in Hinv.
    destruct (if decide (ws ∈ conns) then list_remove ws conns else conns)
      as [|c rest] eqn:E'; simpl.
    + rewrite lookup_delete_eq. simpl. set_solver.
    + rewrite lookup_insert_eq. simpl. rewrite Hinv. split; [done|].
      intros _. destruct (decide (ws ∈ conns)); [|by rewrite E'].
      apply (list_remove_nonempty ws). by rewrite E'.
  - rewrite disconnect_online_other by done. unfold connections_of.
    rewrite disconnect_other by done. apply Hinv.
Qed.

(** *** [send_personal_message] *)

Lemma send_each_spec u m conns w :
  ∃ ds, manager (send_each u m conns w).2 = manager w
        ∧ extends w (send_each u m conns w).2 ds
        ∧ socket <$> ds = conns
        ∧ Forall (λ d, addressee d = u ∧ payload d = m) ds.
Proof.
  revert w. induction conns as [|c rest IH]; intros w; simpl.
  - exists []. unfold extends. by rewrite app_nil_r.
  - destruct (send_text u c m w) as [ok w1] eqn:E1.
    destruct (IH w1) as (ds & Hm & Hs & Hsock & Hall).
    destruct (send_each u m rest w1) as [dis w2] eqn:E2. simpl in *.
    unfold send_text in E1. injection E1 as <- <-. rewrite E2.
    eexists (_ :: ds). simpl in *. split_and!.
    + done.
    + unfold extends in *. simpl in *. rewrite Hs. by rewrite <- app_assoc.
    + simpl. by f_equal.
    + constructor; [done|]. done.
Qed.

Lemma prune_world u dis w :
  foldl (λ w' conn, with_manager (disconnect conn u) w') w dis =
  {| manager := foldl (λ cm conn, disconnect conn u cm) (manager w) dis;
     sent := sent w; faults := faults w |}.
Proof.
  revert w. induction dis as [|c dis IH]; intros w; simpl.
  - by destruct w.
  - by rewrite IH.
Qed.

Lemma prune_other u dis cm v :
  v ≠ u →
  active_connections (foldl (λ cm conn, disconnect conn u cm) cm dis) !! v =
  active_connections cm !! v.
Proof.
  intros Hne. revert cm. induction dis as [|c dis IH]; intros cm; simpl; [done|].
  by rewrite IH, disconnect_other.
Qed.

Lemma prune_typing u dis cm :
  typing_users (foldl (λ cm conn, disconnect conn u cm) cm dis) = typing_users cm.
Proof.
  revert cm. induction dis as [|c dis IH]; intros cm; simpl; [done|].
  by rewrite IH, disconnect_typing.
Qed.

Lemma prune_online_inv u dis cm :
  online_inv cm → online_inv (foldl (λ cm conn, disconnect conn u cm) cm dis).
Proof.
  revert cm. induction dis as [|c dis IH]; intros cm H; simpl; [done|].
  by apply IH, disconnect_online_inv.
Qed.

(** What one [send_personal_message] does: it tries every connection of
    the user once, touches no other user's entry and leaves the typing
    map alone. *)
Lemma send_personal_message_spec m u w :
  ∃ ds, extends w (send_personal_message m u w) ds
        ∧ socket <$> ds = connections_of (manager w) u
        ∧ Forall (λ d, addressee d = u ∧ payload d = m) ds
        ∧ (∀ v, v ≠ u →
             active_connections (manager (send_personal_message m u w)) !! v =
             active_connections (manager w) !! v)
        ∧ typing_users (manager (send_personal_message m u w)) = typing_users (manager w)
        ∧ (online_inv (manager w) → online_inv (manager (send_personal_message m u w))).
Proof.
  unfold send_personal_message, connections_of.
  destruct (active_connections (manager w) !! u) as [conns|] eqn:E; simpl.
  - destruct (send_each_spec u m conns w) as (ds & Hm & Hs & Hsock & Hall).
    destruct (send_each u m conns w) as [dis w1]. simpl in *.
    rewrite prune_world. simpl. exists ds. split_and!; try done.
    + intros v Hv. by rewrite prune_other, Hm.
    + by rewrite prune_typing, Hm.
    + intros H. apply prune_online_inv. by rewrite Hm.
  - exists []. split_and!; try done. unfold extends. by rewrite app_nil_r.
Qed.

(** *** Sending to a list of users

    [broadcast_user_status], [send_to_conversation] and the loop of
    [broadcast_typing_status] all walk a list of user ids. *)

Lemma send_except_send_all m u ps w :
  send_except m u ps w = send_all m (List.filter (λ p, negb (p =? u)) ps) w.
Proof.
  revert w. induction ps as [|p ps IH]; intros w; simpl; [done|].
  destruct (decide (p ≠ u)) as [Hne|Heq].
  - apply Z.eqb_neq in Hne as ->. simpl. apply IH.
  - assert (p = u) as -> by (destruct (decide (p = u)); done).
    rewrite Z.eqb_refl. simpl. apply IH.
Qed.

Lemma send_to_conversation_send_all m ps ex s w :
  send_to_conversation m ps ex s w =
  send_all m (List.filter (λ p, negb (ex && bool_decide (Some p = s))) ps) w.
Proof.
  revert w. induction ps as [|p ps IH]; intros w; simpl; [done|].
  destruct (ex && bool_decide (Some p = s)); simpl; apply IH.
Qed.

Lemma send_all_spec m us w :
  ∃ ds, extends w (send_all m us w) ds
        ∧ Forall (λ d, addressee d ∈ us ∧ payload d = m) ds
        ∧ (∀ v c, v ∈ us → c ∈ connections_of (manager w) v →
             ∃ ok, {| addressee := v; socket := c; payload := m; delivered := ok |} ∈ ds)
        ∧ (∀ v, v ∉ us →
             active_connections (manager (send_all m us w)) !! v =
             active_connections (manager w) !! v)
        ∧ typing_users (manager (send_all m us w)) = typing_users (manager w)
        ∧ (online_inv (manager w) → online_inv (manager (send_all m us w))).
Proof.
  revert w. induction us as [|u us IH]; intros w.
  - exists []. split_and!; try done.
    + unfold extends. simpl. by rewrite app_nil_r.
    + intros v c Hv. by apply elem_of_nil in Hv.
  - unfold send_all. simpl. fold (send_all m us (send_personal_message m u w)).
    destruct (send_personal_message_spec m u w)
      as (ds1 & Hext1 & Hsock1 & Hall1 & Hfr1 & Hty1 & Hon1).
    destruct (IH (send_personal_message m u w))
      as (ds2 & Hext2 & Hall2 & Hhit2 & Hfr2 & Hty2 & Hon2).
    exists (ds1 ++ ds2). split_and!.
    + by eapply extends_trans.
    + apply Forall_app. split.
      * eapply Forall_impl; [exact Hall1|]. intros d [-> ->]. split; [left|done].
      * eapply Forall_impl; [exact Hall2|]. intros d [? ->]. split; [by right|done].
    + intros v c Hv Hc. destruct (decide (v = u)) as [->|Hne].
      * rewrite <- Hsock1 in Hc. apply list_elem_of_fmap in Hc as (d & -> & Hd).
        rewrite Forall_forall in Hall1. destruct (Hall1 d Hd) as [Ha Hp].
        exists (delivered d). apply elem_of_app. left.
        destruct d; simpl in *. by subst.
      * apply elem_of_cons in Hv as [?|Hv]; [done|].
        destruct (Hhit2 v c Hv) as [ok Hok].
        { unfold connections_of in *. by rewrite Hfr1. }
        exists ok. apply elem_of_app. by right.
    + intros v Hv. apply not_elem_of_cons in Hv as [Hne Hv].
      by rewrite Hfr2, Hfr1.
    + by rewrite Hty2.
    + intros H. by apply Hon2, Hon1.
Qed.

Lemma elem_of_connected_keys cm v :
  v ∈ connected_keys cm ↔ is_Some (active_connections cm !! v).
Proof.
  unfold connected_keys. rewrite list_elem_of_fmap. split.
  - intros ([k l] & -> & H). apply elem_of_map_to_list in H. by exists l.
  - intros [l H]. exists (v, l). split; [done|]. by apply elem_of_map_to_list.
Qed.

(** *** The invariants are kept by every method *)

Lemma register_online_inv ws u cm : online_inv cm → online_inv (register ws u cm).
Proof.
  intros Hinv v. unfold connections_of, register. simpl.
  destruct (decide (v = u)) as [->|Hne].
  - rewrite lookup_insert_eq. simpl. split; [|set_solver].
    intros _. by destruct (default [] (active_connections cm !! u)).
  - rewrite lookup_insert_ne by done. specialize (Hinv v).
    unfold connections_of in Hinv. set_solver.
Qed.

Lemma set_typing_typing_inv c u b cm : typing_inv cm → typing_inv (set_typing c u b cm).
Proof.
  intros Hinv c' typists. unfold set_typing. simpl. destruct b.
  - destruct (decide (c' = c)) as [->|Hne].
    + rewrite lookup_insert_eq. intros [= <-]. set_solver.
    + rewrite lookup_insert_ne by done. apply Hinv.
  - destruct (typing_users cm !! c) as [old|] eqn:E; [|apply Hinv].
    destruct (decide (old ∖ {[u]} = ∅)) as [Hemp|Hemp].
    + destruct (decide (c' = c)) as [->|Hne].
      * by rewrite lookup_delete_eq.
      * rewrite lookup_delete_ne by done. apply Hinv.
    + destruct (decide (c' = c)) as [->|Hne].
      * rewrite lookup_insert_eq. by intros [= <-].
      * rewrite lookup_insert_ne by done. apply Hinv.
Qed.

Lemma perform_invariants call w :
  online_inv (manager w) ∧ typing_inv (manager w) →
  online_inv (manager (perform call w)) ∧ typing_inv (manager (perform call w)).
Proof.
  intros [Hon Hty]. destruct call as [ws u now|ws u|m u|m ps ex s|u st now|c u b ps now]; simpl.
  - unfold connect, broadcast_user_status.
    set (w1 := with_manager (register ws u) w).
    destruct (send_all_spec (UserStatusEvent u "online" now) (connected_keys (manager w1)) w1)
      as (ds & _ & _ & _ & _ & Ht & Ho).
    unfold send_all in *. split.
    + apply Ho. by apply register_online_inv.
    + unfold typing_inv. by rewrite Ht.
  - split; [by apply disconnect_online_inv|].
    unfold typing_inv. by rewrite disconnect_typing.
  - destruct (send_personal_message_spec m u w) as (ds & _ & _ & _ & _ & Ht & Ho).
    split; [by apply Ho|]. unfold typing_inv. by rewrite Ht.
  - rewrite send_to_conversation_send_all.
    destruct (send_all_spec m (List.filter (λ p, negb (ex && bool_decide (Some p = s))) ps) w)
      as (ds & _ & _ & _ & _ & Ht & Ho).
    split; [by apply Ho|]. unfold typing_inv. by rewrite Ht.
  - unfold broadcast_user_status.
    destruct (send_all_spec (UserStatusEvent u st now) (connected_keys (manager w)) w)
      as (ds & _ & _ & _ & _ & Ht & Ho).
    unfold send_all in *. split; [by apply Ho|]. unfold typing_inv. by rewrite Ht.
  - unfold broadcast_typing_status. rewrite send_except_send_all.
    set (w1 := with_manager (set_typing c u b) w).
    destruct (send_all_spec (TypingEvent c u b now) (List.filter (λ p, negb (p =? u)) ps) w1)
      as (ds & _ & _ & _ & _ & Ht & Ho).
    split.
    + apply Ho. exact Hon.
    + unfold typing_inv. rewrite Ht. by apply set_typing_typing_inv.
Qed.

Lemma run_invariants calls w :
  online_inv (manager w) ∧ typing_inv (manager w) →
  online_inv (manager (run calls w)) ∧ typing_inv (manager (run calls w)).
Proof.
  revert w. induction calls as [|c calls IH]; intros w H; simpl; [done|].
  by apply IH, perform_invariants.
Qed.

Lemma start_invariants script :
  online_inv (manager (start script)) ∧ typing_inv (manager (start script)).
Proof.
  split.
  - intros u. unfold connections_of. simpl. rewrite lookup_empty. set_solver.
  - intros c typists. simpl. by rewrite lookup_empty.
Qed.

(** C4. After any finite sequence of calls of the manager's methods
    (connect and disconnect among them) a user is reported online exactly
    when at least one connection is registered for that user: the online
    set is the set of users with a non-empty connection list. *)
Theorem online_iff_connected (calls : list call) (script : list bool) (u : Z) :
  is_user_online (manager (run calls (start script))) u = true
  ↔ (0 < length (connections_of (manager (run calls (start script))) u))%nat.
Proof.
  destruct (run_invariants calls (start script) (start_invariants script)) as [Hon _].
  unfold is_user_online. rewrite bool_decide_eq_true, (Hon u).
  destruct (connections_of _ u); simpl; split; try done; lia.
Qed.

(** C6, as stated, fails: user 1 already holds connection 0 when
    connection 1 is registered for the same user, and the "online" event
    is sent all the same (to both connections). *)
Lemma connect_again_still_broadcasts :
  ¬ (∀ (w : World) (ws : WebSocket) (u now : Z),
       (∃ d, d ∈ emitted w (connect ws u now w)
             ∧ payload d = UserStatusEvent u "online" now)
       ↔ connections_of (manager w) u = []).
Proof.
  intros claim.
  destruct (claim (connect 0%nat 1 100 (start [])) 1%nat 1 200) as [H _].
  assert (connections_of (manager (connect 0%nat 1 100 (start []))) 1 = [0%nat]) as Hc
    by (vm_compute; reflexivity).
  rewrite Hc in H. discriminate H.
  exists {| addressee := 1; socket := 0%nat;
            payload := UserStatusEvent 1 "online" 200; delivered := true |}.
  split; [|reflexivity].
  vm_compute. left.
Qed.

(** C6, amended. [connect] always broadcasts: whether or not the user
    already had a connection, every connection registered for any user
    once the new one is added -- the new one included -- is sent the
    "online" event of the connecting user. *)
Theorem connect_broadcasts_online (w : World) (ws : WebSocket) (u now : Z) :
  (∀ v c, c ∈ connections_of (register ws u (manager w)) v →
     ∃ ok, {| addressee := v; socket := c;
              payload := UserStatusEvent u "online" now; delivered := ok |}
           ∈ emitted w (connect ws u now w))
  ∧ ∃ ok, {| addressee := u; socket := ws;
             payload := UserStatusEvent u "online" now; delivered := ok |}
          ∈ emitted w (connect ws u now w).
Proof.
  assert (Hall : ∀ v c, c ∈ connections_of (register ws u (manager w)) v →
     ∃ ok, {| addressee := v; socket := c;
              payload := UserStatusEvent u "online" now; delivered := ok |}
           ∈ emitted w (connect ws u now w)).
  { intros v c Hc. unfold connect, broadcast_user_status.
    set (w1 := with_manager (register ws u) w).
    destruct (send_all_spec (UserStatusEvent u "online" now)
                (connected_keys (manager w1)) w1)
      as (ds & Hext & _ & Hhit & _).
    unfold send_all in *.
    assert (extends w (foldl (λ w' uid,
              send_personal_message (UserStatusEvent u "online" now) uid w') w1
              (connected_keys (manager w1))) ds) as Hext' by exact Hext.
    rewrite (emitted_extends _ _ _ Hext').
    apply Hhit; [|exact Hc].
    apply elem_of_connected_keys. unfold connections_of in Hc.
    unfold w1, with_manager. cbn [manager].
    destruct (active_connections (register ws u (manager w)) !! v); [by eexists|].
    by apply elem_of_nil in Hc. }
  split; [exact Hall|]. apply Hall.
  unfold connections_of, register. simpl. rewrite lookup_insert_eq. simpl.
  apply elem_of_app. right. left.
Qed.

Lemma connect_broadcasts_online_witness :
  ∃ ok, {| addressee := 1; socket := 0%nat;
           payload := UserStatusEvent 1 "online" 200; delivered := ok |}
        ∈ emitted (connect 0%nat 1 100 (start []))
            (connect 1%nat 1 200 (connect 0%nat 1 100 (start []))).
Proof.
  apply (proj1 (connect_broadcasts_online (connect 0%nat 1 100 (start [])) 1%nat 1 200)).
  vm_compute. left.
Defined.

(** C9. Signalling [is_typing = true] puts the user among the typists of
    the conversation, [false] removes the user, and signalling [true]
    twice leaves the user listed exactly once. The typing event is sent
    to every connection of every listed participant other than the
    signalling user, and to nobody else. *)
Theorem typing_status_membership (w : World) (c u : Z) (b : bool)
    (ps ps' : list Z) (now now' : Z) :
  let on := broadcast_typing_status c u true ps now w in
  let off := broadcast_typing_status c u false ps now w in
  let twice := broadcast_typing_status c u true ps' now' on in
  let any := broadcast_typing_status c u b ps now w in
  (u ∈ get_typing_users (manager on) c)
  ∧ (u ∉ get_typing_users (manager off) c)
  ∧ (count_occ Z.eq_dec (get_typing_users (manager twice) c) u = 1%nat)
  ∧ (∀ p k, p ∈ ps → p ≠ u → k ∈ connections_of (manager w) p →
       ∃ ok, {| addressee := p; socket := k;
                payload := TypingEvent c u b now; delivered := ok |}
             ∈ emitted w any)
  ∧ (∀ d, d ∈ emitted w any →
       addressee d ≠ u ∧ addressee d ∈ ps ∧ payload d = TypingEvent c u b now).
Proof.
  assert (Hty : ∀ b' qs t w0,
    typing_users (manager (broadcast_typing_status c u b' qs t w0)) =
    typing_users (set_typing c u b' (manager w0))).
  { intros b' qs t w0. unfold broadcast_typing_status. rewrite send_except_send_all.
    destruct (send_all_spec (TypingEvent c u b' t)
                (List.filter (λ p, negb (p =? u)) qs)
                (with_manager (set_typing c u b') w0)) as (ds & _ & _ & _ & _ & Ht & _).
    exact Ht. }
  assert (Hon : ∀ qs t w0,
    u ∈ get_typing_users (manager (broadcast_typing_status c u true qs t w0)) c).
  { intros qs t w0. unfold get_typing_users. rewrite Hty. simpl.
    rewrite lookup_insert_eq. simpl. set_solver. }
  simpl. split_and!.
  - apply Hon.
  - unfold get_typing_users. rewrite Hty. simpl.
    destruct (typing_users (manager w) !! c) as [old|] eqn:E.
    + destruct (decide (old ∖ {[u]} = ∅)) as [Hemp|Hemp].
      * rewrite lookup_delete_eq. simpl. set_solver.
      * rewrite lookup_insert_eq. simpl. set_solver.
    + rewrite E. simpl. set_solver.
  - apply NoDup_count_occ'.
    + unfold get_typing_users. apply NoDup_ListNoDup, NoDup_elements.
    + apply list_elem_of_In, Hon.
  - intros p k Hp Hne Hk. unfold broadcast_typing_status.
    rewrite send_except_send_all.
    destruct (send_all_spec (TypingEvent c u b now)
                (List.filter (λ p, negb (p =? u)) ps)
                (with_manager (set_typing c u b) w)) as (ds & Hext & _ & Hhit & _).
    assert (extends w (send_all (TypingEvent c u b now)
              (List.filter (λ p, negb (p =? u)) ps)
              (with_manager (set_typing c u b) w)) ds) as Hext' by exact Hext.
    rewrite (emitted_extends _ _ _ Hext'). apply Hhit; [|exact Hk].
    apply list_elem_of_In, filter_In. split; [by apply list_elem_of_In|].
    apply negb_true_iff, Z.eqb_neq, Hne.
  - intros d Hd. unfold broadcast_typing_status in Hd.
    rewrite send_except_send_all in Hd.
    destruct (send_all_spec (TypingEvent c u b now)
                (List.filter (λ p, negb (p =? u)) ps)
                (with_manager (set_typing c u b) w)) as (ds & Hext & Hall & _).
    assert (extends w (send_all (TypingEvent c u b now)
              (List.filter (λ p, negb (p =? u)) ps)
              (with_manager (set_typing c u b) w)) ds) as Hext' by exact Hext.
    rewrite (emitted_extends _ _ _ Hext') in Hd.
    rewrite Forall_forall in Hall. destruct (Hall d Hd) as [Ha Hp].
    apply list_elem_of_In, filter_In in Ha as [Hin Hne].
    apply negb_true_iff, Z.eqb_neq in Hne.
    split_and!; [done|by apply list_elem_of_In|done].
Qed.

Lemma typing_status_membership_witness :
  ∃ ok, {| addressee := 2; socket := 5%nat;
           payload := TypingEvent 7 1 true 300; delivered := ok |}
        ∈ emitted (connect 5%nat 2 100 (start []))
            (broadcast_typing_status 7 1 true [1; 2] 300 (connect 5%nat 2 100 (start []))).
Proof.
  pose proof (typing_status_membership (connect 5%nat 2 100 (start []))
                7 1 true [1; 2] [] 300 0) as H.
  simpl in H. destruct H as (_ & _ & _ & H & _).
  apply (H 2 5%nat).
  - right. left.
  - lia.
  - vm_compute. left.
Defined.

(** C10. After any sequence of calls (of [broadcast_typing_status] in
    particular) no conversation is bound to an empty set of typists: when
    the last typist of a conversation signals [false] the entry is
    removed, and [get_typing_users] of a conversation without an entry is
    the empty list. *)
Theorem typing_map_has_no_empty_entry (calls : list call) (script : list bool) :
  (∀ c typists,
     typing_users (manager (run calls (start script))) !! c = Some typists →
     typists ≠ ∅)
  ∧ (∀ w c u ps now,
       typing_users (manager w) !! c = Some {[u]} →
       typing_users (manager (broadcast_typing_status c u false ps now w)) !! c = None)
  ∧ (∀ cm c, typing_users cm !! c = None → get_typing_users cm c = []).
Proof.
  split_and!.
  - apply (run_invariants calls (start script) (start_invariants script)).
  - intros w c u ps now H. unfold broadcast_typing_status.
    rewrite send_except_send_all.
    destruct (send_all_spec (TypingEvent c u false now)
                (List.filter (λ p, negb (p =? u)) ps)
                (with_manager (set_typing c u false) w)) as (ds & _ & _ & _ & _ & Ht & _).
    rewrite Ht. simpl. rewrite H.
    destruct (decide (({[u]} : gset Z) ∖ {[u]} = ∅)) as [_|Hne].
    + apply lookup_delete_eq.
    + exfalso. apply Hne. set_solver.
  - intros cm c H. unfold get_typing_users. rewrite H. simpl. apply elements_empty.
Qed.

Lemma typing_map_has_no_empty_entry_witness :
  typing_users
    (manager (broadcast_typing_status 7 1 false [1; 2] 400
                (broadcast_typing_status 7 1 true [1; 2] 300 (start [])))) !! 7 = None
  ∧ get_typing_users
      (manager (broadcast_typing_status 7 1 false [1; 2] 400
                  (broadcast_typing_status 7 1 true [1; 2] 300 (start [])))) 7 = []
  ∧ ({[2]} : gset Z) ≠ ∅.
Proof.
  destruct (typing_map_has_no_empty_entry
              [BroadcastTypingStatus 7 1 true [1; 2] 300;
               BroadcastTypingStatus 7 2 true [1; 2] 310;
               BroadcastTypingStatus 7 1 false [1; 2] 400] [])
    as (Hinv & Hrm & Hget).
  assert (typing_users
    (manager (broadcast_typing_status 7 1 false [1; 2] 400
                (broadcast_typing_status 7 1 true [1; 2] 300 (start [])))) !! 7 = None) as H.
  { apply Hrm. vm_compute. reflexivity. }
  split_and!; [exact H|apply Hget, H|].
  apply (Hinv 7). vm_compute. reflexivity.
Defined.

End RegistryFacts.

(** ** The bot service *)

Module BotFacts.
Import Models BotService.

Lemma find_by_key {A} (key : A → Z) (rows : list A) (row : A) :
  NoDup (map key rows) → In row rows →
  List.find (λ r, key r =? key row) rows = Some row.
Proof.
  induction rows as [|r rows IH]; intros Hnd Hin; [done|].
  simpl in *. apply NoDup_cons in Hnd as [Hr Hnd]. destruct Hin as [->|Hin].
  - by rewrite Z.eqb_refl.
  - destruct (Z.eqb_spec (key r) (key row)) as [Heq|Hne]; [|by apply IH].
    exfalso. apply Hr. rewrite Heq. apply list_elem_of_In, in_map, Hin.
Qed.

(** C1. If the triggering message was sent by a bot account,
    [trigger_immediate_bot_response] returns [None] and leaves the
    database as it was: no message, no [BotActivity] row, no counter
    change. *)
Theorem no_reply_to_bot_message (utcnow : nat → Z) (pick : nat) (db : Database)
    (conversation_id : Z) (M : Message) (author : User) :
  NoDup (map m_id (messages db)) →
  In M (messages db) →
  sender db M = Some author →
  u_is_bot author = true →
  trigger_immediate_bot_response utcnow pick db conversation_id (m_id M)
  = (Returned None, db).
Proof.
  intros Hkey HM Hsender Hbot. unfold trigger_immediate_bot_response.
  rewrite (find_by_key m_id _ M Hkey HM), Hsender, Hbot. reflexivity.
Qed.

Lemma no_reply_to_bot_message_witness :
  trigger_immediate_bot_response Scenario.clock 0 Scenario.db 10 101
  = (Returned None, Scenario.db).
Proof.
  apply (no_reply_to_bot_message Scenario.clock 0 Scenario.db 10 Scenario.from_bot
           {| u_id := 2; u_name := "Sam Smith"; u_is_bot := true |}).
  - simpl. apply NoDup_cons. split; [|apply NoDup_singleton].
    intros H. apply list_elem_of_singleton in H. discriminate H.
  - left. reflexivity.
  - reflexivity.
  - reflexivity.
Defined.

Lemma midnight_at_utc now midnight :
  midnight_at 0 now midnight → today_start now = midnight.
Proof.
  intros [[day Hday] Hnow]. unfold today_start, day_us.
  rewrite Z.add_0_r in Hday.
  rewrite <- (Z.mod_unique_pos now (86400 * 1000000) day (now - midnight)); lia.
Qed.

Lemma today_activities_logged_since db bot now :
  today_activities db bot now = logged_since db bot (today_start now).
Proof.
  unfold today_activities, logged_since. f_equal.
  induction (bot_activities db) as [|a rows IH]; [done|].
  cbn [List.filter]. rewrite filter_cons.
  destruct (Z.eqb_spec (a_bot_id a) (b_id bot)) as [Hid|Hid];
    destruct (Z.leb_spec (today_start now) (a_created_at a)) as [Hat|Hat]; simpl;
    case_decide; simpl; first [by rewrite IH | exact IH | lia | tauto].
Qed.

(** C2, as stated, fails: on a server three hours behind UTC, at 10:00
    UTC, a bot with three activities logged between 00:30 and 02:00 UTC
    has none since local midnight (03:00 UTC) and its frequency window
    has elapsed, yet it is refused. *)
Lemma local_midnight_is_not_the_boundary :
  ¬ (∀ offset now midnight db bot,
       midnight_at offset now midnight →
       logged_since db bot midnight < b_max_daily_activities bot →
       (∀ last, b_last_activity_at bot = Some last →
                b_activity_frequency bot * 60 * 1000000 ≤ now - last) →
       should_bot_act now db bot = true).
Proof.
  intros claim.
  specialize (claim (- (3 * 3600 * 1000000)) (Scenario.at_time 5 10 0)
                (Scenario.at_time 5 3 0)
                (Scenario.with_activities
                   [Scenario.logged 1 Scenario.sam (Scenario.at_time 5 0 30);
                    Scenario.logged 2 Scenario.sam (Scenario.at_time 5 1 0);
                    Scenario.logged 3 Scenario.sam (Scenario.at_time 5 2 0)])
                Scenario.sam).
  assert (false = true) as Hfalse; [|discriminate Hfalse].
  apply claim.
  - split; [exists 5; reflexivity|]. vm_compute. split; [discriminate|reflexivity].
  - vm_compute. reflexivity.
  - intros last [= <-]. vm_compute. discriminate.
Qed.

(** C2, amended. The day of the limit is the UTC day: [should_bot_act]
    refuses once the activities logged for the bot since midnight UTC
    reach [max_daily_activities], whatever [last_activity_at] is; it
    refuses while less than [activity_frequency] minutes have passed since
    [last_activity_at]; and it accepts when neither holds. *)
Theorem should_bot_act_eligibility (now midnight : Z) (db : Database) (bot : Bot) :
  midnight_at 0 now midnight →
  (b_max_daily_activities bot ≤ logged_since db bot midnight →
   should_bot_act now db bot = false)
  ∧ (∀ last, b_last_activity_at bot = Some last →
       now - last < b_activity_frequency bot * 60 * 1000000 →
       should_bot_act now db bot = false)
  ∧ (logged_since db bot midnight < b_max_daily_activities bot →
     (∀ last, b_last_activity_at bot = Some last →
        b_activity_frequency bot * 60 * 1000000 ≤ now - last) →
     should_bot_act now db bot = true).
Proof.
  intros Hmidnight. apply midnight_at_utc in Hmidnight as <-.
  rewrite <- today_activities_logged_since.
  unfold should_bot_act. split_and!.
  - intros H. apply Z.leb_le in H. by rewrite H.
  - intros last Hlast H. rewrite Hlast. apply Z.ltb_lt in H. rewrite H.
    by destruct (_ <=? _).
  - intros Hcount Hfreq.
    apply Z.leb_gt in Hcount. rewrite Hcount.
    destruct (b_last_activity_at bot) as [last|]; [|done].
    specialize (Hfreq last eq_refl). apply Z.ltb_ge in Hfreq. by rewrite Hfreq.
Qed.

Lemma should_bot_act_eligibility_witness :
  should_bot_act (Scenario.at_time 5 10 1) Scenario.db Scenario.sam = false
  ∧ should_bot_act (Scenario.at_time 5 9 10)
      (Scenario.with_activities [Scenario.logged 3 Scenario.sam (Scenario.at_time 5 7 0);
                                 Scenario.logged 4 Scenario.sam (Scenario.at_time 5 9 0)])
      Scenario.sam = false
  ∧ should_bot_act (Scenario.at_time 5 10 1)
      (Scenario.with_activities [Scenario.logged 3 Scenario.sam (Scenario.at_time 5 7 0);
                                 Scenario.logged 4 Scenario.sam (Scenario.at_time 5 9 0)])
      Scenario.sam = true.
Proof.
  assert (∀ hour minute, 0 ≤ hour * 60 + minute < 24 * 60 →
            midnight_at 0 (Scenario.at_time 5 hour minute) (Scenario.at_time 5 0 0))
    as Hday.
  { intros hour minute H. split; [exists 5; reflexivity|].
    unfold Scenario.at_time. lia. }
  split_and!.
  - apply (should_bot_act_eligibility (Scenario.at_time 5 10 1) (Scenario.at_time 5 0 0)
             Scenario.db Scenario.sam); [apply Hday; lia|].
    vm_compute. discriminate.
  - apply (should_bot_act_eligibility (Scenario.at_time 5 9 10) (Scenario.at_time 5 0 0)
             (Scenario.with_activities _) Scenario.sam)
      with (last := Scenario.at_time 5 9 0); [apply Hday; lia| |].
    + reflexivity.
    + vm_compute. reflexivity.
  - apply (should_bot_act_eligibility (Scenario.at_time 5 10 1) (Scenario.at_time 5 0 0)
             (Scenario.with_activities _) Scenario.sam); [apply Hday; lia| |].
    + vm_compute. reflexivity.
    + intros last [= <-]. vm_compute. discriminate.
Defined.

(** The row of a bot after the commit of a response. *)
Lemma commit_bot_lookup (bot : Bot) (stamp : option Z) (rows : list Bot) :
  NoDup (map b_user_id rows) → In bot rows →
  ∃ bot', List.find (λ b, b_user_id b =? b_user_id bot) (commit_bot bot stamp rows)
          = Some bot'
          ∧ b_total_messages bot' = b_total_messages bot + 1
          ∧ b_last_activity_at bot' =
              match stamp with Some t => Some t | None => b_last_activity_at bot end.
Proof.
  induction rows as [|r rows IH]; intros Hnd Hin; [done|].
  simpl in Hnd. apply NoDup_cons in Hnd as [Hr Hnd]. destruct Hin as [->|Hin].
  - simpl. rewrite Z.eqb_refl. simpl. rewrite Z.eqb_refl. eexists. split; [done|].
    simpl. by destruct stamp.
  - assert (b_user_id r ≠ b_user_id bot) as Hne.
    { intros Heq. apply Hr. rewrite Heq. apply list_elem_of_In, in_map, Hin. }
    destruct (IH Hnd Hin) as (bot' & Hfind & Htot & Hlast).
    exists bot'. split; [|done]. simpl.
    apply Z.eqb_neq in Hne.
    destruct (b_id r =? b_id bot); simpl; by rewrite Hne.
Qed.

Lemma first_messaging_bot_In db bps bot :
  first_messaging_bot db bps = Some bot → In bot (bots db).
Proof.
  induction bps as [|bp bps IH]; simpl; [done|].
  destruct (List.find _ (bots db)) as [b|] eqn:E; [|exact IH].
  intros [= <-]. by apply find_some in E as [? _].
Qed.

(** C3. When [trigger_immediate_bot_response] returns a message, the bot
    that sent it keeps its [last_activity_at] and has [total_messages]
    one higher; when [respond_to_messages] returns [True], the bot's
    [last_activity_at] is the clock reading taken for it and
    [total_messages] is one higher. *)
Theorem response_paths_and_last_activity (utcnow : nat → Z) (pick : nat)
    (db : Database) :
  NoDup (map b_user_id (bots db)) →
  (∀ conversation_id triggering_message_id response db',
     trigger_immediate_bot_response utcnow pick db conversation_id triggering_message_id
     = (Returned (Some response), db') →
     ∃ bot bot',
       get_bot_by_user_id db (m_sender_id response) = Some bot
       ∧ get_bot_by_user_id db' (m_sender_id response) = Some bot'
       ∧ b_last_activity_at bot' = b_last_activity_at bot
       ∧ b_total_messages bot' = b_total_messages bot + 1)
  ∧ (∀ bot db',
       In bot (bots db) →
       respond_to_messages utcnow pick db bot = (Returned true, db') →
       ∃ bot',
         get_bot_by_user_id db' (b_user_id bot) = Some bot'
         ∧ b_last_activity_at bot' = Some (utcnow 2%nat)
         ∧ b_total_messages bot' = b_total_messages bot + 1).
Proof.
  intros Hnd. split.
  - intros cid mid response db' H. unfold trigger_immediate_bot_response in H.
    destruct (List.find _ (messages db)) as [tm|]; [|done].
    destruct (sender db tm) as [author|]; [|done].
    destruct (u_is_bot author); [done|].
    destruct (first_messaging_bot db _) as [bot|] eqn:Ebot; [|done].
    destruct (_generate_message_response _ _ _) as [content|]; [|done].
    apply first_messaging_bot_In in Ebot.
    unfold post_response in H. injection H as <- <-. simpl.
    destruct (commit_bot_lookup bot None (bots db) Hnd Ebot) as (bot' & Hf & Htot & Hlast).
    exists bot, bot'. split_and!; try done.
    unfold get_bot_by_user_id. by apply (find_by_key b_user_id).
  - intros bot db' Hin H. unfold respond_to_messages in H.
    destruct (b_can_message bot); [|done]. simpl in H.
    destruct (map p_conversation_id _) as [|cid0 cids]; [done|].
    destruct (List.filter _ (order_by_created_at_desc _)) as [|msg rest]; [done|].
    destruct (_generate_message_response _ _ _) as [content|]; [|done].
    unfold post_response in H. injection H as <-. simpl.
    destruct (commit_bot_lookup bot (Some (utcnow 2%nat)) (bots db) Hnd Hin)
      as (bot' & Hf & Htot & Hlast).
    by exists bot'.
Qed.

Lemma response_paths_and_last_activity_witness :
  (∃ bot', get_bot_by_user_id
             (trigger_immediate_bot_response Scenario.clock 0 Scenario.db 10 100).2 2
           = Some bot'
           ∧ b_last_activity_at bot' = Some (Scenario.at_time 5 9 0)
           ∧ b_total_messages bot' = 5)
  ∧ (∃ bot', get_bot_by_user_id
               (respond_to_messages Scenario.clock 0 Scenario.db Scenario.sam).2 2
             = Some bot'
             ∧ b_last_activity_at bot' = Some (Scenario.clock 2)
             ∧ b_total_messages bot' = 5).
Proof.
  assert (NoDup (map b_user_id (bots Scenario.db))) as Hnd.
  { simpl. apply NoDup_cons. split; [|apply NoDup_singleton].
    intros H. apply list_elem_of_singleton in H. discriminate H. }
  destruct (response_paths_and_last_activity Scenario.clock 0 Scenario.db Hnd)
    as [Himm Hsched].
  split.
  - destruct (Himm 10 100
                (fst (post_response Scenario.db Scenario.sam 10 "Hi there! 😊"
                        "Real-time response to user 1"
                        (Scenario.clock 0) (Scenario.clock 1) None))
                (snd (trigger_immediate_bot_response Scenario.clock 0 Scenario.db 10 100)))
      as (bot & bot' & Hb & Hb' & Hlast & Htot).
    { vm_compute. reflexivity. }
    exists bot'. simpl in Hb, Hb'. vm_compute in Hb. injection Hb as <-.
    split_and!; [exact Hb'|exact Hlast|exact Htot].
  - destruct (Hsched Scenario.sam
                (snd (respond_to_messages Scenario.clock 0 Scenario.db Scenario.sam)))
      as (bot' & Hb' & Hlast & Htot).
    { left. reflexivity. }
    { vm_compute. reflexivity. }
    exists bot'. split_and!; [exact Hb'|exact Hlast|exact Htot].
Defined.

(** *** The response classifier *)

Lemma prefix_spec (needle hay : string) :
  String.prefix needle hay = true ↔ ∃ suf, hay = (needle ++ suf)%string.
Proof.
  revert hay. induction needle as [|c needle IH]; intros hay.
  - split; [|intros _; by destruct hay]. intros _. by exists hay.
  - destruct hay as [|c' hay].
    + split; [intros H; discriminate H|]. intros [suf H]. discriminate H.
    + cbn [String.prefix].
      change (String c needle +:+ ?x) with (String c (needle +:+ x)).
      destruct (Ascii.ascii_dec c c') as [->|Hne].
      * rewrite IH. split; intros [suf H]; exists suf; [by rewrite H|by injection H].
      * split; [intros H; discriminate H|]. intros [suf H]. by injection H.
Qed.

Lemma contains_spec (needle hay : string) :
  PyStr.contains needle hay = true ↔ occurs needle hay.
Proof.
  unfold occurs. induction hay as [|c hay IH].
  - cbn [PyStr.contains]. destruct (String.prefix needle "") eqn:E.
    + split; [|done]. intros _. apply prefix_spec in E as [suf E].
      by exists ""%string, suf.
    + split; [done|]. intros (pre & suf & H). destruct pre; [|done].
      assert (String.prefix needle "" = true) as E'
        by (apply prefix_spec; by exists suf). congruence.
  - cbn [PyStr.contains]. destruct (String.prefix needle (String c hay)) eqn:E.
    + split; [|done]. intros _. apply prefix_spec in E as [suf E].
      by exists ""%string, suf.
    + rewrite IH. split.
      * intros (pre & suf & ->). by exists (String c pre), suf.
      * intros (pre & suf & H). destruct pre as [|c' pre].
        -- assert (String.prefix needle (String c hay) = true) as E'
             by (apply prefix_spec; by exists suf). congruence.
        -- injection H as -> ->. by exists pre, suf.
Qed.

(** Cutting a text into characters loses nothing. *)
Lemma concat_cons (ch : string) (rest : list string) :
  String.concat "" (ch :: rest) = (ch ++ String.concat "" rest)%string.
Proof.
  destruct rest as [|ch' rest]; [|done]. simpl.
  induction ch as [|c ch IH]; [done|].
  change (String c ch +:+ "") with (String c (ch +:+ "")). by f_equal.
Qed.

Lemma concat_chars (s : string) : String.concat "" (PyStr.chars s) = s.
Proof.
  induction s as [|c s IH]; [done|]. cbn [PyStr.chars].
  destruct s as [|c' s']; [done|].
  destruct (PyStr.chars (String c' s')) as [|ch rest] eqn:E; [discriminate IH|].
  cbv zeta. rewrite concat_cons in IH.
  destruct (PyStr.is_continuation c'); rewrite !concat_cons;
    change (String c ?x +:+ ?y) with (String c (x +:+ y)); by rewrite IH.
Qed.

Lemma any_in_spec (words : list string) (text : string) :
  any_in words (PyStr.strip (PyStr.lower text)) = true ↔ mentions words text.
Proof.
  unfold any_in, mentions. rewrite existsb_exists.
  split; intros (w & Hin & H); exists w; (split; [done|]); by apply contains_spec.
Qed.

(** C7, as stated, fails: in "show" no word is an interrogative word and
    there is no question mark, yet it is classified as a question. *)
Lemma show_is_classified_as_question :
  ¬ (∀ text,
       (∀ word, In word question_words →
                ¬ In word (PyStr.split (PyStr.strip (PyStr.lower text)))) →
       classify text ≠ Question).
Proof.
  intros claim. apply (claim "show"%string); [|reflexivity].
  intros word Hword Hin. vm_compute in Hin. destruct Hin as [<-|[]].
  vm_compute in Hword.
  repeat (destruct Hword as [Hword|Hword]; [discriminate Hword|]).
  exact Hword.
Qed.

(** C7, amended. The classifier assigns exactly one bucket in the order
    greeting, thanks, question, general, default, where "contains" is
    containment of the word as a run of characters of the lower-cased
    text, anywhere, also inside another word; so "show", which contains
    "how", is a question. *)
Theorem classify_priority (text : string) :
  (classify text = Greeting ↔ mentions greeting_words text)
  ∧ (classify text = Thanks ↔
       ¬ mentions greeting_words text ∧ mentions thanks_words text)
  ∧ (classify text = Question ↔
       ¬ mentions greeting_words text ∧ ¬ mentions thanks_words text
       ∧ mentions question_words text)
  ∧ (classify text = General ↔
       ¬ mentions greeting_words text ∧ ¬ mentions thanks_words text
       ∧ ¬ mentions question_words text ∧ (3 < word_count text)%nat)
  ∧ (classify text = Default ↔
       ¬ mentions greeting_words text ∧ ¬ mentions thanks_words text
       ∧ ¬ mentions question_words text ∧ (word_count text ≤ 3)%nat)
  ∧ classify "show" = Question.
Proof.
  split_and!; [..|vm_compute; reflexivity];
    unfold classify, word_count; cbv zeta; rewrite <- !any_in_spec;
    repeat match goal with
           | |- context [any_in ?words ?t] => destruct (any_in words t)
           end;
    try (destruct (Nat.ltb_spec 3 (length (PyStr.split (PyStr.strip (PyStr.lower text))))));
    intuition (try congruence; try lia).
Qed.

End BotFacts.

(** ** Direct conversations *)

Module MessageFacts.
Import Models MessageService.

Lemma find_ext {A} (f g : A → bool) (l : list A) :
  (∀ x, In x l → f x = g x) → List.find f l = List.find g l.
Proof.
  induction l as [|x l IH]; intros H; simpl; [done|].
  rewrite <- (H x) by by left. destruct (f x); [done|].
  apply IH. intros y Hy. apply H. by right.
Qed.

Lemma filter_ext_in' {A} (f g : A → bool) (l : list A) :
  (∀ x, In x l → f x = g x) → List.filter f l = List.filter g l.
Proof.
  induction l as [|x l IH]; intros H; simpl; [done|].
  rewrite <- (H x) by by left. rewrite IH; [done|].
  intros y Hy. apply H. by right.
Qed.

Lemma filter_none {A} (f : A → bool) (l : list A) :
  (∀ x, In x l → f x = false) → List.filter f l = [].
Proof.
  induction l as [|x l IH]; intros H; simpl; [done|].
  rewrite (H x) by by left. apply IH. intros y Hy. apply H. by right.
Qed.

Lemma find_app {A} (f : A → bool) (l k : list A) :
  List.find f (l ++ k) =
  match List.find f l with Some x => Some x | None => List.find f k end.
Proof.
  induction l as [|x l IH]; simpl; [done|]. by destruct (f x).
Qed.

Lemma next_id_fresh (ids : list Z) : ¬ In (next_id ids) ids.
Proof.
  assert (∀ i, In i ids → i ≤ foldr Z.max 0 ids) as Hmax.
  { induction ids as [|j ids IH]; intros i Hi; [done|].
    simpl. destruct Hi as [->|Hi]; [lia|]. specialize (IH i Hi). lia. }
  intros H. apply Hmax in H. unfold next_id in H. lia.
Qed.

(** The grouped rows are the active rows of the conversation whose user is
    one of [ids]. *)
Lemma active_rows_among_filter db ids c :
  active_rows_among db ids c =
  List.filter (λ p, existsb (Z.eqb (p_user_id p)) ids)
    (List.filter p_is_active (participants db c)).
Proof.
  unfold active_rows_among, participants.
  induction (conversation_participants db) as [|p ps IH]; simpl; [done|].
  destruct (p_conversation_id p =? c_id c); simpl; [|exact IH].
  destruct (p_is_active p); simpl.
  - destruct (existsb _ ids); simpl; by rewrite IH.
  - rewrite andb_false_r. exact IH.
Qed.

Lemma active_rows_among_sym db a b c :
  active_rows_among db [a; b] c = active_rows_among db [b; a] c.
Proof.
  unfold active_rows_among. apply filter_ext_in'. intros p _. simpl.
  f_equal. f_equal. rewrite !orb_false_r. apply orb_comm.
Qed.

Lemma existing_direct_conversation_sym db a b :
  existing_direct_conversation db a b = existing_direct_conversation db b a.
Proof.
  unfold existing_direct_conversation.
  rewrite (find_ext _ (λ c, is_direct c
             && (length (active_rows_among db [b; a] c) =? 2)%nat)).
  - destruct (List.find _ _) as [c|]; [|done].
    assert (({[a; b]} : gset Z) = {[b; a]}) as -> by set_solver. done.
  - intros c _. by rewrite active_rows_among_sym.
Qed.

(** Under [well_formed] a row found by the grouped query always passes the
    check on its participants. *)
Lemma candidate_active_set db a b c :
  well_formed db → a ≠ b → In c (conversations db) → is_direct c = true →
  length (active_rows_among db [a; b] c) = 2%nat →
  active_set db c = {[a; b]}.
Proof.
  intros (_ & _ & Hdirect) Hab Hc Hd Hlen.
  destruct (Hdirect c Hc Hd) as [Hle Hnd].
  rewrite active_rows_among_filter in Hlen. unfold active_set.
  destruct (List.filter p_is_active (participants db c)) as [|p [|q [|r rest]]];
    simpl in *; try lia.
  - destruct (_ || _); simpl in Hlen; lia.
  - rewrite !orb_false_r in Hlen.
    destruct ((p_user_id p =? a) || (p_user_id p =? b)) eqn:Ep;
      destruct ((p_user_id q =? a) || (p_user_id q =? b)) eqn:Eq;
      simpl in Hlen; try lia.
    apply NoDup_cons in Hnd as [Hpq _].
    rewrite list_elem_of_singleton in Hpq.
    apply orb_true_iff in Ep, Eq. rewrite !Z.eqb_eq in Ep, Eq.
    destruct Ep as [Ep | Ep], Eq as [Eq | Eq]; rewrite Ep, Eq in *;
      first [by destruct Hpq | clear; set_solver].
Qed.

Lemma active_set_pair_candidate db a b c :
  well_formed db → a ≠ b → In c (conversations db) → is_direct c = true →
  active_set db c = {[a; b]} →
  length (active_rows_among db [a; b] c) = 2%nat.
Proof.
  intros (_ & _ & Hdirect) Hab Hc Hd Hset.
  destruct (Hdirect c Hc Hd) as [Hle Hnd].
  rewrite active_rows_among_filter. unfold active_set in Hset.
  destruct (List.filter p_is_active (participants db c)) as [|p [|q [|r rest]]];
    simpl in *; try lia.
  - exfalso. set_solver.
  - exfalso. assert (a ∈ ({[p_user_id p]} ∪ ∅ : gset Z)) as Ha by (rewrite Hset; set_solver).
    assert (b ∈ ({[p_user_id p]} ∪ ∅ : gset Z)) as Hb by (rewrite Hset; set_solver).
    set_solver.
  - assert (p_user_id p ∈ ({[a; b]} : gset Z)) as Hp by (rewrite <- Hset; set_solver).
    assert (p_user_id q ∈ ({[a; b]} : gset Z)) as Hq by (rewrite <- Hset; set_solver).
    rewrite !orb_false_r.
    assert ((p_user_id p =? a) || (p_user_id p =? b) = true) as ->.
    { apply orb_true_iff. rewrite !Z.eqb_eq. set_solver. }
    assert ((p_user_id q =? a) || (p_user_id q =? b) = true) as ->.
    { apply orb_true_iff. rewrite !Z.eqb_eq. set_solver. }
    done.
Qed.

Lemma existing_Some db a b c :
  existing_direct_conversation db a b = Some c →
  In c (conversations db) ∧ is_direct c = true ∧ active_set db c = {[a; b]}.
Proof.
  unfold existing_direct_conversation.
  destruct (List.find _ (conversations db)) as [c0|] eqn:E; [|done].
  apply find_some in E as [Hin Hp]. apply andb_true_iff in Hp as [Hd _].
  destruct (bool_decide _) eqn:Eset; [|done]. intros [= <-].
  apply bool_decide_eq_true in Eset. done.
Qed.

Lemma existing_None db a b c :
  well_formed db → a ≠ b → existing_direct_conversation db a b = None →
  In c (conversations db) →
  is_direct c && (length (active_rows_among db [a; b] c) =? 2)%nat = false.
Proof.
  intros Hwf Hab. unfold existing_direct_conversation.
  destruct (List.find _ (conversations db)) as [c0|] eqn:E.
  - apply find_some in E as [Hin Hp]. apply andb_true_iff in Hp as [Hd Hlen].
    apply Nat.eqb_eq in Hlen.
    pose proof (candidate_active_set db a b c0 Hwf Hab Hin Hd Hlen) as Hset.
    unfold active_set in Hset. rewrite Hset.
    by rewrite bool_decide_eq_true_2.
  - intros _ Hc. by apply (find_none _ _ E).
Qed.

Section Creation.

Variables (db : Database) (a b : Z).
Hypothesis Hwf : well_formed db.
Hypothesis Hab : a ≠ b.
Hypothesis Hnone : existing_direct_conversation db a b = None.

Local Abbreviation N := (new_conversation db a).
Local Abbreviation rows := (new_participants db (c_id (new_conversation db a)) a b).

Lemma created_eq : created db a b = N.
Proof. unfold created, get_or_create_direct_conversation. by rewrite Hnone. Qed.

Lemma after_conversations : conversations (after db a b) = conversations db ++ [N].
Proof. unfold after, get_or_create_direct_conversation. by rewrite Hnone. Qed.

Lemma after_participants :
  conversation_participants (after db a b) = conversation_participants db ++ rows.
Proof. unfold after, get_or_create_direct_conversation. by rewrite Hnone. Qed.

Lemma old_id c : In c (conversations db) → c_id c ≠ c_id N.
Proof.
  intros Hc Heq. apply (next_id_fresh (map c_id (conversations db))).
  change (next_id (map c_id (conversations db))) with (c_id N).
  rewrite <- Heq. by apply in_map.
Qed.

Lemma old_row p : In p (conversation_participants db) → p_conversation_id p ≠ c_id N.
Proof.
  intros Hp Heq. destruct Hwf as (_ & Hfk & _).
  apply (next_id_fresh (map c_id (conversations db))).
  change (next_id (map c_id (conversations db))) with (c_id N).
  rewrite <- Heq. by apply Hfk.
Qed.

Lemma participants_old c :
  In c (conversations db) → participants (after db a b) c = participants db c.
Proof.
  intros Hc. unfold participants. rewrite after_participants, List.filter_app. simpl.
  apply old_id, not_eq_sym, Z.eqb_neq in Hc. simpl in Hc. rewrite Hc.
  by rewrite app_nil_r.
Qed.

Lemma rows_among_old ids c :
  In c (conversations db) →
  active_rows_among (after db a b) ids c = active_rows_among db ids c.
Proof.
  intros Hc. rewrite !active_rows_among_filter. by rewrite participants_old.
Qed.

Lemma participants_new : participants (after db a b) N = rows.
Proof.
  unfold participants. rewrite after_participants, List.filter_app. simpl.
  rewrite Z.eqb_refl.
  rewrite filter_none; [done|].
  intros p Hp. by apply Z.eqb_neq, old_row.
Qed.

Lemma active_set_old c :
  In c (conversations db) → active_set (after db a b) c = active_set db c.
Proof. intros Hc. unfold active_set. by rewrite participants_old. Qed.

Lemma active_set_new : active_set (after db a b) N = {[a; b]}.
Proof. unfold active_set. rewrite participants_new. simpl. set_solver. Qed.

Lemma find_old_none :
  List.find (λ c, is_direct c
     && (length (active_rows_among (after db a b) [a; b] c) =? 2)%nat)
    (conversations db) = None.
Proof.
  rewrite (find_ext _ (λ c, is_direct c
             && (length (active_rows_among db [a; b] c) =? 2)%nat)).
  - destruct (List.find _ _) as [c|] eqn:E; [|done].
    apply find_some in E as [Hin Hp].
    by rewrite (existing_None db a b c Hwf Hab Hnone Hin) in Hp.
  - intros c Hc. by rewrite rows_among_old.
Qed.

Lemma rows_among_new : active_rows_among (after db a b) [a; b] N = rows.
Proof.
  rewrite active_rows_among_filter, participants_new. simpl.
  rewrite !Z.eqb_refl. simpl. by rewrite orb_true_r.
Qed.

Lemma existing_after : existing_direct_conversation (after db a b) a b = Some N.
Proof.
  pose proof active_set_new as Hset. unfold active_set in Hset.
  unfold existing_direct_conversation. rewrite after_conversations.
  rewrite find_app, find_old_none. simpl. rewrite rows_among_new. simpl.
  rewrite Hset. by rewrite bool_decide_eq_true_2.
Qed.

Lemma after_well_formed : well_formed (after db a b).
Proof.
  destruct Hwf as (Hkey & Hfk & Hdirect). split_and!.
  - rewrite after_conversations, map_app. apply NoDup_app. split_and!.
    + exact Hkey.
    + intros i Hi Hn. simpl in Hn. apply list_elem_of_singleton in Hn as ->.
      apply list_elem_of_In in Hi. by apply next_id_fresh in Hi.
    + apply NoDup_singleton.
  - intros p. rewrite after_participants, after_conversations, map_app.
    rewrite !in_app_iff. intros [Hp|Hp]; [left; by apply Hfk|right].
    simpl in *. destruct Hp as [<-|[<-|[]]]; by left.
  - intros c. rewrite after_conversations, in_app_iff. intros [Hc|Hc] Hd.
    + rewrite participants_old by done. by apply Hdirect.
    + simpl in Hc. destruct Hc as [<-|[]]. rewrite participants_new. simpl.
      split; [lia|]. apply NoDup_cons. split; [|apply NoDup_singleton].
      by rewrite list_elem_of_singleton.
Qed.

Lemma after_unique_direct x y :
  unique_direct db x y → unique_direct (after db a b) x y.
Proof.
  intros Hdedup c c'. rewrite after_conversations, !in_app_iff. simpl.
  assert (∀ c0, In c0 (conversations db) → is_direct c0 = true →
                active_set db c0 ≠ {[a; b]}) as Hfree.
  { intros c0 Hc0 Hd0 Hset0.
    pose proof (existing_None db a b c0 Hwf Hab Hnone Hc0) as Hf.
    rewrite Hd0, (active_set_pair_candidate db a b c0 Hwf Hab Hc0 Hd0 Hset0) in Hf.
    done. }
  intros [Hc|[<-|[]]] [Hc'|[<-|[]]] Hd Hd' Hs Hs'; try done.
  - rewrite active_set_old in Hs, Hs' by done. by apply (Hdedup c c').
  - exfalso. rewrite active_set_new in Hs'. rewrite active_set_old in Hs by done.
    apply (Hfree c Hc Hd). by rewrite Hs, Hs'.
  - exfalso. rewrite active_set_new in Hs. rewrite active_set_old in Hs' by done.
    apply (Hfree c' Hc' Hd'). by rewrite Hs', Hs.
Qed.

End Creation.

Lemma scenario_well_formed : well_formed Scenario.db.
Proof.
  split_and!.
  - simpl. apply NoDup_singleton.
  - intros p [<-|[<-|[]]]; by left.
  - intros c [<-|[]] _. simpl. split; [lia|].
    apply NoDup_cons. split; [|apply NoDup_singleton].
    intros H. apply list_elem_of_singleton in H. discriminate H.
Qed.


End MessageFacts.

(** ** The realtime protocol handler *)

Module ProtocolFacts.
Import Models Protocol.

Lemma get_or_absent key fallback items :
  has_key key items = false → get_or key fallback items = fallback.
Proof.
  induction items as [|[k v] items IH]; simpl; [done|].
  destruct (String.eqb k key); [done|]. exact IH.
Qed.

Lemma get_absent key items : has_key key items = false → get key items = JNull.
Proof. apply get_or_absent. Qed.

(** C5, as stated, fails: a typing frame without [conversation_id] is a
    protocol error, and the handler answers nothing at all. *)
Lemma typing_without_conversation_is_silent :
  ¬ (∀ json_loads py_repr raises data,
       protocol_error json_loads data →
       ∃ message,
         on_text json_loads py_repr true raises data
         = ([SendJson (ErrorEvent message)], OPEN)).
Proof.
  intros claim.
  destruct (claim Scenario.decode Scenario.no_repr Scenario.no_failure
              (Scenario.frame [("type", "typing")]%string)) as [message H].
  - vm_compute. by right.
  - vm_compute in H. discriminate H.
Qed.

Section Answers.

Variable json_loads : string → option json.
Variable py_repr : json → string.
Variable raises : action → option exn.

Local Abbreviation on_text := (Protocol.on_text json_loads py_repr true raises).

Lemma malformed_answer data :
  json_loads data = None →
  on_text data = ([SendJson (ErrorEvent "Invalid JSON format")], OPEN).
Proof. intros H. unfold Protocol.on_text, dispatch. by rewrite H. Qed.

Lemma unknown_kind_answer data items :
  json_loads data = Some (JObject items) →
  known_kind (get "type" items) = false →
  on_text data
  = ([SendJson (ErrorEvent ("Unknown message type: "
                            ++ py_str py_repr (get "type" items)))], OPEN).
Proof.
  intros H Hk. unfold Protocol.on_text, dispatch. rewrite H.
  unfold known_kind in Hk. rewrite !orb_false_iff in Hk.
  destruct Hk as [[[-> ->] ->] ->]. done.
Qed.

Lemma message_missing_field_answer data items :
  json_loads data = Some (JObject items) →
  is_kind "message" (get "type" items) = true →
  has_key "conversation_id" items = false ∨ has_key "content" items = false →
  ∃ message,
    on_text data = ([SendJson (ErrorEvent message)], OPEN)
    ∧ (message = "Missing conversation_id or content"%string
       ∨ message = "Internal server error"%string).
Proof.
  intros H Hk Hmiss. unfold Protocol.on_text, dispatch. rewrite H, Hk.
  destruct Hmiss as [Hc|Hc].
  - rewrite (get_absent _ _ Hc).
    destruct (get_or "content" (JString "") items); simpl; eauto.
  - rewrite (get_or_absent _ _ _ Hc). simpl.
    rewrite orb_true_r. simpl. eauto.
Qed.

Lemma silent_kinds data items :
  json_loads data = Some (JObject items) →
  is_kind "typing" (get "type" items) = true
  ∨ is_kind "read" (get "type" items) = true →
  has_key "conversation_id" items = false →
  on_text data = ([], OPEN).
Proof.
  intros H Hk Hc. unfold Protocol.on_text, dispatch. rewrite H.
  assert (is_kind "message" (get "type" items) = false) as ->.
  { destruct (get "type" items) as [| | |s| |]; try done. simpl in *.
    destruct Hk as [Hk|Hk]; apply String.eqb_eq in Hk as ->; done. }
  rewrite (get_absent _ _ Hc). simpl.
  destruct Hk as [->| Hk]; [done|].
  destruct (is_kind "typing" _); [done|]. by rewrite Hk.
Qed.

End Answers.

(** C5, amended. On a live connection every protocol error leaves the
    connection open and involves no other connection. Text that is not
    JSON, an unknown kind (named in the answer) and a message frame
    lacking [conversation_id] or [content] are answered with one error
    event on the offending connection; a typing or read frame lacking
    [conversation_id] is dropped without any answer. *)
Theorem protocol_errors (json_loads : string → option json)
    (py_repr : json → string) (raises : action → option exn) (data : string) :
  protocol_error json_loads data →
  (on_text json_loads py_repr true raises data).2 = OPEN
  ∧ (json_loads data = None →
     on_text json_loads py_repr true raises data
     = ([SendJson (ErrorEvent "Invalid JSON format")], OPEN))
  ∧ (∀ items, json_loads data = Some (JObject items) →
       (known_kind (get "type" items) = false →
        on_text json_loads py_repr true raises data
        = ([SendJson (ErrorEvent ("Unknown message type: "
                                  ++ py_str py_repr (get "type" items)))], OPEN))
       ∧ (∀ kind, get "type" items = JString kind →
            known_kind (JString kind) = false →
            on_text json_loads py_repr true raises data
            = ([SendJson (ErrorEvent ("Unknown message type: " ++ kind))], OPEN))
       ∧ (is_kind "message" (get "type" items) = true →
          missing_required_field items = true →
          ∃ message,
            on_text json_loads py_repr true raises data
            = ([SendJson (ErrorEvent message)], OPEN))
       ∧ (is_kind "typing" (get "type" items) = true
          ∨ is_kind "read" (get "type" items) = true →
          missing_required_field items = true →
          on_text json_loads py_repr true raises data = ([], OPEN))).
Proof.
  intros Herr.
  assert (∀ items, json_loads data = Some (JObject items) →
            is_kind "message" (get "type" items) = true →
            missing_required_field items = true →
            ∃ message, on_text json_loads py_repr true raises data
                       = ([SendJson (ErrorEvent message)], OPEN)) as Hmsg.
  { intros items H Hk Hmiss. unfold missing_required_field in Hmiss.
    destruct (message_missing_field_answer json_loads py_repr raises data items H Hk)
      as (message & Hm & _); [|by exists message].
    rewrite Hk in Hmiss. simpl in Hmiss.
    assert (is_kind "typing" (get "type" items) = false
            ∧ is_kind "read" (get "type" items) = false) as [Ht Hr].
    { destruct (get "type" items) as [| | |s| |]; try done. simpl in *.
      apply String.eqb_eq in Hk as ->. done. }
    rewrite Ht, Hr in Hmiss. simpl in Hmiss. rewrite orb_false_r in Hmiss.
    apply orb_true_iff in Hmiss. rewrite !negb_true_iff in Hmiss. exact Hmiss. }
  assert (∀ items, json_loads data = Some (JObject items) →
            is_kind "typing" (get "type" items) = true
            ∨ is_kind "read" (get "type" items) = true →
            missing_required_field items = true →
            on_text json_loads py_repr true raises data = ([], OPEN)) as Hsilent.
  { intros items H Hk Hmiss. apply (silent_kinds _ _ _ _ items H Hk).
    unfold missing_required_field in Hmiss.
    assert (is_kind "message" (get "type" items) = false) as Hm.
    { destruct (get "type" items) as [| | |s| |]; try done. simpl in *.
      destruct Hk as [Hk|Hk]; apply String.eqb_eq in Hk as ->; done. }
    rewrite Hm in Hmiss. simpl in Hmiss.
    apply andb_true_iff in Hmiss as [_ Hmiss]. by apply negb_true_iff. }
  split_and!.
  - unfold protocol_error in Herr.
    destruct (json_loads data) as [[| | | | |items]|] eqn:E; try done.
    + destruct Herr as [Hk|Hmiss].
      * by rewrite (unknown_kind_answer _ _ _ _ items E Hk).
      * destruct (is_kind "message" (get "type" items)) eqn:Ek.
        -- destruct (Hmsg items eq_refl Ek Hmiss) as [message ->]. done.
        -- rewrite (Hsilent items eq_refl); [done| |done].
           unfold missing_required_field in Hmiss. rewrite Ek in Hmiss.
           simpl in Hmiss. apply andb_true_iff in Hmiss as [Hk _].
           by apply orb_true_iff.
    + by rewrite (malformed_answer _ _ _ _ E).
  - apply malformed_answer.
  - intros items E. split_and!.
    + by apply unknown_kind_answer.
    + intros kind Hkind Hk.
      rewrite (unknown_kind_answer _ _ _ _ items E) by by rewrite Hkind.
      by rewrite Hkind.
    + by apply Hmsg.
    + by apply Hsilent.
Qed.

Lemma protocol_errors_witness :
  on_text Scenario.decode Scenario.no_repr true Scenario.no_failure "not json"
  = ([SendJson (ErrorEvent "Invalid JSON format")], OPEN)
  ∧ on_text Scenario.decode Scenario.no_repr true Scenario.no_failure
      (Scenario.frame [("type", "dance")]%string)
    = ([SendJson (ErrorEvent "Unknown message type: dance")], OPEN)
  ∧ (∃ message,
       on_text Scenario.decode Scenario.no_repr true Scenario.no_failure
         (Scenario.frame [("type", "message"); ("content", "hi")]%string)
       = ([SendJson (ErrorEvent message)], OPEN))
  ∧ on_text Scenario.decode Scenario.no_repr true Scenario.no_failure
      (Scenario.frame [("type", "read")]%string)
    = ([], OPEN).
Proof.
  split_and!.
  - apply (protocol_errors Scenario.decode Scenario.no_repr Scenario.no_failure "not json");
      vm_compute; done.
  - apply (protocol_errors Scenario.decode Scenario.no_repr Scenario.no_failure
             (Scenario.frame [("type", "dance")]%string))
      with (items := [("type", JString "dance")]%string) (kind := "dance"%string);
      vm_compute; auto.
  - apply (protocol_errors Scenario.decode Scenario.no_repr Scenario.no_failure
             (Scenario.frame [("type", "message"); ("content", "hi")]%string))
      with (items := [("type", JString "message"); ("content", JString "hi")]%string);
      vm_compute; auto.
  - apply (protocol_errors Scenario.decode Scenario.no_repr Scenario.no_failure
             (Scenario.frame [("type", "read")]%string))
      with (items := [("type", JString "read")]%string);
      vm_compute; auto.
Defined.

End ProtocolFacts.

(** ** More on the connection registry *)

Module RegistryMore.
Import Registry RegistryFacts Closing.

(** *** Who a conversation-wide send reaches *)

(** X1. [send_to_conversation] with [exclude_sender] set never addresses
    the sender and tries every connection of every other listed user;
    without it the sender's connections are tried as well. *)
Theorem send_to_conversation_reach (m : event) (ps : list Z) (s : Z) (w : World) :
  (∀ d, d ∈ emitted w (send_to_conversation m ps true (Some s) w) →
        addressee d ≠ s ∧ addressee d ∈ ps ∧ payload d = m)
  ∧ (∀ p k, p ∈ ps → p ≠ s → k ∈ connections_of (manager w) p →
       ∃ ok, {| addressee := p; socket := k; payload := m; delivered := ok |}
             ∈ emitted w (send_to_conversation m ps true (Some s) w))
  ∧ (∀ p k, p ∈ ps → k ∈ connections_of (manager w) p →
       ∃ ok, {| addressee := p; socket := k; payload := m; delivered := ok |}
             ∈ emitted w (send_to_conversation m ps false (Some s) w)).
Proof.
  split_and!.
  - intros d Hd. rewrite send_to_conversation_send_all in Hd.
    destruct (send_all_spec m
                (List.filter (λ p, negb (true && bool_decide (Some p = Some s))) ps) w)
      as (ds & Hext & Hall & _).
    rewrite (emitted_extends _ _ _ Hext) in Hd.
    rewrite Forall_forall in Hall. destruct (Hall d Hd) as [Ha Hp].
    apply list_elem_of_In, filter_In in Ha as [Hin Hne].
    simpl in Hne. apply negb_true_iff, bool_decide_eq_false in Hne.
    split_and!; [congruence|by apply list_elem_of_In|done].
  - intros p k Hp Hne Hk. rewrite send_to_conversation_send_all.
    destruct (send_all_spec m
                (List.filter (λ p, negb (true && bool_decide (Some p = Some s))) ps) w)
      as (ds & Hext & _ & Hhit & _).
    rewrite (emitted_extends _ _ _ Hext). apply Hhit; [|exact Hk].
    apply list_elem_of_In, filter_In. split; [by apply list_elem_of_In|].
    simpl. apply negb_true_iff, bool_decide_eq_false. congruence.
  - intros p k Hp Hk. rewrite send_to_conversation_send_all.
    destruct (send_all_spec m
                (List.filter (λ p, negb (false && bool_decide (Some p = Some s))) ps) w)
      as (ds & Hext & _ & Hhit & _).
    rewrite (emitted_extends _ _ _ Hext). apply Hhit; [|exact Hk].
    apply list_elem_of_In, filter_In. split; [by apply list_elem_of_In|done].
Qed.

Lemma send_to_conversation_reach_witness :
  ∃ ok, {| addressee := 2; socket := 5%nat;
           payload := ReadReceiptEvent 10 1 300; delivered := ok |}
        ∈ emitted (connect 5%nat 2 100 (connect 4%nat 1 90 (start [])))
            (send_to_conversation (ReadReceiptEvent 10 1 300) [1; 2] true (Some 1)
               (connect 5%nat 2 100 (connect 4%nat 1 90 (start [])))).
Proof.
  apply (send_to_conversation_reach (ReadReceiptEvent 10 1 300) [1; 2] 1
           (connect 5%nat 2 100 (connect 4%nat 1 90 (start [])))).
  - right. left.
  - lia.
  - vm_compute. left.
Defined.

(** *** Pruning broken connections *)

Lemma list_remove_notin ws (l : list WebSocket) : ws ∉ l → list_remove ws l = l.
Proof.
  induction l as [|c l IH]; simpl; [done|]. intros Hn.
  apply not_elem_of_cons in Hn as [Hne Hn].
  destruct (decide (ws = c)); [done|]. by rewrite IH.
Qed.

Lemma connections_of_disconnect ws u cm :
  connections_of (disconnect ws u cm) u = list_remove ws (connections_of cm u).
Proof.
  unfold connections_of, disconnect.
  destruct (active_connections cm !! u) as [conns|] eqn:E; [|by rewrite E].
  simpl. assert ((if decide (ws ∈ conns) then list_remove ws conns else conns)
                 = list_remove ws conns) as ->.
  { destruct (decide (ws ∈ conns)); [done|]. by rewrite list_remove_notin. }
  destruct (list_remove ws conns); simpl.
  - by rewrite lookup_delete_eq.
  - by rewrite lookup_insert_eq.
Qed.

Lemma list_remove_NoDup ws (l : list WebSocket) :
  NoDup l → NoDup (list_remove ws l) ∧ ∀ c, c ∈ list_remove ws l ↔ c ∈ l ∧ c ≠ ws.
Proof.
  induction l as [|x l IH]; intros Hnd; simpl.
  - split; [done|]. intros c. split; [by intros H%elem_of_nil|by intros [H%elem_of_nil _]].
  - apply NoDup_cons in Hnd as [Hx Hnd]. destruct (IH Hnd) as [IH1 IH2].
    destruct (decide (ws = x)) as [->|Hne].
    + split; [done|]. intros c. rewrite elem_of_cons. split.
      * intros Hc. split; [by right|]. by intros ->.
      * by intros [[->|Hc] Hne].
    + split.
      * apply NoDup_cons. split; [|done]. rewrite IH2. by intros [? _].
      * intros c. rewrite !elem_of_cons, IH2. split.
        -- intros [->|[? ?]]; [split; [by left|done]|split; [by right|done]].
        -- intros [[->|?] ?]; [by left|by right].
Qed.

Lemma prune_connections u dis cm :
  NoDup (connections_of cm u) →
  ∀ c, c ∈ connections_of (foldl (λ cm conn, disconnect conn u cm) cm dis) u
       ↔ c ∈ connections_of cm u ∧ c ∉ dis.
Proof.
  revert cm. induction dis as [|d dis IH]; intros cm Hnd c; simpl.
  - split; [intros H; split; [done|apply not_elem_of_nil]|by intros [H _]].
  - destruct (list_remove_NoDup d _ Hnd) as [Hnd' Hmem].
    rewrite IH by (by rewrite connections_of_disconnect).
    rewrite connections_of_disconnect, Hmem, not_elem_of_cons. tauto.
Qed.

Lemma send_each_failures u m conns w :
  ∀ c, c ∈ (send_each u m conns w).1
       ↔ ∃ i, conns !! i = Some c ∧ faults w !! i = Some true.
Proof.
  revert w. induction conns as [|c0 rest IH]; intros w c; simpl.
  - split; [by intros H%elem_of_nil|]. by intros (i & H & _).
  - specialize (IH (send_text u c0 m w).2 c).
    destruct (send_each u m rest (send_text u c0 m w).2) as [dis w2] eqn:E.
    unfold send_text in *. simpl in *. rewrite E. simpl.
    destruct (faults w) as [|b fs]; simpl in *.
    + rewrite IH. split; intros (i & Hi & Hf); by destruct i.
    + destruct b; simpl.
      * rewrite elem_of_cons, IH. split.
        -- intros [->|(i & Hi & Hf)]; [by exists 0%nat|]. by exists (S i).
        -- intros ([|i] & Hi & Hf); simpl in *; [left; congruence|right; by exists i].
      * rewrite IH. split.
        -- intros (i & Hi & Hf). by exists (S i).
        -- intros ([|i] & Hi & Hf); simpl in *; [done|by exists i].
Qed.

(** X2. After [send_personal_message] the connections registered for the
    user are exactly those whose send did not raise: a connection whose
    delivery fails is pruned, the others stay. *)
Theorem failed_connections_are_pruned (m : event) (u : Z) (w : World) :
  NoDup (connections_of (manager w) u) →
  ∀ c, c ∈ connections_of (manager (send_personal_message m u w)) u
       ↔ ∃ i, connections_of (manager w) u !! i = Some c
              ∧ faults w !! i ≠ Some true.
Proof.
  intros Hnd c. unfold send_personal_message.
  destruct (active_connections (manager w) !! u) as [conns|] eqn:E.
  - assert (connections_of (manager w) u = conns) as Hc
      by (unfold connections_of; by rewrite E).
    rewrite Hc in *.
    pose proof (send_each_failures u m conns w) as Hfail.
    destruct (send_each_spec u m conns w) as (ds & Hm & _).
    destruct (send_each u m conns w) as [dis w1]. simpl in *.
    rewrite prune_world. simpl. rewrite prune_connections; rewrite Hm, ?Hc; [|done].
    rewrite Hfail. split.
    + intros [Hin Hno]. apply list_elem_of_lookup in Hin as [i Hi].
      exists i. split; [done|]. intros Hf. apply Hno. by exists i.
    + intros (i & Hi & Hf). split; [by apply list_elem_of_lookup; exists i|].
      intros (j & Hj & Hfj).
      assert (i = j) as -> by (eapply NoDup_lookup; eauto). done.
  - unfold connections_of. rewrite E. simpl. split.
    + by intros H%elem_of_nil.
    + intros (i & Hi & _). by rewrite lookup_nil in Hi.
Qed.

Lemma failed_connections_are_pruned_witness :
  5%nat ∈ connections_of
            (manager (send_personal_message PongEvent 1
                        (connect 5%nat 1 100 (connect 4%nat 1 90 (start [false; false; false; true]))))) 1.
Proof.
  apply (failed_connections_are_pruned PongEvent 1
           (connect 5%nat 1 100 (connect 4%nat 1 90 (start [false; false; false; true])))).
  - vm_compute. apply NoDup_cons. split; [|apply NoDup_singleton].
    intros H. apply list_elem_of_singleton in H. discriminate H.
  - exists 1%nat. split; vm_compute; [reflexivity|discriminate].
Defined.

(** *** No empty connection list *)

Lemma disconnect_keys_inv ws u cm : keys_inv cm → keys_inv (disconnect ws u cm).
Proof.
  intros Hinv v conns. unfold disconnect.
  destruct (active_connections cm !! u) as [old|] eqn:E; [|apply Hinv].
  destruct (if decide (ws ∈ old) then list_remove ws old else old) as [|c rest] eqn:E';
    simpl.
  - destruct (decide (v = u)) as [->|Hne].
    + by rewrite lookup_delete_eq.
    + rewrite lookup_delete_ne by done. apply Hinv.
  - destruct (decide (v = u)) as [->|Hne].
    + rewrite lookup_insert_eq. by intros [= <-].
    + rewrite lookup_insert_ne by done. apply Hinv.
Qed.

Lemma send_personal_message_keys_inv m u w :
  keys_inv (manager w) → keys_inv (manager (send_personal_message m u w)).
Proof.
  intros Hinv. unfold send_personal_message.
  destruct (active_connections (manager w) !! u) as [conns|]; [|done].
  destruct (send_each_spec u m conns w) as (ds & Hm & _).
  destruct (send_each u m conns w) as [dis w1]. simpl in *.
  rewrite prune_world. simpl. rewrite Hm. clear Hm.
  revert Hinv. generalize (manager w). induction dis as [|d dis IH]; intros cm H; simpl.
  - done.
  - by apply IH, disconnect_keys_inv.
Qed.

Lemma send_all_keys_inv m us w :
  keys_inv (manager w) → keys_inv (manager (send_all m us w)).
Proof.
  revert w. induction us as [|u us IH]; intros w H; simpl; [done|].
  by apply IH, send_personal_message_keys_inv.
Qed.

Lemma perform_keys_inv call w :
  keys_inv (manager w) → keys_inv (manager (perform call w)).
Proof.
  intros H. destruct call as [ws u now|ws u|m u|m ps ex s|u st now|c u b ps now]; simpl.
  - apply (send_all_keys_inv _ _ (with_manager (register ws u) w)).
    intros v conns. simpl. destruct (decide (v = u)) as [->|Hne].
    + rewrite lookup_insert_eq. intros [= <-].
      by destruct (default [] (active_connections (manager w) !! u)).
    + rewrite lookup_insert_ne by done. apply H.
  - by apply disconnect_keys_inv.
  - by apply send_personal_message_keys_inv.
  - rewrite send_to_conversation_send_all. by apply send_all_keys_inv.
  - by apply (send_all_keys_inv _ _ w).
  - unfold broadcast_typing_status. rewrite send_except_send_all.
    by apply send_all_keys_inv.
Qed.

Lemma run_keys_inv calls w :
  keys_inv (manager w) → keys_inv (manager (run calls w)).
Proof.
  revert w. induction calls as [|c calls IH]; intros w H; simpl; [done|].
  by apply IH, perform_keys_inv.
Qed.

Lemma reachable_keys_inv calls script : keys_inv (manager (run calls (start script))).
Proof. apply run_keys_inv. intros u conns. simpl. by rewrite lookup_empty. Qed.

(** X3. After any sequence of calls no user is bound to an empty list of
    connections, and the online set is exactly the set of keys of
    [active_connections]. *)
Theorem connections_have_no_empty_entry (calls : list call) (script : list bool) :
  keys_inv (manager (run calls (start script)))
  ∧ online_users (manager (run calls (start script)))
    = dom (active_connections (manager (run calls (start script)))).
Proof.
  pose proof (reachable_keys_inv calls script) as Hkeys.
  split; [exact Hkeys|].
  destruct (run_invariants calls (start script) (start_invariants script)) as [Hon _].
  apply set_eq. intros u. rewrite (Hon u), elem_of_dom. unfold connections_of.
  destruct (active_connections _ !! u) as [conns|] eqn:E; simpl.
  - split; [by eexists|]. intros _. by apply (Hkeys u).
  - split; [done|]. by intros [? ?].
Qed.

(** *** Connecting and disconnecting *)

Lemma send_personal_message_quiet m u w :
  faults w = [] →
  manager (send_personal_message m u w) = manager w
  ∧ faults (send_personal_message m u w) = [].
Proof.
  intros Hf. unfold send_personal_message.
  destruct (active_connections (manager w) !! u) as [conns|]; [|done].
  assert (∀ w0, faults w0 = [] →
            (send_each u m conns w0).1 = []
            ∧ manager (send_each u m conns w0).2 = manager w0
            ∧ faults (send_each u m conns w0).2 = []) as H.
  { induction conns as [|c conns IH]; intros w0 H0; simpl; [done|].
    specialize (IH (send_text u c m w0).2).
    destruct (send_each u m conns (send_text u c m w0).2) as [dis w2] eqn:E.
    unfold send_text in *. simpl in *. rewrite E. rewrite H0 in *. simpl in *.
    destruct (IH eq_refl) as (Hd & Hm & Hfl). by rewrite Hd, Hm, Hfl. }
  destruct (H w Hf) as (Hd & Hm & Hfl).
  destruct (send_each u m conns w) as [dis w1]. simpl in *. subst dis. done.
Qed.

Lemma send_all_quiet m us w :
  faults w = [] →
  manager (send_all m us w) = manager w ∧ faults (send_all m us w) = [].
Proof.
  revert w. induction us as [|u us IH]; intros w Hf; simpl; [done|].
  destruct (send_personal_message_quiet m u w Hf) as [Hm Hf'].
  destruct (IH _ Hf') as [Hm' Hf'']. split; [congruence|done].
Qed.

(** X4. On a reachable state with no failing send, registering a socket
    that is new for the user and disconnecting it again gives back the
    manager as it was. *)
Theorem connect_disconnect_round_trip (calls : list call) (script : list bool)
    (ws : WebSocket) (u now : Z) :
  faults (run calls (start script)) = [] →
  ws ∉ connections_of (manager (run calls (start script))) u →
  manager (perform (Disconnect ws u) (perform (Connect ws u now) (run calls (start script))))
  = manager (run calls (start script)).
Proof.
  intros Hf Hfresh.
  pose proof (reachable_keys_inv calls script) as Hkeys.
  destruct (run_invariants calls (start script) (start_invariants script)) as [Hon _].
  set (w := run calls (start script)) in *. simpl.
  unfold connect, broadcast_user_status.
  destruct (send_all_quiet (UserStatusEvent u "online" now)
              (connected_keys (manager (with_manager (register ws u) w)))
              (with_manager (register ws u) w) Hf) as [Hm _].
  unfold send_all in Hm. rewrite Hm. simpl.
  unfold connections_of in Hfresh. specialize (Hon u). unfold connections_of in Hon.
  unfold disconnect, register. simpl. rewrite lookup_insert_eq.
  destruct (manager w) as [ac on ty] eqn:Ecm. simpl in *.
  destruct (ac !! u) as [conns|] eqn:E; simpl in *.
  - assert (list_remove ws (conns ++ [ws]) = conns) as Hrm.
    { clear -Hfresh. induction conns as [|c conns IH]; simpl.
      - by destruct (decide (ws = ws)).
      - apply not_elem_of_cons in Hfresh as [Hne Hn].
        destruct (decide (ws = c)); [done|]. by rewrite IH. }
    destruct (decide (ws ∈ conns ++ [ws])) as [_|Hn];
      [|destruct Hn; apply elem_of_app; right; left].
    rewrite Hrm. pose proof (Hkeys u conns E) as Hne.
    destruct conns as [|c rest]; [done|]. f_equal.
    + rewrite insert_insert_eq. by apply insert_id.
    + apply set_eq. intros v. rewrite elem_of_union, elem_of_singleton.
      split; [intros [? | ->]; [done|]|by left]. by apply Hon.
  - destruct (decide (ws ∈ [ws])) as [_|Hn]; [|destruct Hn; left]. simpl.
    destruct (decide (ws = ws)); [|done]. f_equal.
    + rewrite delete_insert_eq. by apply delete_id.
    + apply set_eq. intros v.
      rewrite elem_of_difference, elem_of_union, elem_of_singleton.
      split; [by intros [[?|?] ?]|]. intros Hv. split; [by left|].
      intros ->. by apply Hon in Hv.
Qed.

Lemma connect_disconnect_round_trip_witness :
  manager (perform (Disconnect 6%nat 1) (perform (Connect 6%nat 1 300)
             (run [Connect 4%nat 1 90; Connect 5%nat 2 100] (start []))))
  = manager (run [Connect 4%nat 1 90; Connect 5%nat 2 100] (start [])).
Proof.
  apply (connect_disconnect_round_trip [Connect 4%nat 1 90; Connect 5%nat 2 100] []).
  - reflexivity.
  - vm_compute. intros H. apply list_elem_of_singleton in H. discriminate H.
Defined.

(** *** Typing state and presence at the end of a connection *)

(** X5. Only [broadcast_typing_status] changes the typing map: the other
    methods, [disconnect] included, leave every user's typing mark in
    place. *)
Theorem only_typing_calls_change_typing (call : call) (w : World) :
  (∀ c u b ps now, call ≠ BroadcastTypingStatus c u b ps now) →
  typing_users (manager (perform call w)) = typing_users (manager w).
Proof.
  intros Hnot. destruct call as [ws u now|ws u|m u|m ps ex s|u st now|c u b ps now]; simpl.
  - destruct (send_all_spec (UserStatusEvent u "online" now)
                (connected_keys (manager (with_manager (register ws u) w)))
                (with_manager (register ws u) w)) as (ds & _ & _ & _ & _ & Ht & _).
    exact Ht.
  - apply disconnect_typing.
  - by destruct (send_personal_message_spec m u w) as (ds & _ & _ & _ & _ & Ht & _).
  - rewrite send_to_conversation_send_all.
    by destruct (send_all_spec m
                   (List.filter (λ p, negb (ex && bool_decide (Some p = s))) ps) w)
      as (ds & _ & _ & _ & _ & Ht & _).
  - by destruct (send_all_spec (UserStatusEvent u st now) (connected_keys (manager w)) w)
      as (ds & _ & _ & _ & _ & Ht & _).
  - by destruct (Hnot c u b ps now).
Qed.

Lemma only_typing_calls_change_typing_witness :
  get_typing_users
    (manager (run [Connect 4%nat 1 90; BroadcastTypingStatus 7 1 true [1; 2] 95;
                   Disconnect 4%nat 1] (start []))) 7 = [1]
  ∧ is_user_online
      (manager (run [Connect 4%nat 1 90; BroadcastTypingStatus 7 1 true [1; 2] 95;
                     Disconnect 4%nat 1] (start []))) 1 = false.
Proof.
  split; [|vm_compute; reflexivity].
  unfold get_typing_users.
  change (run [Connect 4%nat 1 90; BroadcastTypingStatus 7 1 true [1; 2] 95;
               Disconnect 4%nat 1] (start []))
    with (perform (Disconnect 4%nat 1)
            (run [Connect 4%nat 1 90; BroadcastTypingStatus 7 1 true [1; 2] 95] (start []))).
  rewrite (only_typing_calls_change_typing (Disconnect 4%nat 1)); [|discriminate].
  vm_compute. reflexivity.
Defined.

(** X6. When one connection of a user ends, the "offline" event of that
    user is sent although other connections remain: each remaining
    connection of the user receives it, and the user is still reported
    online when no send fails. *)
Theorem offline_broadcast_while_connected (calls : list call) (script : list bool)
    (ws : WebSocket) (u now : Z) (k : WebSocket) :
  k ∈ connections_of (disconnect ws u (manager (run calls (start script)))) u →
  (∃ ok, {| addressee := u; socket := k;
            payload := UserStatusEvent u "offline" now; delivered := ok |}
         ∈ emitted (run calls (start script))
             (on_disconnect ws u now (run calls (start script))))
  ∧ (faults (run calls (start script)) = [] →
     is_user_online
       (manager (on_disconnect ws u now (run calls (start script)))) u = true).
Proof.
  intros Hk. set (w := run calls (start script)) in *.
  unfold on_disconnect, broadcast_user_status.
  set (w1 := with_manager (disconnect ws u) w).
  destruct (send_all_spec (UserStatusEvent u "offline" now)
              (connected_keys (manager w1)) w1) as (ds & Hext & _ & Hhit & _).
  unfold send_all in *. split.
  - assert (extends w (foldl (λ w' uid,
              send_personal_message (UserStatusEvent u "offline" now) uid w') w1
              (connected_keys (manager w1))) ds) as Hext' by exact Hext.
    rewrite (emitted_extends _ _ _ Hext'). apply Hhit; [|exact Hk].
    apply elem_of_connected_keys. unfold connections_of in Hk.
    unfold w1, with_manager. cbn [manager].
    destruct (active_connections (disconnect ws u (manager w)) !! u); [by eexists|].
    by apply elem_of_nil in Hk.
  - intros Hf.
    destruct (send_all_quiet (UserStatusEvent u "offline" now)
                (connected_keys (manager w1)) w1 Hf) as [Hm _].
    unfold send_all in Hm. rewrite Hm. unfold w1, with_manager. cbn [manager].
    destruct (run_invariants calls (start script) (start_invariants script)) as [Hon _].
    fold w in Hon. apply (disconnect_online_inv ws u) in Hon.
    unfold is_user_online. apply bool_decide_eq_true. apply Hon.
    intros Hnil. rewrite Hnil in Hk. by apply elem_of_nil in Hk.
Qed.

Lemma offline_broadcast_while_connected_witness :
  ∃ ok, {| addressee := 1; socket := 5%nat;
           payload := UserStatusEvent 1 "offline" 300; delivered := ok |}
        ∈ emitted (run [Connect 4%nat 1 90; Connect 5%nat 1 100] (start []))
            (on_disconnect 4%nat 1 300
               (run [Connect 4%nat 1 90; Connect 5%nat 1 100] (start []))).
Proof.
  apply (offline_broadcast_while_connected [Connect 4%nat 1 90; Connect 5%nat 1 100] []
           4%nat 1 300 5%nat).
  vm_compute. left.
Defined.

End RegistryMore.

(** ** More on the bot service *)

Module BotMore.
Import Models BotService BotQueries.

(** *** Response generation *)

Lemma choice_nonempty {A} (pick : nat) (options : list A) :
  options ≠ [] → ∃ x, choice pick options = Some x ∧ In x options.
Proof.
  intros Hne. unfold choice.
  assert (pick mod length options < length options)%nat as Hlt.
  { apply Nat.mod_upper_bound. by destruct options. }
  destruct (lookup_lt_is_Some_2 options _ Hlt) as [x Hx].
  exists x. split; [done|]. apply list_elem_of_In. by eapply list_elem_of_lookup_2.
Qed.

Lemma responses_nonempty personality rt : responses personality rt ≠ [].
Proof. by destruct personality, rt. Qed.

Lemma response_is_from_the_pool_aux (pick : nat) (message_content : string)
    (personality : option BotPersonality) :
  ∃ response,
    _generate_message_response pick message_content personality = Some response
    ∧ In response (responses (default FRIENDLY personality) (classify message_content)).
Proof.
  unfold _generate_message_response. apply choice_nonempty, responses_nonempty.
Qed.

(** X7. [_generate_message_response] never fails: whatever the text, the
    personality (a missing one counts as FRIENDLY) and the draw, it
    returns one of the responses listed for the bucket the text is
    classified in. *)
Theorem response_is_from_the_pool (pick : nat) (message_content : string)
    (personality : option BotPersonality) :
  ∃ response,
    _generate_message_response pick message_content personality = Some response
    ∧ In response (responses (default FRIENDLY personality) (classify message_content)).
Proof. apply response_is_from_the_pool_aux. Qed.

(** *** Writes happen only with a response *)

(** X8. Both response paths write nothing unless they report a response:
    when [trigger_immediate_bot_response] does not return a message, or
    [respond_to_messages] does not return [True], the database is as it
    was. *)
Theorem no_response_no_write (utcnow : nat → Z) (pick : nat) (db : Database) :
  (∀ conversation_id triggering_message_id,
     (∀ response,
        (trigger_immediate_bot_response utcnow pick db conversation_id
           triggering_message_id).1 ≠ Returned (Some response)) →
     (trigger_immediate_bot_response utcnow pick db conversation_id
        triggering_message_id).2 = db)
  ∧ (∀ bot,
       (respond_to_messages utcnow pick db bot).1 ≠ Returned true →
       (respond_to_messages utcnow pick db bot).2 = db).
Proof.
  split.
  - intros cid mid H. unfold trigger_immediate_bot_response in *.
    destruct (List.find _ (messages db)) as [tm|]; [|done].
    destruct (sender db tm) as [author|]; [|done].
    destruct (u_is_bot author); [done|].
    destruct (first_messaging_bot db _) as [bot|]; [|done].
    destruct (_generate_message_response _ _ _) as [content|]; [|done].
    simpl in H. exfalso. by eapply H.
  - intros bot H. unfold respond_to_messages in *.
    destruct (b_can_message bot); [|done]. simpl in *.
    destruct (map p_conversation_id _) as [|cid0 cids]; [done|].
    destruct (List.filter _ (order_by_created_at_desc _)) as [|msg rest]; [done|].
    destruct (_generate_message_response _ _ _) as [content|]; [|done].
    simpl in H. done.
Qed.

Lemma no_response_no_write_witness :
  (trigger_immediate_bot_response Scenario.clock 0 Scenario.db 10 999).2 = Scenario.db
  ∧ (respond_to_messages Scenario.clock 0 Scenario.db Scenario.riley).2 = Scenario.db.
Proof.
  split.
  - apply (no_response_no_write Scenario.clock 0 Scenario.db). intros r. vm_compute.
    discriminate.
  - apply (no_response_no_write Scenario.clock 0 Scenario.db). vm_compute. discriminate.
Defined.

(** *** The immediate path *)

Lemma first_messaging_bot_spec db bps bot :
  first_messaging_bot db bps = Some bot →
  ∃ bp, In bp bps ∧ b_user_id bot = p_user_id bp
        ∧ In bot (bots db) ∧ b_is_active bot = true ∧ b_can_message bot = true.
Proof.
  induction bps as [|bp bps IH]; simpl; [done|].
  destruct (List.find _ (bots db)) as [b|] eqn:E.
  - intros [= <-]. apply find_some in E as [Hin Hp].
    apply andb_true_iff in Hp as [Hp Hcan]. apply andb_true_iff in Hp as [Hid Hact].
    apply Z.eqb_eq in Hid. exists bp. split_and!; try done. by left.
  - intros H. destruct (IH H) as (bp' & Hin & Hrest). exists bp'. split; [by right|done].
Qed.

(** What a successful immediate call did. *)
Lemma trigger_success utcnow pick db cid mid response db' :
  trigger_immediate_bot_response utcnow pick db cid mid = (Returned (Some response), db') →
  ∃ bot author content description,
    In bot (bots db) ∧ In author (users db)
    ∧ u_id author = b_user_id bot ∧ u_is_bot author = true
    ∧ (response, db') = post_response db bot cid content description
                          (utcnow 0%nat) (utcnow 1%nat) None.
Proof.
  unfold trigger_immediate_bot_response.
  destruct (List.find _ (messages db)) as [tm|]; [|done].
  destruct (sender db tm) as [a|]; [|done].
  destruct (u_is_bot a); [done|].
  destruct (first_messaging_bot db _) as [bot|] eqn:Ebot; [|done].
  destruct (_generate_message_response _ _ _) as [content|]; [|done].
  apply first_messaging_bot_spec in Ebot as (bp & Hbp & Hid & Hin & _).
  apply filter_In in Hbp as [_ Hbp]. apply andb_true_iff in Hbp as [_ Hex].
  apply existsb_exists in Hex as (author & Hauthor & Hp).
  apply andb_true_iff in Hp as [Hp Hbot]. apply Z.eqb_eq in Hp.
  intros H. exists bot, author, content. eexists. split_and!; try done.
  - by rewrite Hid.
  - unfold post_response in *. by injection H as <- <-.
Qed.

(** X9. No reply chain: the message produced by
    [trigger_immediate_bot_response], offered in turn as a trigger in any
    conversation, gets no response and changes nothing. *)
Theorem response_triggers_no_response (utcnow utcnow' : nat → Z) (pick pick' : nat)
    (db db' : Database) (conversation_id triggering_message_id conversation_id' : Z)
    (response : Message) :
  NoDup (map u_id (users db)) →
  NoDup (map m_id (messages db)) →
  trigger_immediate_bot_response utcnow pick db conversation_id triggering_message_id
  = (Returned (Some response), db') →
  trigger_immediate_bot_response utcnow' pick' db' conversation_id' (m_id response)
  = (Returned None, db').
Proof.
  intros Husers Hmsgs H.
  apply trigger_success in H as (bot & author & content & descr & Hbot & Hauthor
                                 & Hid & Hisbot & Hpost).
  unfold post_response in Hpost. injection Hpost as -> ->.
  unfold trigger_immediate_bot_response. cbn [messages users sender m_id m_sender_id].
  rewrite MessageFacts.find_app.
  assert (List.find (λ m, m_id m =? next_id (map m_id (messages db))) (messages db) = None)
    as ->.
  { destruct (List.find _ (messages db)) as [m|] eqn:E; [|done].
    apply find_some in E as [Hin Heq]. apply Z.eqb_eq in Heq.
    exfalso. apply (MessageFacts.next_id_fresh (map m_id (messages db))).
    rewrite <- Heq. by apply in_map. }
  simpl. rewrite Z.eqb_refl. unfold sender. cbn [m_sender_id users].
  rewrite <- Hid. rewrite (BotFacts.find_by_key u_id _ author Husers Hauthor).
  by rewrite Hisbot.
Qed.

Lemma response_triggers_no_response_witness :
  trigger_immediate_bot_response Scenario.clock 1
    (trigger_immediate_bot_response Scenario.clock 0 Scenario.db 10 100).2 10 102
  = (Returned None, (trigger_immediate_bot_response Scenario.clock 0 Scenario.db 10 100).2).
Proof.
  apply (response_triggers_no_response Scenario.clock Scenario.clock 0 1 Scenario.db
           (trigger_immediate_bot_response Scenario.clock 0 Scenario.db 10 100).2
           10 100 10
           (post_response Scenario.db Scenario.sam 10 "Hi there! 😊"
              "Real-time response to user 1"
              (Scenario.clock 0) (Scenario.clock 1) None).1).
  - simpl. repeat (apply NoDup_cons; split; [set_solver|]). apply NoDup_nil_2.
  - simpl. repeat (apply NoDup_cons; split; [set_solver|]). apply NoDup_nil_2.
  - vm_compute. reflexivity.
Defined.

(** The row of a bot after the commit of a response, in full. *)
Lemma commit_bot_row (bot : Bot) (stamp : option Z) (rows : list Bot) :
  NoDup (map b_user_id rows) → In bot rows →
  ∃ bot', List.find (λ b, b_user_id b =? b_user_id bot) (commit_bot bot stamp rows)
          = Some bot'
          ∧ b_id bot' = b_id bot
          ∧ b_max_daily_activities bot' = b_max_daily_activities bot
          ∧ b_activity_frequency bot' = b_activity_frequency bot
          ∧ b_total_messages bot' = b_total_messages bot + 1
          ∧ b_last_activity_at bot' =
              match stamp with Some t => Some t | None => b_last_activity_at bot end.
Proof.
  induction rows as [|r rows IH]; intros Hnd Hin; [done|].
  simpl in Hnd. apply NoDup_cons in Hnd as [Hr Hnd]. destruct Hin as [->|Hin].
  - simpl. rewrite Z.eqb_refl. simpl. rewrite Z.eqb_refl. eexists. split; [done|].
    simpl. by destruct stamp.
  - assert (b_user_id r ≠ b_user_id bot) as Hne.
    { intros Heq. apply Hr. rewrite Heq. apply list_elem_of_In, in_map, Hin. }
    destruct (IH Hnd Hin) as (bot' & Hfind & Hrest).
    exists bot'. split; [|done]. simpl.
    apply Z.eqb_neq in Hne.
    destruct (b_id r =? b_id bot); simpl; by rewrite Hne.
Qed.

(** X10. An immediate response is logged as an activity of the bot, so
    it counts against the daily limit although it leaves
    [last_activity_at] alone: the count of today's activities grows by
    one, and the bot is refused by [should_bot_act] once the count reaches
    [max_daily_activities]. *)
Theorem immediate_response_counts_today (utcnow : nat → Z) (pick : nat)
    (db db' : Database) (conversation_id triggering_message_id : Z)
    (response : Message) (now : Z) :
  NoDup (map b_user_id (bots db)) →
  trigger_immediate_bot_response utcnow pick db conversation_id triggering_message_id
  = (Returned (Some response), db') →
  today_start now ≤ utcnow 1%nat →
  ∃ bot bot',
    get_bot_by_user_id db (m_sender_id response) = Some bot
    ∧ get_bot_by_user_id db' (m_sender_id response) = Some bot'
    ∧ today_activities db' bot' now = today_activities db bot now + 1
    ∧ (b_max_daily_activities bot ≤ today_activities db bot now + 1 →
       should_bot_act now db' bot' = false).
Proof.
  intros Hnd H Hday.
  apply trigger_success in H as (bot & author & content & descr & Hbot & _ & _ & _ & Hpost).
  unfold post_response in Hpost. injection Hpost as -> ->.
  destruct (commit_bot_row bot None (bots db) Hnd Hbot)
    as (bot' & Hf & Hid & Hmax & _).
  exists bot, bot'. cbn [m_sender_id]. unfold get_bot_by_user_id at 1 2. cbn [bots].
  rewrite (BotFacts.find_by_key b_user_id _ bot Hnd Hbot), Hf.
  assert (today_activities
            {| users := users db; conversations := conversations db;
               conversation_participants := conversation_participants db;
               messages := messages db ++
                 [{| m_id := next_id (map m_id (messages db));
                     m_conversation_id := conversation_id;
                     m_sender_id := b_user_id bot; m_content := content;
                     m_created_at := utcnow 0%nat; m_is_deleted := false |}];
               bots := commit_bot bot None (bots db);
               bot_activities := bot_activities db ++
                 [{| a_id := next_id (map a_id (bot_activities db));
                     a_bot_id := b_id bot; a_activity_type := MESSAGE;
                     a_description := descr;
                     a_message_id := Some (next_id (map m_id (messages db)));
                     a_success := true; a_created_at := utcnow 1%nat |}] |} bot' now
          = today_activities db bot now + 1) as Hcount.
  { unfold today_activities. cbn [bot_activities]. rewrite Hid.
    rewrite List.filter_app, length_app. simpl.
    rewrite Z.eqb_refl. apply Z.leb_le in Hday. rewrite Hday. simpl. lia. }
  split_and!; try done.
  intros Hcap. unfold should_bot_act. rewrite Hcount, Hmax.
  apply Z.leb_le in Hcap. by rewrite Hcap.
Qed.

Lemma immediate_response_counts_today_witness :
  ∃ bot', get_bot_by_user_id
            (trigger_immediate_bot_response Scenario.clock 0
               (Scenario.with_activities
                  [Scenario.logged 3 Scenario.sam (Scenario.at_time 5 7 0);
                   Scenario.logged 4 Scenario.sam (Scenario.at_time 5 9 0)]) 10 100).2 2
          = Some bot'
          ∧ should_bot_act (Scenario.at_time 5 12 0)
              (trigger_immediate_bot_response Scenario.clock 0
                 (Scenario.with_activities
                    [Scenario.logged 3 Scenario.sam (Scenario.at_time 5 7 0);
                     Scenario.logged 4 Scenario.sam (Scenario.at_time 5 9 0)]) 10 100).2
              bot' = false.
Proof.
  destruct (immediate_response_counts_today Scenario.clock 0
              (Scenario.with_activities
                 [Scenario.logged 3 Scenario.sam (Scenario.at_time 5 7 0);
                  Scenario.logged 4 Scenario.sam (Scenario.at_time 5 9 0)])
              (trigger_immediate_bot_response Scenario.clock 0
                 (Scenario.with_activities
                    [Scenario.logged 3 Scenario.sam (Scenario.at_time 5 7 0);
                     Scenario.logged 4 Scenario.sam (Scenario.at_time 5 9 0)]) 10 100).2
              10 100
              (post_response Scenario.db Scenario.sam 10 "Hi there! 😊"
                 "Real-time response to user 1"
                 (Scenario.clock 0) (Scenario.clock 1) None).1
              (Scenario.at_time 5 12 0))
    as (bot & bot' & Hb & Hb' & Hcount & Hcap).
  - simpl. repeat (apply NoDup_cons; split; [set_solver|]). apply NoDup_nil_2.
  - vm_compute. reflexivity.
  - vm_compute. discriminate.
  - exists bot'. split; [exact Hb'|]. apply Hcap.
    vm_compute in Hb. injection Hb as <-. vm_compute. discriminate.
Defined.

(** X11. A scheduled response uses up the rate limit: after
    [respond_to_messages] returns [True] the bot is refused by
    [should_bot_act] until [activity_frequency] minutes have passed since
    the clock reading stored as [last_activity_at]. *)
Theorem scheduled_response_closes_window (utcnow : nat → Z) (pick : nat)
    (db db' : Database) (bot : Bot) (now : Z) :
  NoDup (map b_user_id (bots db)) →
  In bot (bots db) →
  respond_to_messages utcnow pick db bot = (Returned true, db') →
  now - utcnow 2%nat < b_activity_frequency bot * 60 * 1000000 →
  ∃ bot', get_bot_by_user_id db' (b_user_id bot) = Some bot'
          ∧ should_bot_act now db' bot' = false.
Proof.
  intros Hnd Hin H Hwin. unfold respond_to_messages in H.
  destruct (b_can_message bot); [|done]. simpl in H.
  destruct (map p_conversation_id _) as [|cid0 cids]; [done|].
  destruct (List.filter _ (order_by_created_at_desc _)) as [|msg rest]; [done|].
  destruct (_generate_message_response _ _ _) as [content|]; [|done].
  unfold post_response in H. injection H as <-.
  destruct (commit_bot_row bot (Some (utcnow 2%nat)) (bots db) Hnd Hin)
    as (bot' & Hf & _ & _ & Hfreq & _ & Hlast).
  exists bot'. split; [exact Hf|]. unfold should_bot_act.
  destruct (_ <=? _); [done|]. rewrite Hlast, Hfreq.
  apply Z.ltb_lt in Hwin. by rewrite Hwin.
Qed.

Lemma scheduled_response_closes_window_witness :
  ∃ bot', get_bot_by_user_id
            (respond_to_messages Scenario.clock 0
               (Scenario.with_activities []) Scenario.sam).2 2 = Some bot'
          ∧ should_bot_act (Scenario.at_time 5 10 30)
              (respond_to_messages Scenario.clock 0
                 (Scenario.with_activities []) Scenario.sam).2 bot' = false.
Proof.
  apply (scheduled_response_closes_window Scenario.clock 0 (Scenario.with_activities [])
           (respond_to_messages Scenario.clock 0 (Scenario.with_activities []) Scenario.sam).2
           Scenario.sam (Scenario.at_time 5 10 30)).
  - simpl. repeat (apply NoDup_cons; split; [set_solver|]). apply NoDup_nil_2.
  - left. reflexivity.
  - vm_compute. reflexivity.
  - vm_compute. reflexivity.
Defined.

(** *** The scheduled path *)

Lemma In_insert_desc m x sorted :
  In x (insert_desc m sorted) ↔ x = m ∨ In x sorted.
Proof.
  induction sorted as [|y sorted IH]; simpl; [naive_solver|].
  destruct (m_created_at m <? m_created_at y); simpl; [rewrite IH|]; naive_solver.
Qed.

Lemma In_order_by x rows : In x (order_by_created_at_desc rows) ↔ In x rows.
Proof.
  induction rows as [|y rows IH]; simpl; [done|].
  rewrite In_insert_desc, IH. naive_solver.
Qed.

Lemma insert_desc_sorted m sorted :
  StronglySorted (λ a b, m_created_at b ≤ m_created_at a) sorted →
  StronglySorted (λ a b, m_created_at b ≤ m_created_at a) (insert_desc m sorted).
Proof.
  induction 1 as [|y sorted Hs IH Hall]; simpl.
  - repeat constructor.
  - destruct (m_created_at m <? m_created_at y) eqn:E.
    + apply Z.ltb_lt in E. constructor; [done|].
      apply Forall_forall. intros x Hx.
      apply list_elem_of_In, In_insert_desc in Hx as [->|Hx]; [lia|].
      rewrite Forall_forall in Hall. by apply Hall, list_elem_of_In.
    + apply Z.ltb_ge in E. constructor; [by constructor|].
      constructor; [done|]. eapply Forall_impl; [exact Hall|].
      simpl. intros x Hx. lia.
Qed.

Lemma order_by_sorted rows :
  StronglySorted (λ a b, m_created_at b ≤ m_created_at a) (order_by_created_at_desc rows).
Proof.
  induction rows as [|y rows IH]; simpl; [constructor|]. by apply insert_desc_sorted.
Qed.

Lemma filter_sorted {A} (R : A → A → Prop) (f : A → bool) (l : list A) :
  StronglySorted R l → StronglySorted R (List.filter f l).
Proof.
  induction 1 as [|y l Hs IH Hall]; simpl; [constructor|].
  destruct (f y); [|done]. constructor; [done|].
  apply Forall_forall. intros x Hx. apply list_elem_of_In, filter_In in Hx as [Hx _].
  rewrite Forall_forall in Hall. by apply Hall, list_elem_of_In.
Qed.

(** [respond_to_messages] in terms of its list of unanswered messages. *)
Lemma respond_to_messages_unfold utcnow pick db bot :
  respond_to_messages utcnow pick db bot =
  if negb (b_can_message bot) then (Returned false, db)
  else
    match messages_to_respond db bot (utcnow 0%nat - 24 * 3600 * 1000000) with
    | [] => (Returned false, db)
    | message_to_respond :: _ =>
        match _generate_message_response pick (m_content message_to_respond)
                (b_personality bot) with
        | None => (Raised IndexError, db)
        | Some response_content =>
            (Returned true,
             (post_response db bot (m_conversation_id message_to_respond)
                response_content
                ("Responded to message from user "
                 ++ str_of_Z (m_sender_id message_to_respond))%string
                (utcnow 1%nat) (utcnow 3%nat) (Some (utcnow 2%nat))).2)
        end
    end.
Proof.
  unfold respond_to_messages, messages_to_respond, recent_messages.
  destruct (negb (b_can_message bot)); [done|].
  destruct (map p_conversation_id _) as [|cid0 cids] eqn:E.
  - match goal with
    | |- context [List.filter ?f (messages db)] =>
        rewrite (MessageFacts.filter_none f (messages db)) by done
    end.
    done.
  - destruct (List.filter _ (order_by_created_at_desc _)) as [|msg rest]; [done|].
    by destruct (_generate_message_response _ _ _).
Qed.

(** X12. [respond_to_messages] answers exactly when the bot may message
    and some message is unanswered: written by someone else in the last
    24 hours, not deleted, in a conversation the bot takes part in, with
    no later message of the bot there. It then answers the newest of
    them, in that message's conversation. *)
Theorem scheduled_response_target (utcnow : nat → Z) (pick : nat)
    (db : Database) (bot : Bot) :
  let yesterday := utcnow 0%nat - 24 * 3600 * 1000000 in
  (∀ m, In m (messages_to_respond db bot yesterday) ↔
        In m (messages db)
        ∧ m_sender_id m ≠ b_user_id bot
        ∧ m_is_deleted m = false
        ∧ yesterday ≤ m_created_at m
        ∧ (∃ cp, In cp (conversation_participants db)
                 ∧ p_user_id cp = b_user_id bot ∧ p_is_active cp = true
                 ∧ p_conversation_id cp = m_conversation_id m)
        ∧ (∀ r, In r (messages db) →
                m_conversation_id r = m_conversation_id m →
                m_sender_id r = b_user_id bot →
                m_created_at r ≤ m_created_at m))
  ∧ ((respond_to_messages utcnow pick db bot).1 = Returned true ↔
     b_can_message bot = true ∧ messages_to_respond db bot yesterday ≠ [])
  ∧ (∀ db', respond_to_messages utcnow pick db bot = (Returned true, db') →
       ∃ m response,
         In m (messages_to_respond db bot yesterday)
         ∧ (∀ m', In m' (messages_to_respond db bot yesterday) →
                  m_created_at m' ≤ m_created_at m)
         ∧ messages db' = messages db ++ [response]
         ∧ m_conversation_id response = m_conversation_id m
         ∧ m_sender_id response = b_user_id bot
         ∧ m_created_at response = utcnow 1%nat).
Proof.
  intros yesterday. split_and!.
  - intros m. unfold messages_to_respond, recent_messages.
    rewrite filter_In, In_order_by, filter_In, !andb_true_iff, existsb_exists.
    rewrite !negb_true_iff, Z.eqb_neq, Z.leb_le.
    split.
    + intros [(Hin & ((((c & Hc & Heq) & Hs) & Hy) & Hd)) Hfind].
      apply Z.eqb_eq in Heq.
      apply in_map_iff in Hc as (cp & <- & Hcp). apply filter_In in Hcp as [Hcp Hp].
      apply andb_true_iff in Hp as [Hu Ha]. apply Z.eqb_eq in Hu.
      split_and!; try done; [by exists cp|].
      intros r Hr Hconv Hsend.
      destruct (List.find _ (messages db)) as [x|] eqn:E; [done|].
      pose proof (find_none _ _ E r Hr) as Hn. simpl in Hn.
      rewrite Hconv, Hsend, !Z.eqb_refl in Hn. simpl in Hn.
      by apply Z.ltb_ge in Hn.
    + intros (Hin & Hs & Hd & Hy & (cp & Hcp & Hu & Ha & Hc) & Hlater).
      split.
      * split; [done|]. split_and!; try done.
        exists (p_conversation_id cp). split; [|by apply Z.eqb_eq].
        apply in_map, filter_In. split; [done|]. rewrite Ha, andb_true_r.
        by apply Z.eqb_eq.
      * destruct (List.find _ (messages db)) as [x|] eqn:E; [|done].
        apply find_some in E as [Hx Hp]. rewrite !andb_true_iff in Hp.
        destruct Hp as [[Hconv Hsend] Hlt].
        apply Z.eqb_eq in Hconv, Hsend. apply Z.ltb_lt in Hlt.
        specialize (Hlater x Hx Hconv Hsend). lia.
  - rewrite respond_to_messages_unfold. fold yesterday.
    destruct (b_can_message bot); simpl; [|naive_solver].
    destruct (messages_to_respond db bot yesterday) as [|m rest]; simpl; [naive_solver|].
    destruct (response_is_from_the_pool_aux pick (m_content m) (b_personality bot))
      as (c & -> & _). simpl. naive_solver.
  - intros db' H. rewrite respond_to_messages_unfold in H. fold yesterday in H.
    destruct (b_can_message bot); simpl in H; [|done].
    pose proof (filter_sorted _
                  (λ msg, match List.find
                            (λ m, (m_conversation_id m =? m_conversation_id msg)
                                  && (m_sender_id m =? b_user_id bot)
                                  && (m_created_at msg <? m_created_at m))
                            (messages db) with Some _ => false | None => true end)
                  _ (order_by_sorted
                       (List.filter
                          (λ m, existsb (Z.eqb (m_conversation_id m))
                                  (map p_conversation_id
                                     (List.filter
                                        (λ cp, (p_user_id cp =? b_user_id bot)
                                               && p_is_active cp)
                                        (conversation_participants db)))
                                && negb (m_sender_id m =? b_user_id bot)
                                && (yesterday <=? m_created_at m)
                                && negb (m_is_deleted m))
                          (messages db)))) as Hsorted.
    change (StronglySorted (λ a b, m_created_at b ≤ m_created_at a)
              (messages_to_respond db bot yesterday)) in Hsorted.
    destruct (messages_to_respond db bot yesterday) as [|m rest]; [done|].
    destruct (_generate_message_response _ _ _) as [content|]; [|done].
    injection H as <-. eexists m, _. split_and!; try done; [by left|].
    intros m' [<-|Hm']; [lia|].
    apply StronglySorted_inv in Hsorted as [_ Hall].
    rewrite Forall_forall in Hall. by apply Hall, list_elem_of_In.
Qed.

Lemma scheduled_response_target_witness :
  ∃ m response,
    In m (messages_to_respond Scenario.db Scenario.sam
            (Scenario.clock 0 - 24 * 3600 * 1000000))
    ∧ messages (respond_to_messages Scenario.clock 0 Scenario.db Scenario.sam).2
      = messages Scenario.db ++ [response]
    ∧ m_conversation_id response = m_conversation_id m.
Proof.
  destruct (scheduled_response_target Scenario.clock 0 Scenario.db Scenario.sam)
    as (_ & _ & H).
  destruct (H (respond_to_messages Scenario.clock 0 Scenario.db Scenario.sam).2)
    as (m & response & Hin & _ & Hmsgs & Hconv & _).
  - vm_compute. reflexivity.
  - by exists m, response.
Defined.

(** X13. A message is not answered twice by the scheduled path: once
    [respond_to_messages] has answered in a conversation, no message of
    that conversation older than the answer counts as unanswered any
    more. *)
Theorem answered_messages_are_settled (utcnow : nat → Z) (pick : nat)
    (db db' : Database) (bot : Bot) :
  respond_to_messages utcnow pick db bot = (Returned true, db') →
  ∃ response,
    messages db' = messages db ++ [response]
    ∧ ∀ yesterday m,
        m_conversation_id m = m_conversation_id response →
        m_created_at m < utcnow 1%nat →
        ¬ In m (messages_to_respond db' bot yesterday).
Proof.
  intros H. rewrite respond_to_messages_unfold in H.
  destruct (b_can_message bot); simpl in H; [|done].
  destruct (messages_to_respond db bot _) as [|m0 rest]; [done|].
  destruct (_generate_message_response _ _ _) as [content|]; [|done].
  injection H as <-. eexists. split; [reflexivity|].
  intros yesterday m Hconv Hold Hin.
  unfold messages_to_respond in Hin. apply filter_In in Hin as [_ Hfind].
  destruct (List.find _ _) as [x|] eqn:E; [done|].
  eapply find_none in E; [|apply in_app_iff; right; left; reflexivity].
  simpl in *. rewrite Hconv, !Z.eqb_refl in E. simpl in E.
  apply Z.ltb_ge in E. lia.
Qed.

Lemma answered_messages_are_settled_witness :
  ¬ In Scenario.hello
      (messages_to_respond
         (respond_to_messages Scenario.clock 0 Scenario.db Scenario.sam).2
         Scenario.sam (Scenario.clock 0 - 24 * 3600 * 1000000)).
Proof.
  destruct (answered_messages_are_settled Scenario.clock 0 Scenario.db
              (respond_to_messages Scenario.clock 0 Scenario.db Scenario.sam).2
              Scenario.sam) as (response & Hmsgs & H).
  - vm_compute. reflexivity.
  - apply H.
    + vm_compute in Hmsgs. injection Hmsgs as <-. reflexivity.
    + vm_compute. reflexivity.
Defined.

(** *** Statistics *)

Lemma count_by_type (rows : list BotActivity) :
  foldr Z.add 0
    (map (λ activity_type,
            Z.of_nat (length (List.filter
                                (λ a, bool_decide (a_activity_type a = activity_type))
                                rows)))
       activity_types)
  = Z.of_nat (length rows).
Proof.
  induction rows as [|a rows IH]; [done|].
  unfold activity_types in *. cbn [map foldr List.filter] in *.
  destruct (a_activity_type a); simpl in *; lia.
Qed.

(** X14. In the statistics of [get_bot_stats] the counts per activity
    type add up to the all-time total, today's activities are at most the
    all-time total, and the active bots are at most all bots. *)
Theorem bot_stats_add_up (now : Z) (db : Database) :
  foldr Z.add 0 (map snd (activities_by_type (get_bot_stats now db)))
  = total_activities_all_time (get_bot_stats now db)
  ∧ 0 ≤ total_activities_today (get_bot_stats now db)
      ≤ total_activities_all_time (get_bot_stats now db)
  ∧ 0 ≤ active_bots (get_bot_stats now db) ≤ total_bots (get_bot_stats now db).
Proof.
  unfold get_bot_stats. cbn [activities_by_type total_activities_all_time
    total_activities_today active_bots total_bots].
  split_and!.
  - rewrite map_map. cbn [snd]. apply count_by_type.
  - lia.
  - pose proof (List.filter_length_le
                  (λ a, today_start now <=? a_created_at a) (bot_activities db)). lia.
  - lia.
  - pose proof (List.filter_length_le b_is_active (bots db)). lia.
Qed.

End BotMore.

(** ** More on the message service *)

Module MessageMore.
Import Models MessageService MessageOps MessageFacts.

(** *** Rows after a change of [is_active] *)

Lemma set_active_keys i b rows : map p_id (set_active i b rows) = map p_id rows.
Proof.
  induction rows as [|p rows IH]; simpl; [done|].
  rewrite IH. by destruct (p_id p =? i).
Qed.

Lemma set_active_filter_conversation i b x rows :
  List.filter (λ p, p_conversation_id p =? x) (set_active i b rows)
  = set_active i b (List.filter (λ p, p_conversation_id p =? x) rows).
Proof.
  induction rows as [|p rows IH]; simpl; [done|].
  destruct (p_id p =? i) eqn:E; simpl; destruct (p_conversation_id p =? x); simpl;
    rewrite ?E, IH; done.
Qed.

Lemma set_active_false_filter i rows :
  List.filter p_is_active (set_active i false rows)
  = List.filter (λ p, p_is_active p && negb (p_id p =? i)) rows.
Proof.
  induction rows as [|p rows IH]; simpl; [done|].
  destruct (p_id p =? i); simpl; rewrite IH.
  - by rewrite andb_false_r.
  - rewrite andb_true_r. by destruct (p_is_active p).
Qed.

Lemma set_active_id i b rows :
  (∀ p, In p rows → p_id p ≠ i) → set_active i b rows = rows.
Proof.
  induction rows as [|p rows IH]; intros H; simpl; [done|].
  rewrite IH by (intros q Hq; apply H; by right).
  assert (p_id p ≠ i) as Hne by (apply H; by left).
  apply Z.eqb_neq in Hne. by rewrite Hne.
Qed.

Lemma narrower_filter {A} (f g : A → bool) (key : A → Z) (l : list A) :
  (length (List.filter (λ x, f x && g x) l) ≤ length (List.filter f l))%nat
  ∧ (NoDup (map key (List.filter f l)) →
     NoDup (map key (List.filter (λ x, f x && g x) l))).
Proof.
  induction l as [|x l [IHl IHn]]; simpl; [done|].
  destruct (f x), (g x); simpl; split; try lia; try done.
  - intros Hnd. apply NoDup_cons in Hnd as [Hx Hnd]. apply NoDup_cons. split; [|auto].
    intros Hin. apply Hx. apply list_elem_of_In, in_map_iff in Hin as (y & Hy & Hin).
    apply list_elem_of_In, in_map_iff. exists y. split; [done|].
    apply filter_In in Hin as [Hin Hfg]. apply filter_In. split; [done|].
    by apply andb_true_iff in Hfg as [? _].
  - intros Hnd. apply NoDup_cons in Hnd as [_ Hnd]. auto.
Qed.

Lemma two_members {A} (a b : A) (l : list A) :
  In a l → In b l → a ≠ b → (2 ≤ length l)%nat.
Proof.
  destruct l as [|x [|y l]]; simpl; [done| |lia].
  intros [<-|[]] [<-|[]] H. done.
Qed.

(** X15. Leaving is effective: once [remove_participant] has succeeded
    for a user who had a single active row in the conversation,
    [create_message] by that user is refused and stores nothing. *)
Theorem removed_participant_cannot_post (db db' : Database)
    (conversation_id requester user_id now : Z) (content : string) :
  (length (List.filter (λ p, Z.eqb (p_conversation_id p) conversation_id
                             && Z.eqb (p_user_id p) user_id && p_is_active p)
             (conversation_participants db)) ≤ 1)%nat →
  remove_participant db conversation_id requester user_id = (Returned true, db') →
  create_message now db' conversation_id user_id content
  = (Raised (ValueError "User is not a participant of this conversation"), db').
Proof.
  intros Hone H. unfold remove_participant in H.
  destruct (get_conversation db conversation_id); [|done].
  destruct (active_participant db conversation_id user_id) as [p|] eqn:Ep; [|done].
  injection H as <-. unfold create_message.
  assert (active_participant
            (with_participants db
               (set_active (p_id p) false (conversation_participants db)))
            conversation_id user_id = None) as ->; [|done].
  unfold active_participant in *. cbn [conversation_participants with_participants].
  destruct (List.find _ (set_active _ _ _)) as [q|] eqn:Eq; [|done]. exfalso.
  apply find_some in Ep as [Hp Hpp]. apply find_some in Eq as [Hq Hqp].
  unfold set_active in Hq. apply in_map_iff in Hq as (q0 & Hq0 & Hin0).
  destruct (p_id q0 =? p_id p) eqn:Eid.
  - subst q. simpl in Hqp. by rewrite andb_false_r in Hqp.
  - subst q0. apply Z.eqb_neq in Eid.
    assert (q ≠ p) as Hne by (intros ->; done).
    assert (2 ≤ length (List.filter
                          (λ p, Z.eqb (p_conversation_id p) conversation_id
                                && Z.eqb (p_user_id p) user_id && p_is_active p)
                          (conversation_participants db)))%nat; [|lia].
    apply (two_members q p); [by apply filter_In..|done].
Qed.

Lemma removed_participant_cannot_post_witness :
  create_message (Scenario.at_time 5 11 0)
    (remove_participant Scenario.db 10 1 1).2 10 1 "Hello again"
  = (Raised (ValueError "User is not a participant of this conversation"),
     (remove_participant Scenario.db 10 1 1).2).
Proof.
  apply (removed_participant_cannot_post Scenario.db
           (remove_participant Scenario.db 10 1 1).2 10 1 1).
  - vm_compute. lia.
  - vm_compute. reflexivity.
Defined.

(** *** The operations keep the database well formed *)

Lemma key_injective {A} (key : A → Z) (l : list A) (a b : A) :
  NoDup (map key l) → In a l → In b l → key a = key b → a = b.
Proof.
  induction l as [|x l IH]; intros Hnd Ha Hb Hk; [done|].
  simpl in Hnd. apply NoDup_cons in Hnd as [Hx Hnd].
  destruct Ha as [->|Ha], Hb as [->|Hb]; try done.
  - destruct Hx. rewrite Hk. by apply list_elem_of_In, in_map.
  - destruct Hx. rewrite <- Hk. by apply list_elem_of_In, in_map.
  - by apply IH.
Qed.

Lemma well_formed_same_rows db db' :
  conversations db' = conversations db →
  conversation_participants db' = conversation_participants db →
  well_formed db → well_formed db'.
Proof.
  intros Hc Hp. unfold well_formed, participants. by rewrite Hc, Hp.
Qed.

Lemma set_active_false_well_formed db i :
  well_formed db →
  well_formed (with_participants db
                 (set_active i false (conversation_participants db))).
Proof.
  intros (Hkey & Hfk & Hdirect). split_and!.
  - exact Hkey.
  - intros p Hp. cbn [conversation_participants conversations with_participants] in *.
    unfold set_active in Hp. apply in_map_iff in Hp as (q & <- & Hq).
    specialize (Hfk q Hq). by destruct (p_id q =? i).
  - intros c Hc Hd. unfold participants.
    cbn [conversation_participants conversations with_participants] in *.
    rewrite set_active_filter_conversation, set_active_false_filter.
    destruct (Hdirect c Hc Hd) as [Hlen Hnd]. unfold participants in *.
    destruct (narrower_filter p_is_active (λ p, negb (p_id p =? i)) p_user_id
                (List.filter (λ p, p_conversation_id p =? c_id c)
                   (conversation_participants db))) as [Hle Hnd'].
    split; [lia|auto].
Qed.

Lemma add_each_rows cid ids rows :
  NoDup (map p_id rows) →
  NoDup (map p_id (add_each cid ids rows))
  ∧ (∀ x, x ≠ cid →
       List.filter (λ p, p_conversation_id p =? x) (add_each cid ids rows)
       = List.filter (λ p, p_conversation_id p =? x) rows)
  ∧ (∀ p, In p (add_each cid ids rows) →
       p_conversation_id p = cid
       ∨ In (p_conversation_id p) (map p_conversation_id rows)).
Proof.
  revert rows. induction ids as [|uid ids IH]; intros rows Hnd; simpl.
  - split_and!; [done|done|]. intros p Hp. right. by apply in_map.
  - destruct (List.find _ rows) as [existing|] eqn:E.
    + destruct (p_is_active existing); [by apply IH|].
      apply find_some in E as [Hin Hp]. apply andb_true_iff in Hp as [Hconv _].
      apply Z.eqb_eq in Hconv.
      destruct (IH (set_active (p_id existing) true rows)) as (Hnd' & Hother & Hfk).
      { by rewrite set_active_keys. }
      split_and!; [done| |].
      * intros x Hx. rewrite Hother by done.
        rewrite set_active_filter_conversation. apply set_active_id.
        intros p Hp Hid. apply filter_In in Hp as [Hp Hpx]. apply Z.eqb_eq in Hpx.
        assert (p = existing) as -> by by apply (key_injective p_id rows).
        congruence.
      * intros p Hp. destruct (Hfk p Hp) as [?|Hold]; [by left|right].
        apply in_map_iff in Hold as (q & <- & Hq).
        unfold set_active in Hq. apply in_map_iff in Hq as (q0 & <- & Hq0).
        apply in_map_iff. exists q0. split; [|done].
        by destruct (p_id q0 =? p_id existing).
    + destruct (IH (rows ++ [{| p_id := next_id (map p_id rows);
                                p_conversation_id := cid;
                                p_user_id := uid; p_is_active := true |}]))
        as (Hnd' & Hother & Hfk).
      { rewrite map_app. apply NoDup_app. split_and!; [done| |apply NoDup_singleton].
        intros i Hi Hn. simpl in Hn. apply list_elem_of_singleton in Hn as ->.
        apply list_elem_of_In in Hi. by apply next_id_fresh in Hi. }
      split_and!; [done| |].
      * intros x Hx. rewrite Hother by done. rewrite List.filter_app. simpl.
        apply not_eq_sym, Z.eqb_neq in Hx. rewrite Hx. by rewrite app_nil_r.
      * intros p Hp. destruct (Hfk p Hp) as [?|Hold]; [by left|].
        rewrite map_app, in_app_iff in Hold. destruct Hold as [?|Hnew]; [by right|].
        simpl in Hnew. destruct Hnew as [<-|[]]. by left.
Qed.

Lemma get_conversation_Some db cid c :
  get_conversation db cid = Some c → In c (conversations db) ∧ c_id c = cid.
Proof.
  unfold get_conversation. intros H. apply find_some in H as [Hin Hid].
  by apply Z.eqb_eq in Hid.
Qed.

(** X16. The operations on messages and participants keep the database
    well formed, with the participant rows keyed by [id]: whether they
    return or raise, [create_message], [remove_participant] and
    [add_participants] leave a database in which a DIRECT conversation
    still has at most two active rows, of different users. *)
Theorem operations_keep_well_formed (db : Database) :
  well_formed db → participant_keys db →
  (∀ now conversation_id sender_id content,
     well_formed (create_message now db conversation_id sender_id content).2
     ∧ participant_keys (create_message now db conversation_id sender_id content).2)
  ∧ (∀ conversation_id user_id removed,
       well_formed (remove_participant db conversation_id user_id removed).2
       ∧ participant_keys (remove_participant db conversation_id user_id removed).2)
  ∧ (∀ conversation_id user_id new_participant_ids,
       well_formed (add_participants db conversation_id user_id new_participant_ids).2
       ∧ participant_keys
           (add_participants db conversation_id user_id new_participant_ids).2).
Proof.
  intros Hwf Hkeys. split_and!.
  - intros now cid sid content. unfold create_message.
    destruct (active_participant db cid sid); [|done]. simpl. split; [|done].
    by apply (well_formed_same_rows db).
  - intros cid uid removed. unfold remove_participant.
    destruct (get_conversation db cid); [|done].
    destruct (active_participant db cid removed) as [p|]; [|done]. simpl. split.
    + by apply set_active_false_well_formed.
    + unfold participant_keys. simpl. by rewrite set_active_keys.
  - intros cid uid ids. unfold add_participants.
    destruct (get_conversation db cid) as [conv|] eqn:Econv; [|done].
    destruct (is_direct conv) eqn:Edir; [done|].
    destruct (active_participant db cid uid); [|done].
    destruct (negb _); [done|]. simpl.
    apply get_conversation_Some in Econv as [Hconv Hid].
    destruct (add_each_rows cid ids (conversation_participants db) Hkeys)
      as (Hnd & Hother & Hfk).
    split; [|exact Hnd].
    destruct Hwf as (Hkey & Hfk0 & Hdirect). split_and!.
    + exact Hkey.
    + intros p Hp. cbn [conversation_participants conversations with_participants] in *.
      destruct (Hfk p Hp) as [->|Hold].
      * rewrite <- Hid. by apply in_map.
      * apply in_map_iff in Hold as (q & <- & Hq). by apply Hfk0.
    + intros x Hx Hd. unfold participants.
      cbn [conversation_participants conversations with_participants] in *.
      rewrite Hother; [by apply Hdirect|].
      intros Heq.
      assert (x = conv) as -> by (apply (key_injective c_id _ _ _ Hkey); congruence).
      congruence.
Qed.

Lemma operations_keep_well_formed_witness :
  well_formed (remove_participant Scenario.db 10 1 1).2
  ∧ well_formed (add_participants Scenario.db 10 1 [3]).2
  ∧ well_formed (create_message 0 Scenario.db 10 1 "Hello again").2.
Proof.
  assert (participant_keys Scenario.db) as Hkeys.
  { unfold participant_keys. simpl.
    repeat (apply NoDup_cons; split; [set_solver|]). apply NoDup_nil_2. }
  split_and!;
    apply (operations_keep_well_formed Scenario.db scenario_well_formed Hkeys).
Defined.

(** *** Leaving a direct conversation and opening it again *)

Lemma set_active_false_filter_with (f : ConversationParticipant → bool) i rows :
  (∀ p q, p_conversation_id p = p_conversation_id q → p_user_id p = p_user_id q →
          p_is_active p = p_is_active q → f p = f q) →
  (∀ p, p_is_active p = false → f p = false) →
  List.filter f (set_active i false rows)
  = List.filter (λ p, f p && negb (p_id p =? i)) rows.
Proof.
  intros Hext Hact. induction rows as [|p rows IH]; simpl; [done|].
  destruct (p_id p =? i); simpl; rewrite IH.
  - rewrite andb_false_r. by rewrite Hact.
  - by rewrite andb_true_r.
Qed.

Lemma rows_among_after_leaving db i ids c :
  active_rows_among
    (with_participants db (set_active i false (conversation_participants db))) ids c
  = List.filter
      (λ p, ((p_conversation_id p =? c_id c) && existsb (Z.eqb (p_user_id p)) ids
             && p_is_active p) && negb (p_id p =? i))
      (conversation_participants db).
Proof.
  unfold active_rows_among. cbn [conversation_participants with_participants].
  apply set_active_false_filter_with.
  - intros p q -> -> ->. done.
  - intros p ->. by rewrite andb_false_r.
Qed.

Lemma strictly_narrower_filter {A} (f g : A → bool) (l : list A) (x : A) :
  In x l → f x = true → g x = false →
  (length (List.filter (λ y, f y && g y) l) < length (List.filter f l))%nat.
Proof.
  induction l as [|y l IH]; intros Hin Hf Hg; [done|].
  pose proof (proj1 (narrower_filter f g (λ _, 0) l)) as Hle.
  simpl. destruct Hin as [->|Hin].
  - rewrite Hf, Hg. simpl. lia.
  - specialize (IH Hin Hf Hg). destruct (f y), (g y); simpl; lia.
Qed.

Lemma rows_among_at_most_two db ids c :
  well_formed db → In c (conversations db) → is_direct c = true →
  (length (active_rows_among db ids c) ≤ 2)%nat.
Proof.
  intros (_ & _ & Hdirect) Hc Hd. destruct (Hdirect c Hc Hd) as [Hle _].
  rewrite active_rows_among_filter.
  pose proof (List.filter_length_le (λ p, existsb (Z.eqb (p_user_id p)) ids)
                (List.filter p_is_active (participants db c))). lia.
Qed.

(** X17. Leaving a direct conversation and opening it again: when B has
    left the direct conversation of A and B, the only one in which both
    took part, asking for their direct conversation creates a new one,
    with an id no conversation had, in which both take part. *)
Theorem reopening_creates_a_new_conversation (db db1 : Database) (a b requester : Z)
    (c : Conversation) :
  well_formed db → unique_direct db a b → a ≠ b →
  existing_direct_conversation db a b = Some c →
  remove_participant db (c_id c) requester b = (Returned true, db1) →
  ¬ In (c_id (created db1 a b)) (map c_id (conversations db))
  ∧ created db1 a b ≠ c
  ∧ active_set (after db1 a b) (created db1 a b) = {[a; b]}.
Proof.
  intros Hwf Hdedup Hab Hex Hrm.
  destruct (existing_Some db a b c Hex) as (Hc & Hdir & Hset).
  unfold remove_participant in Hrm.
  destruct (get_conversation db (c_id c)); [|done].
  destruct (active_participant db (c_id c) b) as [p|] eqn:Ep; [|done].
  injection Hrm as <-.
  set (db1 := with_participants db
                (set_active (p_id p) false (conversation_participants db))).
  assert (well_formed db1) as Hwf1 by by apply set_active_false_well_formed.
  assert (existing_direct_conversation db1 a b = None) as Hnone.
  { unfold existing_direct_conversation.
    destruct (List.find _ (conversations db1)) as [x|] eqn:E; [|done]. exfalso.
    apply find_some in E as [Hx Hp]. apply andb_true_iff in Hp as [Hd Hlen].
    apply Nat.eqb_eq in Hlen. change (conversations db1) with (conversations db) in Hx.
    unfold db1 in Hlen. rewrite rows_among_after_leaving in Hlen.
    pose proof (rows_among_at_most_two db [a; b] x Hwf Hx Hd) as Htwo.
    unfold active_rows_among in Htwo.
    pose proof (proj1 (narrower_filter
                  (λ p, (p_conversation_id p =? c_id x)
                        && existsb (Z.eqb (p_user_id p)) [a; b] && p_is_active p)
                  (λ q, negb (p_id q =? p_id p)) (λ _, 0)
                  (conversation_participants db))) as Hle.
    assert (x = c) as ->.
    { apply (Hdedup x c); try done.
      apply candidate_active_set; try done. unfold active_rows_among. lia. }
    apply find_some in Ep as [Hp Hpp].
    apply andb_true_iff in Hpp as [Hpp Hact]. apply andb_true_iff in Hpp as [Hconv Hu].
    apply Z.eqb_eq in Hu.
    pose proof (strictly_narrower_filter
                  (λ p, (p_conversation_id p =? c_id c)
                        && existsb (Z.eqb (p_user_id p)) [a; b] && p_is_active p)
                  (λ q, negb (p_id q =? p_id p))
                  (conversation_participants db) p Hp) as Hlt.
    simpl in Hlt. rewrite Hconv, Hact, Hu, !Z.eqb_refl, !orb_true_r in Hlt.
    specialize (Hlt eq_refl eq_refl). simpl in *. lia. }
  rewrite (created_eq db1 a b Hnone). split_and!.
  - change (c_id (new_conversation db1 a))
      with (next_id (map c_id (conversations db))). apply next_id_fresh.
  - intros Heq.
    apply (next_id_fresh (map c_id (conversations db))).
    change (next_id (map c_id (conversations db))) with (c_id (new_conversation db1 a)).
    rewrite Heq. by apply in_map.
  - by apply active_set_new.
Qed.

Lemma reopening_creates_a_new_conversation_witness :
  created (remove_participant Scenario.db 10 2 2).2 1 2
  ≠ {| c_id := 10; c_type := DIRECT; c_created_by_id := Some 1 |}.
Proof.
  apply (reopening_creates_a_new_conversation Scenario.db
           (remove_participant Scenario.db 10 2 2).2 1 2 2
           {| c_id := 10; c_type := DIRECT; c_created_by_id := Some 1 |}).
  - exact scenario_well_formed.
  - intros x y [<-|[]] [<-|[]] _ _ _ _. reflexivity.
  - lia.
  - vm_compute. reflexivity.
  - vm_compute. reflexivity.
Defined.

(** *** Creating a group *)

Lemma NoDup_map_filter {A} (key : A → Z) (f : A → bool) (l : list A) :
  NoDup (map key l) → NoDup (map key (List.filter f l)).
Proof.
  induction l as [|x l IH]; simpl; [done|]. intros Hnd.
  apply NoDup_cons in Hnd as [Hx Hnd]. destruct (f x); simpl; [|auto].
  apply NoDup_cons. split; [|auto]. intros Hin. apply Hx.
  apply list_elem_of_In, in_map_iff in Hin as (y & Hy & Hin).
  apply list_elem_of_In, in_map_iff. exists y. split; [done|].
  by apply filter_In in Hin as [? _].
Qed.

(** The users found are as many as the ids asked for exactly when the
    ids are pairwise different and each belongs to a user. *)
Lemma users_among_all db ids :
  NoDup (map u_id (users db)) →
  length (users_among db ids) = length ids
  ↔ NoDup ids ∧ ∀ i, In i ids → In i (map u_id (users db)).
Proof.
  intros Hkey. set (found := map u_id (users_among db ids)).
  assert (NoDup found) as Hnd by by apply NoDup_map_filter.
  assert (List.NoDup found) as Hnd' by by apply NoDup_ListNoDup.
  assert (incl found ids) as Hincl.
  { intros i Hi. apply in_map_iff in Hi as (u & <- & Hu).
    apply filter_In in Hu as [_ Hu]. apply existsb_exists in Hu as (j & Hj & Heq).
    apply Z.eqb_eq in Heq. by rewrite Heq. }
  assert (length found = length (users_among db ids)) as Hlen by apply length_map.
  rewrite <- Hlen. split.
  - intros Heq. split.
    + apply NoDup_ListNoDup. eapply NoDup_incl_NoDup; [exact Hnd'|lia|done].
    + intros i Hi.
      assert (In i found) as Hf
        by (eapply (@NoDup_length_incl _ found ids); [done|lia|done|done]).
      apply in_map_iff in Hf as (u & <- & Hu). apply in_map.
      by apply filter_In in Hu as [? _].
  - intros [Hids Hall].
    assert (incl ids found) as Hincl'.
    { intros i Hi. destruct (proj1 (in_map_iff _ _ _) (Hall i Hi)) as (u & <- & Hu).
      apply in_map, filter_In. split; [done|]. apply existsb_exists.
      exists (u_id u). split; [done|]. apply Z.eqb_refl. }
    apply NoDup_ListNoDup in Hids.
    pose proof (NoDup_incl_length Hids Hincl').
    pose proof (NoDup_incl_length Hnd' Hincl). lia.
Qed.

Lemma filter_all {A} (f : A → bool) (l : list A) :
  (∀ x, In x l → f x = true) → List.filter f l = l.
Proof.
  induction l as [|x l IH]; intros H; simpl; [done|].
  rewrite (H x) by by left. rewrite IH; [done|]. intros y Hy. apply H. by right.
Qed.

Section GroupRows.

Variables (first cid : Z) (uids : list Z).

Local Abbreviation rows :=
  (imap (λ i uid, {| p_id := first + Z.of_nat i; p_conversation_id := cid;
                     p_user_id := uid; p_is_active := true |}) uids).

Lemma group_rows_users : map p_user_id rows = uids.
Proof.
  change (map p_user_id rows) with (p_user_id <$> rows).
  rewrite fmap_imap. apply list_eq. intros i. rewrite list_lookup_imap.
  by destruct (uids !! i).
Qed.

Lemma group_rows_In p :
  In p rows →
  p_conversation_id p = cid ∧ p_is_active p = true ∧ first ≤ p_id p.
Proof.
  intros Hp. apply list_elem_of_In, elem_of_lookup_imap in Hp as (i & uid & -> & _).
  simpl. split_and!; [done|done|lia].
Qed.

Lemma group_rows_keys : NoDup (map p_id rows).
Proof.
  change (map p_id rows) with (p_id <$> rows). rewrite fmap_imap.
  apply NoDup_alt. intros i j x Hi Hj.
  rewrite list_lookup_imap in Hi, Hj.
  destruct (uids !! i), (uids !! j); simpl in *; try done.
  injection Hi as <-. injection Hj as Hj. lia.
Qed.

End GroupRows.

(** X18. [create_group_conversation] accepts a list of participants
    exactly when its ids are pairwise different and each belongs to a
    user (a repeated id is reported as a user not found). The group it
    creates has a new id; its participants are the listed users and the
    creator, each with one active row; and the database stays well
    formed. *)
Theorem group_creation (db : Database) (user_id : Z) (participant_ids : list Z) :
  NoDup (map u_id (users db)) →
  well_formed db → participant_keys db →
  ((create_group_conversation db user_id participant_ids).1
   ≠ Raised (ValueError "One or more users not found")
   ↔ NoDup participant_ids
     ∧ ∀ i, In i participant_ids → In i (map u_id (users db)))
  ∧ (∀ c db',
       create_group_conversation db user_id participant_ids = (Returned c, db') →
       c_type c = GROUP
       ∧ ¬ In (c_id c) (map c_id (conversations db))
       ∧ active_set db' c = list_to_set participant_ids ∪ {[user_id]}
       ∧ NoDup (map p_user_id (participants db' c))
       ∧ Forall (λ p, p_is_active p = true) (participants db' c)
       ∧ well_formed db' ∧ participant_keys db').
Proof.
  intros Husers Hwf Hkeys. pose proof (users_among_all db participant_ids Husers) as Hall.
  unfold create_group_conversation.
  destruct (length (users_among db participant_ids) =? length participant_ids)%nat eqn:E;
    simpl.
  - apply Nat.eqb_eq in E. split; [split; [intros _; by apply Hall|done]|].
    intros c db' [= <- <-].
    set (cid := next_id (map c_id (conversations db))).
    set (first := next_id (map p_id (conversation_participants db))).
    set (uids := elements (list_to_set participant_ids ∪ {[user_id]} : gset Z)).
    assert (∀ p, In p (conversation_participants db) → p_conversation_id p ≠ cid) as Hold.
    { intros p Hp Heq. destruct Hwf as (_ & Hfk & _).
      apply (next_id_fresh (map c_id (conversations db))). fold cid. rewrite <- Heq.
      by apply Hfk. }
    assert (∀ x, In x (conversations db) → c_id x ≠ cid) as Holdc.
    { intros x Hx Heq. apply (next_id_fresh (map c_id (conversations db))). fold cid.
      rewrite <- Heq. by apply in_map. }
    assert (participants
              {| users := users db;
                 conversations := conversations db ++
                   [{| c_id := cid; c_type := GROUP; c_created_by_id := Some user_id |}];
                 conversation_participants := conversation_participants db ++
                   imap (λ i uid, {| p_id := first + Z.of_nat i; p_conversation_id := cid;
                                     p_user_id := uid; p_is_active := true |}) uids;
                 messages := messages db; bots := bots db;
                 bot_activities := bot_activities db |}
              {| c_id := cid; c_type := GROUP; c_created_by_id := Some user_id |}
            = imap (λ i uid, {| p_id := first + Z.of_nat i; p_conversation_id := cid;
                                p_user_id := uid; p_is_active := true |}) uids) as Hrows.
    { unfold participants. cbn [conversation_participants c_id].
      rewrite List.filter_app, filter_none, filter_all; [done| |].
      - intros p Hp. apply group_rows_In in Hp as (-> & _). apply Z.eqb_refl.
      - intros p Hp. by apply Z.eqb_neq, Hold. }
    split_and!.
    + done.
    + apply next_id_fresh.
    + unfold active_set. rewrite Hrows, filter_all.
      * rewrite group_rows_users. unfold uids. apply list_to_set_elements_L.
      * intros p Hp. by apply group_rows_In in Hp as (_ & -> & _).
    + rewrite Hrows, group_rows_users. apply NoDup_elements.
    + rewrite Hrows. apply Forall_forall. intros p Hp.
      by apply list_elem_of_In, group_rows_In in Hp as (_ & -> & _).
    + destruct Hwf as (Hkey & Hfk & Hdirect). split_and!.
      * cbn [conversations]. rewrite map_app. apply NoDup_app. split_and!.
        -- exact Hkey.
        -- intros i Hi Hn. simpl in Hn. apply list_elem_of_singleton in Hn as ->.
           apply list_elem_of_In in Hi. by apply next_id_fresh in Hi.
        -- apply NoDup_singleton.
      * intros p. cbn [conversations conversation_participants].
        rewrite map_app, !in_app_iff. intros [Hp|Hp]; [left; by apply Hfk|right].
        apply group_rows_In in Hp as (-> & _). by left.
      * intros x. cbn [conversations]. rewrite in_app_iff.
        intros [Hx|[<-|[]]] Hd; [|done].
        unfold participants. cbn [conversation_participants].
        rewrite List.filter_app.
        rewrite (filter_none _ (imap _ uids)), app_nil_r; [by apply Hdirect|].
        intros p Hp. apply group_rows_In in Hp as (-> & _).
        by apply Z.eqb_neq, not_eq_sym, Holdc.
    + unfold participant_keys. cbn [conversation_participants].
      rewrite map_app. apply NoDup_app. split_and!.
      * exact Hkeys.
      * intros i Hi Hn. apply list_elem_of_In, in_map_iff in Hn as (p & <- & Hp).
        apply group_rows_In in Hp as (_ & _ & Hge).
        assert (∀ ids j, In j ids → j < next_id ids) as Hlt.
        { clear. intros ids j Hj. unfold next_id.
          induction ids as [|k ids IH]; [done|]. simpl.
          destruct Hj as [->|Hj]; [lia|]. specialize (IH Hj). lia. }
        apply list_elem_of_In, Hlt in Hi. fold first in Hi. lia.
      * apply group_rows_keys.
  - apply Nat.eqb_neq in E. split; [|done]. split; [done|].
    intros H. by apply Hall in H.
Qed.

Lemma group_creation_witness :
  (create_group_conversation Scenario.db 1 [2; 2]).1
  = Raised (ValueError "One or more users not found")
  ∧ active_set (create_group_conversation Scenario.db 1 [2; 3]).2
      {| c_id := 11; c_type := GROUP; c_created_by_id := Some 1 |}
    = list_to_set [2; 3] ∪ {[1]}.
Proof.
  assert (NoDup (map u_id (users Scenario.db))) as Husers.
  { simpl. repeat (apply NoDup_cons; split; [set_solver|]). apply NoDup_nil_2. }
  assert (participant_keys Scenario.db) as Hkeys.
  { unfold participant_keys. simpl.
    repeat (apply NoDup_cons; split; [set_solver|]). apply NoDup_nil_2. }
  split.
  - vm_compute. reflexivity.
  - apply (group_creation Scenario.db 1 [2; 3] Husers scenario_well_formed Hkeys).
    vm_compute. reflexivity.
Defined.

(** *** Reading a conversation page by page *)

Lemma sorted_drop {A} (R : A → A → Prop) n (l : list A) :
  StronglySorted R l → StronglySorted R (drop n l).
Proof.
  revert l. induction n as [|n IH]; intros l Hs; [by destruct l|].
  destruct l as [|x l]; simpl; [constructor|].
  apply IH. by apply StronglySorted_inv in Hs as [? _].
Qed.

Lemma sorted_take {A} (R : A → A → Prop) n (l : list A) :
  StronglySorted R l → StronglySorted R (take n l).
Proof.
  revert l. induction n as [|n IH]; intros l Hs; [destruct l; constructor|].
  destruct l as [|x l]; simpl; [constructor|].
  apply StronglySorted_inv in Hs as [Hs Hall]. constructor; [by apply IH|].
  apply Forall_forall. intros y Hy. rewrite Forall_forall in Hall. apply Hall.
  by apply (subseteq_take n l).
Qed.

Lemma sorted_rev {A} (R : A → A → Prop) (l : list A) :
  StronglySorted R l → StronglySorted (λ a b, R b a) (rev l).
Proof.
  induction 1 as [|x l Hs IH Hall]; simpl; [constructor|].
  assert (∀ k, StronglySorted (λ a b, R b a) k → Forall (λ y, R x y) k →
               StronglySorted (λ a b, R b a) (k ++ [x])) as Happ.
  { clear. induction 1 as [|y k Hs IH Hall]; intros Hx; simpl.
    - repeat constructor.
    - apply Forall_cons in Hx as [Hxy Hx]. constructor; [by apply IH|].
      apply Forall_app. split; [done|]. by constructor. }
  apply Happ; [done|]. apply Forall_forall. intros y Hy.
  rewrite Forall_forall in Hall. apply Hall.
  by apply list_elem_of_In, in_rev, list_elem_of_In.
Qed.

Lemma In_visible_messages db cid m :
  In m (visible_messages db cid)
  ↔ In m (messages db) ∧ m_conversation_id m = cid ∧ m_is_deleted m = false.
Proof.
  unfold visible_messages. rewrite BotMore.In_order_by, filter_In, andb_true_iff.
  rewrite Z.eqb_eq, negb_true_iff. tauto.
Qed.

(** X19. For a participant, [get_conversation_messages] returns at most
    [page_size] messages, all of them messages of the conversation that
    are not deleted, oldest first, together with the number of all such
    messages; and no such message is lost: each one is on some page. *)
Theorem conversation_pages (db : Database) (conversation_id user_id page page_size : Z) :
  is_Some (active_participant db conversation_id user_id) →
  1 ≤ page → 1 ≤ page_size →
  ∃ msgs,
    get_conversation_messages db conversation_id user_id page page_size
    = Returned (msgs, Z.of_nat (length (visible_messages db conversation_id)))
    ∧ Z.of_nat (length msgs) ≤ page_size
    ∧ (∀ m, In m msgs →
         In m (messages db) ∧ m_conversation_id m = conversation_id
         ∧ m_is_deleted m = false)
    ∧ StronglySorted (λ a b, m_created_at a ≤ m_created_at b) msgs
    ∧ (∀ m, In m (messages db) → m_conversation_id m = conversation_id →
         m_is_deleted m = false →
         ∃ page' msgs',
           1 ≤ page'
           ∧ get_conversation_messages db conversation_id user_id page' page_size
             = Returned (msgs', Z.of_nat (length (visible_messages db conversation_id)))
           ∧ In m msgs').
Proof.
  intros [p Hp] Hpage Hsize. unfold get_conversation_messages. rewrite Hp.
  eexists. split; [reflexivity|]. split_and!.
  - rewrite length_rev, length_take. lia.
  - intros m Hm. apply in_rev, list_elem_of_In in Hm.
    apply (subseteq_take _ _), (subseteq_drop _ _), list_elem_of_In in Hm.
    by apply In_visible_messages.
  - apply (sorted_rev (λ a b, m_created_at b ≤ m_created_at a)).
    apply sorted_take, sorted_drop. unfold visible_messages.
    apply BotMore.order_by_sorted.
  - intros m Hm Hconv Hdel.
    assert (In m (visible_messages db conversation_id)) as Hvis
      by by apply In_visible_messages.
    apply list_elem_of_In, list_elem_of_lookup in Hvis as [i Hi].
    set (n := Z.to_nat page_size).
    assert (0 < n)%nat as Hn by lia.
    exists (Z.of_nat (i / n) + 1). eexists. split_and!; [lia|reflexivity|].
    apply in_rev. rewrite rev_involutive. apply list_elem_of_In, list_elem_of_lookup.
    exists (i mod n)%nat.
    replace (Z.to_nat ((Z.of_nat (i / n) + 1 - 1) * page_size)) with (i / n * n)%nat
      by (unfold n; lia).
    fold n. rewrite lookup_take_lt by (apply Nat.mod_upper_bound; lia).
    rewrite lookup_drop.
    replace (i / n * n + i mod n)%nat with i; [done|].
    pose proof (Nat.div_mod_eq i n). lia.
Qed.

Lemma conversation_pages_witness :
  get_conversation_messages Scenario.db 10 1 2 1 = Returned ([Scenario.from_bot], 2)
  ∧ ∃ page' msgs', 1 ≤ page'
      ∧ get_conversation_messages Scenario.db 10 1 page' 1 = Returned (msgs', 2)
      ∧ In Scenario.hello msgs'.
Proof.
  destruct (conversation_pages Scenario.db 10 1 2 1) as (msgs & Hget & _ & _ & _ & Hcover).
  - vm_compute. by eexists.
  - lia.
  - lia.
  - split; [vm_compute; reflexivity|].
    destruct (Hcover Scenario.hello) as (page' & msgs' & Hpage & Hget' & Hin).
    + right. left. reflexivity.
    + reflexivity.
    + reflexivity.
    + exists page', msgs'. split_and!; [exact Hpage|exact Hget'|exact Hin].
Defined.

End MessageMore.

(** ** One direct conversation per pair of users *)

Module DirectFacts.
Import Models MessageService MessageOps MessageFacts MessageMore.

(** A DIRECT conversation whose active participants were a pair after
    some of them left had the same pair before. *)
Lemma active_pair_before db db' c x y :
  well_formed db → In c (conversations db) → is_direct c = true → x ≠ y →
  active_set db' c ⊆ active_set db c →
  active_set db' c = {[x; y]} → active_set db c = {[x; y]}.
Proof.
  intros (_ & _ & Hdirect) Hc Hd Hxy Hsub Hset.
  destruct (Hdirect c Hc Hd) as [Hle _]. rewrite Hset in Hsub. clear Hset.
  unfold active_set in *.
  destruct (List.filter p_is_active (participants db c)) as [|p [|q [|r rest]]];
    simpl in *.
  - assert (x ∈ (∅ : gset Z)) as Hx by (apply Hsub; set_solver). set_solver.
  - assert (x ∈ ({[p_user_id p]} ∪ ∅ : gset Z)) as Hx by (apply Hsub; set_solver).
    assert (y ∈ ({[p_user_id p]} ∪ ∅ : gset Z)) as Hy by (apply Hsub; set_solver).
    clear Hsub. set_solver.
  - assert (x ∈ ({[p_user_id p]} ∪ ({[p_user_id q]} ∪ ∅) : gset Z)) as Hx
      by (apply Hsub; set_solver).
    assert (y ∈ ({[p_user_id p]} ∪ ({[p_user_id q]} ∪ ∅) : gset Z)) as Hy
      by (apply Hsub; set_solver).
    clear Hsub. set_solver.
  - lia.
Qed.

Lemma deduplicated_narrowed db db' :
  well_formed db →
  (∀ c, In c (conversations db') → is_direct c = true →
        In c (conversations db) ∧ active_set db' c ⊆ active_set db c) →
  deduplicated db → deduplicated db'.
Proof.
  intros Hwf Hold Hdedup x y Hxy c c' Hc Hc' Hd Hd' Hs Hs'.
  destruct (Hold c Hc Hd) as [Hin Hsub]. destruct (Hold c' Hc' Hd') as [Hin' Hsub'].
  apply (Hdedup x y Hxy c c'); try done.
  - by apply (active_pair_before db db').
  - by apply (active_pair_before db db').
Qed.

Lemma remove_participant_deduplicated db conversation_id user_id removed :
  well_formed db → deduplicated db →
  deduplicated (remove_participant db conversation_id user_id removed).2.
Proof.
  intros Hwf Hdedup. unfold remove_participant.
  destruct (get_conversation db conversation_id) as [found|]; [|done].
  destruct (active_participant db conversation_id removed) as [p|]; [|done].
  cbn [snd]. apply (deduplicated_narrowed db); [done| |done].
  intros c Hc _. split; [done|].
  unfold active_set, participants. cbn [conversation_participants with_participants].
  rewrite set_active_filter_conversation, set_active_false_filter.
  intros u. rewrite !elem_of_list_to_set, !list_elem_of_In, !in_map_iff.
  intros (q & Hu & Hq). exists q. split; [done|].
  rewrite filter_In in *. rewrite andb_true_iff in Hq. tauto.
Qed.

Lemma add_participants_deduplicated db conversation_id user_id new_participant_ids :
  well_formed db → participant_keys db → deduplicated db →
  deduplicated (add_participants db conversation_id user_id new_participant_ids).2.
Proof.
  intros Hwf Hkeys Hdedup. unfold add_participants.
  destruct (get_conversation db conversation_id) as [group|] eqn:Eg; [|done].
  destruct (is_direct group) eqn:Edirect; [done|].
  destruct (active_participant db conversation_id user_id) as [row|]; [|done].
  destruct (negb _); [done|].
  cbn [snd]. apply (deduplicated_narrowed db); [done| |done].
  intros c Hc Hd. split; [done|].
  apply get_conversation_Some in Eg as [Hgroup Hid].
  assert (c_id c ≠ conversation_id) as Hne.
  { intros Heq. destruct Hwf as (Hkey & _).
    assert (c = group) as ->
      by (apply (key_injective c_id (conversations db)); [done..|congruence]).
    congruence. }
  destruct (add_each_rows conversation_id new_participant_ids
              (conversation_participants db) Hkeys) as (_ & Hsame & _).
  unfold active_set, participants. cbn [conversation_participants with_participants].
  by rewrite (Hsame (c_id c) Hne).
Qed.

Lemma create_group_conversation_deduplicated db user_id participant_ids :
  well_formed db → deduplicated db →
  deduplicated (create_group_conversation db user_id participant_ids).2.
Proof.
  intros Hwf Hdedup. unfold create_group_conversation.
  destruct (negb _); [done|].
  cbn [snd]. apply (deduplicated_narrowed db); [done| |done].
  intros c Hc Hd. cbn [conversations] in Hc. apply in_app_iff in Hc as [Hc|Hc].
  - split; [done|].
    unfold active_set, participants. cbn [conversation_participants].
    rewrite List.filter_app.
    rewrite (filter_none _ (imap _ _)); [by rewrite app_nil_r|].
    intros p Hp. apply group_rows_In in Hp as (Hconv & _). cbn [c_id] in Hconv.
    apply Z.eqb_neq. rewrite Hconv. intros Heq.
    apply (next_id_fresh (map c_id (conversations db))). rewrite Heq. by apply in_map.
  - destruct Hc as [<-|[]]. discriminate Hd.
Qed.

(** C8, as stated, fails when the conversations a user has left are
    counted: after B leaves the direct conversation of A and B, the next
    call creates a second DIRECT conversation whose participant rows are
    those of A and B, beside the first. *)
Lemma leaving_and_reopening_duplicates :
  ¬ (∀ db a b c requester db1,
       well_formed db → deduplicated_by_rows db → a ≠ b →
       existing_direct_conversation db a b = Some c →
       remove_participant db (c_id c) requester b = (Returned true, db1) →
       deduplicated_by_rows (after db1 a b)).
Proof.
  intros claim.
  specialize (claim Scenario.db 1 2
                {| c_id := 10; c_type := DIRECT; c_created_by_id := Some 1 |} 2
                (remove_participant Scenario.db 10 2 2).2).
  assert ({| c_id := 10; c_type := DIRECT; c_created_by_id := Some 1 |}
          = {| c_id := 11; c_type := DIRECT; c_created_by_id := Some 1 |}) as Heq;
    [|discriminate Heq].
  apply (claim scenario_well_formed) with (x := 1) (y := 2).
  - intros x y c c' _ [<-|[]] [<-|[]] _ _ _ _. reflexivity.
  - lia.
  - vm_compute. reflexivity.
  - vm_compute. reflexivity.
  - lia.
  - left. reflexivity.
  - right. left. reflexivity.
  - reflexivity.
  - reflexivity.
  - unfold member_set. simpl. set_solver.
  - unfold member_set. simpl. set_solver.
Qed.

(** C8, amended. For distinct users A and B, asking twice for their
    direct conversation, in either argument order, yields the same
    conversation as the first call and adds nothing the second time; and
    every operation of the message service keeps at most one DIRECT
    conversation per pair of different users who both take part in it. *)
Theorem direct_conversation_dedup (db : Database) (a b : Z) :
  a ≠ b → well_formed db →
  get_or_create_direct_conversation (after db a b) a b = (created db a b, after db a b)
  ∧ get_or_create_direct_conversation (after db a b) b a = (created db a b, after db a b)
  ∧ In (created db a b) (conversations (after db a b))
  ∧ is_direct (created db a b) = true
  ∧ active_set (after db a b) (created db a b) = {[a; b]}
  ∧ well_formed (after db a b)
  ∧ (deduplicated db →
     deduplicated (after db a b)
     ∧ (∀ user_id participant_ids,
          deduplicated (create_group_conversation db user_id participant_ids).2)
     ∧ (∀ now conversation_id sender_id content,
          deduplicated (create_message now db conversation_id sender_id content).2)
     ∧ (∀ conversation_id user_id removed,
          deduplicated (remove_participant db conversation_id user_id removed).2)
     ∧ (participant_keys db →
        ∀ conversation_id user_id new_participant_ids,
          deduplicated
            (add_participants db conversation_id user_id new_participant_ids).2)).
Proof.
  intros Hab Hwf.
  assert (deduplicated db →
          (∀ user_id participant_ids,
             deduplicated (create_group_conversation db user_id participant_ids).2)
          ∧ (∀ now conversation_id sender_id content,
               deduplicated (create_message now db conversation_id sender_id content).2)
          ∧ (∀ conversation_id user_id removed,
               deduplicated (remove_participant db conversation_id user_id removed).2)
          ∧ (participant_keys db →
             ∀ conversation_id user_id new_participant_ids,
               deduplicated
                 (add_participants db conversation_id user_id new_participant_ids).2))
    as Hothers.
  { intros Hdedup. split_and!.
    - intros. by apply create_group_conversation_deduplicated.
    - intros now cid sender content. unfold create_message.
      by destruct (active_participant db cid sender).
    - intros. by apply remove_participant_deduplicated.
    - intros. by apply add_participants_deduplicated. }
  assert (∀ c d, existing_direct_conversation d a b = Some c →
                 get_or_create_direct_conversation d a b = (c, d)
                 ∧ get_or_create_direct_conversation d b a = (c, d)) as Hfound.
  { intros c d H. unfold get_or_create_direct_conversation.
    by rewrite <- (existing_direct_conversation_sym d a b), H. }
  destruct (existing_direct_conversation db a b) as [c|] eqn:E.
  - assert (created db a b = c) as Hc
      by (unfold created, get_or_create_direct_conversation; by rewrite E).
    assert (after db a b = db) as Hd
      by (unfold after, get_or_create_direct_conversation; by rewrite E).
    rewrite Hc, Hd. destruct (Hfound c db E) as [H1 H2].
    destruct (existing_Some db a b c E) as (Hin & Hdir & Hset).
    split_and!; try done. intros Hdedup. split; [done|by apply Hothers].
  - rewrite (created_eq db a b E).
    destruct (Hfound _ _ (existing_after db a b Hwf Hab E)) as [H1 H2].
    split_and!.
    + exact H1.
    + exact H2.
    + rewrite (after_conversations db a b E). apply in_app_iff. right. by left.
    + done.
    + by apply active_set_new.
    + by apply after_well_formed.
    + intros Hdedup. split; [|by apply Hothers].
      intros x y Hxy. by apply after_unique_direct, Hdedup.
Qed.

Lemma direct_conversation_dedup_witness :
  get_or_create_direct_conversation (after Scenario.db 1 3) 3 1
  = (created Scenario.db 1 3, after Scenario.db 1 3)
  ∧ get_or_create_direct_conversation (after Scenario.db 2 1) 1 2
    = (created Scenario.db 2 1, after Scenario.db 2 1).
Proof.
  split.
  - apply (direct_conversation_dedup Scenario.db 1 3); [lia|].
    exact scenario_well_formed.
  - apply (direct_conversation_dedup Scenario.db 2 1); [lia|].
    exact scenario_well_formed.
Defined.

End DirectFacts.

(** ** The message and typing frames, end to end *)

Module RealtimeFacts.
Import Models Registry MessageOps Realtime.

Lemma find_is_Some {A} (f : A → bool) (l : list A) (x : A) :
  In x l → f x = true → ∃ y, List.find f l = Some y ∧ In y l ∧ f y = true.
Proof.
  intros Hin Hf. destruct (List.find f l) as [y|] eqn:Hfind.
  - apply find_some in Hfind as [? ?]. by exists y.
  - by rewrite (find_none _ _ Hfind x Hin) in Hf.
Qed.

Lemma member_active_participant db cid uid :
  member db cid uid ↔ is_Some (active_participant db cid uid).
Proof.
  unfold member, active_participant. split.
  - intros (p & Hin & Hc & Hu & Ha).
    destruct (find_is_Some
                (λ p, (p_conversation_id p =? cid) && (p_user_id p =? uid) && p_is_active p)
                (conversation_participants db) p Hin) as (y & -> & _); [|done].
    rewrite Hc, Hu, Ha, !Z.eqb_refl. done.
  - intros [p Hp]. apply find_some in Hp as [Hin Hp].
    rewrite !andb_true_iff, !Z.eqb_eq in Hp. exists p. tauto.
Qed.

Lemma elem_of_participant_ids db c v :
  v ∈ participant_ids db c ↔ member db (c_id c) v.
Proof.
  unfold participant_ids, member, MessageService.participants.
  rewrite list_elem_of_In, in_map_iff. split.
  - intros (p & Hv & Hp). rewrite !filter_In, Z.eqb_eq in Hp. exists p. tauto.
  - intros (p & Hin & Hc & Hu & Ha). exists p. rewrite !filter_In, Z.eqb_eq. tauto.
Qed.

Lemma send_to_conversation_everyone m ps w :
  send_to_conversation m ps false None w = send_all m ps w.
Proof.
  rewrite RegistryFacts.send_to_conversation_send_all. f_equal.
  induction ps as [|p ps IH]; simpl; [done|]. by f_equal.
Qed.

(** What a broadcast to a list of users emits. *)
Lemma send_all_emitted m us w :
  (∀ v k, v ∈ us → k ∈ connections_of (manager w) v →
     ∃ ok, {| addressee := v; socket := k; payload := m; delivered := ok |}
           ∈ emitted w (send_all m us w))
  ∧ (∀ d, d ∈ emitted w (send_all m us w) → addressee d ∈ us ∧ payload d = m).
Proof.
  destruct (RegistryFacts.send_all_spec m us w) as (ds & Hext & Hall & Hreach & _).
  rewrite (RegistryFacts.emitted_extends _ _ _ Hext). split; [done|].
  intros d Hd. rewrite Forall_forall in Hall. by apply Hall.
Qed.

(** X20. A [message] frame from a user without an active row in the
    conversation stores nothing and reaches nobody: the only thing sent
    is the error event on the sender's own socket. *)
Theorem outsider_message_is_refused (now : Z) (websocket : WebSocket)
    (user_id conversation_id : Z) (content : string) (srv : Server) :
  ¬ member (store srv) conversation_id user_id →
  ∃ (ok : bool) (w : World),
    handle_message now websocket user_id conversation_id content srv
    = (if ok then None else Some WebSocketDisconnect, None,
       {| world := w; store := store srv |})
    ∧ manager w = manager (world srv)
    ∧ emitted (world srv) w
      = [{| addressee := user_id; socket := websocket;
            payload := ErrorEvent "User is not a participant of this conversation";
            delivered := ok |}].
Proof.
  intros Hout. unfold handle_message, create_message.
  destruct (active_participant (store srv) conversation_id user_id) as [p|] eqn:Hp.
  { exfalso. apply Hout, member_active_participant. by eexists. }
  unfold send_json, send_text.
  eexists _, _. split; [reflexivity|]. split; [done|].
  unfold emitted. simpl. by rewrite drop_app_length.
Qed.

Lemma outsider_message_is_refused_witness :
  ∃ (ok : bool) (w : World),
    handle_message 0 5%nat 3 10 "hi"
      {| world := connect 4%nat 1 0 (start []); store := Scenario.db |}
    = (if ok then None else Some WebSocketDisconnect, None,
       {| world := w; store := Scenario.db |})
    ∧ manager w = manager (connect 4%nat 1 0 (start []))
    ∧ emitted (connect 4%nat 1 0 (start [])) w
      = [{| addressee := 3; socket := 5%nat;
            payload := ErrorEvent "User is not a participant of this conversation";
            delivered := ok |}].
Proof.
  apply (outsider_message_is_refused 0 5%nat 3 10 "hi"
           {| world := connect 4%nat 1 0 (start []); store := Scenario.db |}).
  intros (p & Hin & Hc & Hu & Ha). simpl in Hin.
  destruct Hin as [<- | [<- | []]]; discriminate.
Defined.

Lemma handle_message_member now websocket user_id conversation_id content srv :
  member (store srv) conversation_id user_id →
  (∃ c, In c (conversations (store srv)) ∧ c_id c = conversation_id) →
  (∃ u, In u (users (store srv)) ∧ u_id u = user_id) →
  let new := new_message now (store srv) conversation_id user_id content in
  ∃ c, c_id c = conversation_id
       ∧ handle_message now websocket user_id conversation_id content srv
         = (None,
            Some {| t_conversation_id := conversation_id;
                    t_message_id := m_id new;
                    t_participant_ids := participant_ids (store srv) c |},
            {| world := send_all (announce new) (participant_ids (store srv) c) (world srv);
               store := with_message (store srv) new |}).
Proof.
  intros Hmem (c & Hc & Hcid) (u & Hu & Huid) new.
  apply member_active_participant in Hmem as [p Hp].
  unfold handle_message, create_message. rewrite Hp.
  destruct (find_is_Some (λ c, c_id c =? conversation_id) _ c Hc)
    as (c' & Hfind & _ & Hid'); [by apply Z.eqb_eq|].
  apply Z.eqb_eq in Hid'.
  unfold get_conversation. simpl. rewrite Hfind.
  destruct (find_is_Some (λ u, u_id u =? user_id) _ u Hu)
    as (u' & Hfu & _); [by apply Z.eqb_eq|].
  unfold message_event, BotService.sender. simpl. rewrite Hfu.
  exists c'. split; [done|].
  rewrite send_to_conversation_everyone. reflexivity.
Qed.

(** X21. A [message] frame from a participant is stored as a new row
    with a fresh id, and the event that announces it is sent to every
    connection of every user with an active row in the conversation (the
    sender's own connections included) and to nobody else. *)
Theorem message_is_stored_and_delivered (now : Z) (websocket : WebSocket)
    (user_id conversation_id : Z) (content : string) (srv : Server) :
  member (store srv) conversation_id user_id →
  (∃ c, In c (conversations (store srv)) ∧ c_id c = conversation_id) →
  (∃ u, In u (users (store srv)) ∧ u_id u = user_id) →
  ∃ new task srv',
    handle_message now websocket user_id conversation_id content srv
    = (None, Some task, srv')
    ∧ messages (store srv') = messages (store srv) ++ [new]
    ∧ ¬ In (m_id new) (map m_id (messages (store srv)))
    ∧ m_conversation_id new = conversation_id ∧ m_sender_id new = user_id
    ∧ m_content new = content ∧ m_is_deleted new = false
    ∧ t_message_id task = m_id new
    ∧ (∀ v, v ∈ t_participant_ids task ↔ member (store srv) conversation_id v)
    ∧ (∀ v k, member (store srv) conversation_id v →
              k ∈ connections_of (manager (world srv)) v →
              tried v k (announce new) (emitted (world srv) (world srv')))
    ∧ (∀ d, d ∈ emitted (world srv) (world srv') →
            member (store srv) conversation_id (addressee d)
            ∧ payload d = announce new).
Proof.
  intros Hmem Hconv Huser.
  destruct (handle_message_member now websocket user_id conversation_id content srv
              Hmem Hconv Huser) as (c & Hcid & Heq).
  eexists _, _, _. split; [exact Heq|]. simpl.
  destruct (send_all_emitted
              (announce (new_message now (store srv) conversation_id user_id content))
              (participant_ids (store srv) c) (world srv)) as [Hreach Honly].
  split_and!; try done.
  - apply MessageFacts.next_id_fresh.
  - intros v. by rewrite elem_of_participant_ids, Hcid.
  - intros v k Hv Hk. apply Hreach; [|done]. by rewrite elem_of_participant_ids, Hcid.
  - intros d Hd. destruct (Honly d Hd) as [Hin Hpay]. split; [|done].
    by rewrite elem_of_participant_ids, Hcid in Hin.
Qed.

Lemma message_is_stored_and_delivered_witness :
  ∃ new task srv',
    handle_message 0 4%nat 1 10 "hi"
      {| world := connect 4%nat 1 0 (start []); store := Scenario.db |}
    = (None, Some task, srv')
    ∧ messages (store srv') = messages Scenario.db ++ [new]
    ∧ tried 1 4%nat (announce new)
        (emitted (connect 4%nat 1 0 (start [])) (world srv')).
Proof.
  destruct (message_is_stored_and_delivered 0 4%nat 1 10 "hi"
              {| world := connect 4%nat 1 0 (start []); store := Scenario.db |})
    as (new & task & srv' & Heq & Hstore & _ & _ & _ & _ & _ & _ & _ & Hreach & _).
  - eexists. split_and!; [left; reflexivity|reflexivity..].
  - eexists. split; [left; reflexivity|reflexivity].
  - eexists. split; [left; reflexivity|reflexivity].
  - exists new, task, srv'. split_and!; [exact Heq|exact Hstore|].
    apply Hreach.
    + eexists. split_and!; [left; reflexivity|reflexivity..].
    + vm_compute. left.
Defined.

(** *** The reply of a bot *)

Lemma find_fresh_message (rows : list Message) (new : Message) :
  m_id new = next_id (map m_id rows) →
  List.find (λ m, m_id m =? m_id new) (rows ++ [new]) = Some new.
Proof.
  intros Hid. rewrite MessageFacts.find_app.
  destruct (List.find _ rows) as [m|] eqn:Hfind.
  - apply find_some in Hfind as [Hin Heq]. apply Z.eqb_eq in Heq.
    destruct (MessageFacts.next_id_fresh (map m_id rows)).
    rewrite <- Hid, <- Heq. by apply in_map.
  - simpl. by rewrite Z.eqb_refl.
Qed.

Lemma first_messaging_bot_exists db bps bp bot :
  In bp bps → In bot (bots db) → b_user_id bot = p_user_id bp →
  b_is_active bot = true → b_can_message bot = true →
  is_Some (BotService.first_messaging_bot db bps).
Proof.
  intros Hbp Hbot Huser Hact Hcan.
  induction bps as [|x bps IH]; [done|]. simpl.
  destruct (List.find _ (bots db)) as [b|] eqn:Hfind; [by eexists|].
  destruct Hbp as [-> | Hbp]; [|by apply IH].
  pose proof (find_none _ _ Hfind bot Hbot) as Hno. simpl in Hno.
  by rewrite Huser, Z.eqb_refl, Hact, Hcan in Hno.
Qed.

(** X22. A human participant writes in a conversation that has a bot able
    to message: the task created for the stored message adds one reply
    after it, written by a bot account that is an active participant,
    with a text from the pool for the class of the human's text, and the
    event that announces the reply is sent to every connection of every
    user who was an active participant when the human's message was
    stored. *)
Theorem bot_replies_in_real_time (utcnow : nat → Z) (pick : nat) (now : Z)
    (websocket : WebSocket) (user_id conversation_id : Z) (content : string)
    (srv : Server) (bot : Bot) :
  member (store srv) conversation_id user_id →
  (∃ c, In c (conversations (store srv)) ∧ c_id c = conversation_id) →
  (∃ u, In u (users (store srv)) ∧ u_id u = user_id) →
  (∀ u, In u (users (store srv)) → u_id u = user_id → u_is_bot u = false) →
  In bot (bots (store srv)) → b_is_active bot = true → b_can_message bot = true →
  member (store srv) conversation_id (b_user_id bot) →
  (∃ u, In u (users (store srv)) ∧ u_id u = b_user_id bot ∧ u_is_bot u = true) →
  ∃ new task srv1 reply,
    handle_message now websocket user_id conversation_id content srv
    = (None, Some task, srv1)
    ∧ messages (store (trigger_bot_response utcnow pick task srv1))
      = messages (store srv) ++ [new; reply]
    ∧ m_sender_id new = user_id ∧ m_content new = content
    ∧ m_conversation_id reply = conversation_id
    ∧ member (store srv) conversation_id (m_sender_id reply)
    ∧ (∃ author responder,
         In author (users (store srv)) ∧ u_id author = m_sender_id reply
         ∧ u_is_bot author = true
         ∧ In responder (bots (store srv)) ∧ b_user_id responder = m_sender_id reply
         ∧ In (m_content reply)
              (BotService.responses (default FRIENDLY (b_personality responder))
                 (BotService.classify content)))
    ∧ (∀ v k, member (store srv) conversation_id v →
              k ∈ connections_of (manager (world srv1)) v →
              tried v k (announce reply)
                (emitted (world srv1)
                   (world (trigger_bot_response utcnow pick task srv1)))).
Proof.
  intros Hmem Hconv Huser Hhuman Hbot Hact Hcan (bp & Hbp & Hbpc & Hbpu & Hbpa)
    (bu & Hbu & Hbuid & Hbubot).
  destruct (handle_message_member now websocket user_id conversation_id content srv
              Hmem Hconv Huser) as (c & Hcid & Heq).
  destruct Huser as (u & Hu & Huid).
  set (db := store srv) in *.
  set (new := new_message now db conversation_id user_id content) in *.
  set (bps := List.filter
                (λ p, (p_conversation_id p =? conversation_id) && p_is_active p
                      && existsb (λ u, (u_id u =? p_user_id p) && u_is_bot u) (users db))
                (conversation_participants db)).
  assert (In bp bps) as Hin.
  { apply filter_In. split; [done|].
    rewrite Hbpc, Z.eqb_refl, Hbpa. simpl. apply existsb_exists.
    exists bu. by rewrite Hbuid, Hbpu, Z.eqb_refl, Hbubot. }
  destruct (first_messaging_bot_exists (with_message db new) bps bp bot Hin Hbot)
    as [responder Hfirst]; [done..|].
  destruct (BotMore.first_messaging_bot_spec _ _ _ Hfirst)
    as (rp & Hrp & Hruser & Hrbot & _ & _).
  apply filter_In in Hrp as [Hrp Hrpf].
  rewrite !andb_true_iff, Z.eqb_eq in Hrpf. destruct Hrpf as [[Hrpc Hrpa] Hrpu].
  apply existsb_exists in Hrpu as (author & Hauthor & Hau).
  rewrite andb_true_iff, Z.eqb_eq in Hau. destruct Hau as [Hauid Haubot].
  destruct (BotMore.response_is_from_the_pool_aux pick content (b_personality responder))
    as (text & Htext & Hpool).
  destruct (find_is_Some (λ u, u_id u =? user_id) _ u Hu)
    as (u' & Hfu & Hu' & Hid'); [by apply Z.eqb_eq|].
  apply Z.eqb_eq in Hid'.
  destruct (find_is_Some (λ u, u_id u =? b_user_id responder) _ author Hauthor)
    as (a' & Hfa & _); [apply Z.eqb_eq; congruence|].
  set (reply := {| m_id := next_id (map m_id (messages db ++ [new]));
                    m_conversation_id := conversation_id;
                    m_sender_id := b_user_id responder;
                    m_content := text;
                    m_created_at := utcnow 0%nat;
                    m_is_deleted := false |}).
  set (task := {| t_conversation_id := conversation_id; t_message_id := m_id new;
                  t_participant_ids := participant_ids db c |}) in *.
  set (srv1 := {| world := send_all (announce new) (participant_ids db c) (world srv);
                  store := with_message db new |}) in *.
  assert (trigger_bot_response utcnow pick task srv1
          = {| world := send_all (announce reply) (participant_ids db c) (world srv1);
               store :=
                 (BotService.post_response (with_message db new) responder
                    conversation_id text
                    ("Real-time response to user " +:+ BotService.str_of_Z user_id)
                    (utcnow 0%nat) (utcnow 1%nat) None).2 |}) as Hrun.
  { pose proof (find_fresh_message (messages db) new eq_refl) as Hfm. simpl in Hfm.
    unfold trigger_bot_response, BotService.trigger_immediate_bot_response. simpl.
    rewrite Hfm.
    unfold BotService.sender at 1. simpl. rewrite Hfu, (Hhuman u' Hu' Hid').
    fold bps. rewrite Hfirst. simpl. rewrite Htext.
    unfold BotService.post_response, message_event, BotService.sender. simpl.
    rewrite Hfa, send_to_conversation_everyone. done. }
  exists new, task, srv1, reply. split; [exact Heq|]. rewrite Hrun. simpl.
  split_and!; try done.
  - by rewrite <- app_assoc.
  - rewrite Hruser. exists rp. by rewrite Hrpc, Hrpa.
  - exists author, responder. simpl in Hrbot. split_and!; [done|congruence|done..].
  - intros v k Hv Hk.
    apply (send_all_emitted (announce reply) (participant_ids db c)); [|done].
    by rewrite elem_of_participant_ids, Hcid.
Qed.

Lemma bot_replies_in_real_time_witness :
  ∃ new task srv1 reply,
    handle_message 0 4%nat 1 10 "hi there"
      {| world := connect 4%nat 1 0 (start []); store := Scenario.db |}
    = (None, Some task, srv1)
    ∧ messages (store (trigger_bot_response Scenario.clock 0 task srv1))
      = messages Scenario.db ++ [new; reply]
    ∧ m_conversation_id reply = 10.
Proof.
  destruct (bot_replies_in_real_time Scenario.clock 0 0 4%nat 1 10 "hi there"
              {| world := connect 4%nat 1 0 (start []); store := Scenario.db |}
              Scenario.sam)
    as (new & task & srv1 & reply & Heq & Hstore & _ & _ & Hconv & _).
  - eexists. split_and!; [left; reflexivity|reflexivity..].
  - eexists. split; [left; reflexivity|reflexivity].
  - eexists. split; [left; reflexivity|reflexivity].
  - intros u [<- | [<- | [<- | []]]] Hid;
      [reflexivity | discriminate Hid | discriminate Hid].
  - left. reflexivity.
  - reflexivity.
  - reflexivity.
  - eexists. split_and!; [right; left; reflexivity|reflexivity..].
  - eexists. split_and!; [right; left; reflexivity|reflexivity..].
  - exists new, task, srv1, reply. split_and!; [exact Heq|exact Hstore|exact Hconv].
Defined.

(** *** The typing frame *)

(** X23. A [typing] frame for an existing conversation stores nothing and
    is relayed whoever sends it, participant or not: the typing event is
    sent to every connection of every user with an active row in the
    conversation other than the sender, and to nobody else, and the
    sender is listed as typing in the conversation exactly when the flag
    is set. *)
Theorem typing_is_relayed_to_the_others (now user_id conversation_id : Z)
    (is_typing : bool) (srv : Server) :
  (∃ c, In c (conversations (store srv)) ∧ c_id c = conversation_id) →
  let srv' := handle_typing now user_id conversation_id is_typing srv in
  let e := TypingEvent conversation_id user_id is_typing now in
  store srv' = store srv
  ∧ (∀ v k, member (store srv) conversation_id v → v ≠ user_id →
            k ∈ connections_of (manager (world srv)) v →
            tried v k e (emitted (world srv) (world srv')))
  ∧ (∀ d, d ∈ emitted (world srv) (world srv') →
          addressee d ≠ user_id
          ∧ member (store srv) conversation_id (addressee d)
          ∧ payload d = e)
  ∧ (user_id ∈ get_typing_users (manager (world srv')) conversation_id
     ↔ is_typing = true).
Proof.
  intros (c & Hc & Hcid).
  destruct (find_is_Some (λ c, c_id c =? conversation_id) _ c Hc)
    as (c' & Hfind & _ & Hid'); [by apply Z.eqb_eq|].
  apply Z.eqb_eq in Hid'.
  unfold handle_typing, get_conversation. rewrite Hfind. simpl.
  unfold broadcast_typing_status. rewrite RegistryFacts.send_except_send_all.
  set (e := TypingEvent conversation_id user_id is_typing now).
  set (us := List.filter (λ p, negb (p =? user_id)) (participant_ids (store srv) c')).
  set (w0 := with_manager (set_typing conversation_id user_id is_typing) (world srv)).
  destruct (RegistryFacts.send_all_spec e us w0)
    as (ds & Hext & Hall & Hreach & _ & Htyping & _).
  assert (emitted (world srv) (send_all e us w0) = ds) as ->
    by exact (RegistryFacts.emitted_extends w0 _ _ Hext).
  assert (∀ v, v ∈ us ↔ v ≠ user_id ∧ member (store srv) conversation_id v) as Hus.
  { intros v. unfold us.
    rewrite list_elem_of_In, filter_In, <- list_elem_of_In, elem_of_participant_ids.
    rewrite negb_true_iff, Z.eqb_neq, Hid'. tauto. }
  split_and!; [done|..].
  - intros v k Hv Hne Hk. apply Hreach; [by apply Hus|done].
  - intros d Hd. rewrite Forall_forall in Hall. destruct (Hall d Hd) as [Hin Hpay].
    apply Hus in Hin. tauto.
  - unfold get_typing_users. rewrite Htyping. unfold w0. simpl.
    rewrite elem_of_elements. destruct is_typing.
    + rewrite lookup_insert_eq. simpl. set_solver.
    + destruct (typing_users (manager (world srv)) !! conversation_id)
        as [old|] eqn:E.
      * destruct (decide (old ∖ {[user_id]} = ∅)) as [Hemp|Hemp].
        -- rewrite lookup_delete_eq. simpl. set_solver.
        -- rewrite lookup_insert_eq. simpl. set_solver.
      * rewrite E. simpl. set_solver.
Qed.

Lemma typing_is_relayed_to_the_others_witness :
  tried 1 4%nat (TypingEvent 10 3 true 0)
    (emitted (connect 4%nat 1 0 (start []))
       (world (handle_typing 0 3 10 true
                 {| world := connect 4%nat 1 0 (start []); store := Scenario.db |})))
  ∧ 3 ∈ get_typing_users
          (manager
             (world (handle_typing 0 3 10 true
                       {| world := connect 4%nat 1 0 (start []);
                          store := Scenario.db |}))) 10.
Proof.
  destruct (typing_is_relayed_to_the_others 0 3 10 true
              {| world := connect 4%nat 1 0 (start []); store := Scenario.db |})
    as (_ & Hreach & _ & Htyping).
  - eexists. split; [left; reflexivity|reflexivity].
  - split.
    + apply Hreach.
      * eexists. split_and!; [left; reflexivity|reflexivity..].
      * discriminate.
      * vm_compute. left.
    + by apply Htyping.
Defined.

End RealtimeFacts.
